(** * AdAggregator: a shallow embedding of [aggregator.py]

    The engine streams the records of a campaign CSV, sums four counters
    per [campaign_id], derives CTR and CPA, and writes two top-10 reports.

    Layout of this development:
    - [PyNum]: the Python number primitives the engine calls ([+], [/], [<]
      on [float], [int()], [float()], [round(x, 4)]), as an interface;
    - [dict], [DictReader], [sorted], [M]: the parts of Python the engine
      relies on (insertion-ordered dicts, csv records, the stable sort,
      state with exceptions);
    - [Section Engine]: the class [AdAggregator], method by method;
    - [Module Binary64]: the interface instantiated with IEEE 754 binary64
      (the kernel's primitive floats), used to run the engine on concrete
      inputs;
    - the properties of the engine, first for any [PyNum], then for
      binary64 where they rest on the order of the floats, then on
      concrete runs. *)

From Stdlib Require Import ZArith Ascii.
From Stdlib Require String.
From Stdlib Require Floats.
From stdpp Require Import gmap strings list fin_maps sorting.

Local Open Scope Z_scope.

(** ** Python numbers *)

(** The exceptions the engine can raise.  [OSError] stands for any
    [OSError] the file system raises other than the three named. *)
Inductive exn :=
| KeyError
| TypeError
| ValueError
| OverflowError
| FileNotFoundError
| FileExistsError
| IsADirectoryError
| OSError.

(** The result of a call: a value, or a raised exception. *)
Inductive outcome (A : Type) :=
| Return (a : A)
| Raise (e : exn).
Arguments Return {A} a.
Arguments Raise {A} e.

(** The operations of Python's [float] and [int] used by [aggregator.py].
    - [fzero] is the literal [0.0];
    - [fadd x y] is [x + y] and [truediv x y] is [x / y] on two floats ([/]
      raises [ZeroDivisionError] only for a zero divisor; both divisions of
      the engine are guarded by [> 0]);
    - [flt x y] is [x < y];
    - [round4 x] is [round(x, 4)];
    - [float_of_int z] is the conversion of an [int] operand in mixed
      arithmetic ([None]: [OverflowError], the int is too large);
    - [int_of_float x] is [int(x)];
    - [int_of_str s] is [int(s)] and [float_of_str s] is [float(s)] on a
      [str] ([None]: [ValueError]). *)
Class PyNum := {
  float : Type;
  fzero : float;
  fadd : float → float → float;
  truediv : float → float → float;
  flt : float → float → bool;
  round4 : float → float;
  float_of_int : Z → option float;
  int_of_float : float → outcome Z;
  int_of_str : string → option Z;
  float_of_str : string → option float;
}.

(** ** Insertion-ordered dictionaries

    A Python [dict] iterates in insertion order, and assigning to a key
    that is present keeps its position.  The engine's two mappings are
    iterated ([items()]), so they are association lists in insertion
    order. *)
Section Dict.
Context {K V : Type} `{EqDecision K}.

Definition dict := list (K * V).

Fixpoint dict_get (k : K) (d : dict) : option V :=
  match d with
  | [] => None
  | (k', v) :: d' => if decide (k = k') then Some v else dict_get k d'
  end.

Fixpoint dict_set (k : K) (v : V) (d : dict) : dict :=
  match d with
  | [] => [(k, v)]
  | (k', v') :: d' =>
      if decide (k = k') then (k, v) :: d' else (k', v') :: dict_set k v d'
  end.

Definition dict_keys (d : dict) : list K := d.*1.

End Dict.
Arguments dict K V : clear implicits.

(** ** The csv module, at the level of records

    [csv.reader] yields each record of the file as a list of strings, and
    [csv.writer.writerow] takes a list of values, which it renders with
    [str()] ([None] as the empty string). *)

(** A value of a [DictReader] row: a [str], or [None], the [restval] of a
    field missing from a short record. *)
Definition cell := option string.

(** The dict [DictReader] yields for one record.  The entry under the
    [restkey] [None] (the surplus fields of a long record) is left out: the
    engine reads string keys only. *)
Definition row := gmap string cell.

Definition make_row (fieldnames record : list string) : row :=
  foldl (λ d '(i, name), <[name := record !! i]> d) ∅
        (imap (λ i name, (i, name)) fieldnames).

(** [csv.DictReader(f)]: the first record names the fields, empty records
    are skipped. *)
Definition DictReader (f : list (list string)) : list row :=
  match f with
  | [] => []
  | fieldnames :: records =>
      make_row fieldnames <$> filter (λ r, r ≠ []) records
  end.

(** [os.path.join(a, b)] for a relative [b] (posixpath). *)
Definition ends_with_sep (a : string) : bool :=
  match rev (String.list_ascii_of_string a) with
  | c :: _ => if decide (c = "/"%char) then true else false
  | [] => true
  end.

Definition path_join (a b : string) : string :=
  if ends_with_sep a then a +:+ b else a +:+ "/" +:+ b.

(** ** [sorted]

    [sorted(l, key=..., reverse=...)] is a stable sort that compares keys
    with [<] only.  It is modelled by stable insertion sort, which returns
    the same list as any stable sort whenever [<] is a strict weak order on
    the keys.  With [reverse=True] the list is reversed, sorted and
    reversed again, as [list.sort] does, so that equal keys keep their
    original order. *)
Section Sorted.
Context {A K : Type} (key : A → K) (lt : K → K → bool).

Fixpoint insert_sorted (x : A) (l : list A) : list A :=
  match l with
  | [] => [x]
  | y :: l' =>
      if lt (key y) (key x) then y :: insert_sorted x l' else x :: y :: l'
  end.

Fixpoint stable_sort (l : list A) : list A :=
  match l with
  | [] => []
  | x :: l' => insert_sorted x (stable_sort l')
  end.

Definition sorted (descending : bool) (l : list A) : list A :=
  if descending then reverse (stable_sort (reverse l)) else stable_sort l.

(** [x] may stand before [y] in ascending order: [y] is not below [x]. *)
Definition not_after (x y : A) : Prop := lt (key y) (key x) = false.

(** [lt] is a strict weak order on the keys of [l]. *)
Definition ordered_on (l : list A) : Prop :=
  ∀ x y z, x ∈ l → y ∈ l → z ∈ l →
    (lt (key x) (key y) = true → lt (key y) (key x) = false) ∧
    (lt (key x) (key y) = false → lt (key y) (key z) = false →
       lt (key x) (key z) = false).

End Sorted.

(** ** State and exceptions

    A method is a function from the state it acts on to its outcome and
    the state it leaves.  An exception does not undo the mutations made
    before it. *)
Definition M (St A : Type) : Type := St → outcome A * St.

Section Monad.
Context {St : Type}.

Definition ret {A} (a : A) : M St A := λ s, (Return a, s).

Definition raise {A} (e : exn) : M St A := λ s, (Raise e, s).

Definition bind {A B} (c : M St A) (k : A → M St B) : M St B :=
  λ s, match c s with
       | (Return a, s') => k a s'
       | (Raise e, s') => (Raise e, s')
       end.

Definition get : M St St := λ s, (Return s, s).

Definition put (s : St) : M St unit := λ _, (Return tt, s).

End Monad.

Notation "'do' x <- c ; k" := (bind c (λ x, k))
  (at level 10, x name, c at level 100, k at level 200).
Notation "c ;; k" := (bind c (λ _, k))
  (at level 100, k at level 200, right associativity).

Section Loops.
Context {St : Type}.

(** [for x in l: body(x)] *)
Fixpoint for_each {A} (body : A → M St unit) (l : list A) : M St unit :=
  match l with
  | [] => ret tt
  | x :: l' => body x;; for_each body l'
  end.

(** A list filled by [append] in a loop over [l]. *)
Fixpoint for_collect {A B} (f : A → M St B) (l : list A) : M St (list B) :=
  match l with
  | [] => ret []
  | x :: l' => do y <- f x; do ys <- for_collect f l'; ret (y :: ys)
  end.

End Loops.

(** ** The data of the engine

    The dicts and rows of [aggregator.py], over the type [F] of floats. *)
Section Data.
Context {F : Type}.

(** The inner dict of [self._results]: the four running totals of one
    campaign, all floats (they start from [0.0]). *)
Record accumulator := {
  impressions : F;
  clicks : F;
  spend : F;
  conversions : F;
}.

(** The inner dict of [self._metrics]; [cpa = None] is Python's [None]. *)
Record metrics := {
  ctr : F;
  cpa : option F;
}.

(** The instance state set up by [__init__].  A campaign id is the value
    of a row's [campaign_id] field. *)
Record AdAggregator := {
  _results : dict cell accumulator;
  _metrics : dict cell metrics;
}.

(** The right operand of [+=]: an [int] or a [float]. *)
Inductive number :=
| NInt (z : Z)
| NFloat (x : F).

(** An element of [report_data]. *)
Record report_row := {
  row_campaign_id : cell;
  row_impressions : Z;
  row_clicks : Z;
  row_spend : F;
  row_conversions : Z;
  row_ctr : F;
  row_cpa : option F;
}.

(** A value handed to the csv writer. *)
Inductive pyval :=
| VStr (s : string)
| VInt (z : Z)
| VFloat (x : F)
| VNone.

(** What [write_reports] acts on: the instance, the files at hand (each
    the list of records given to its csv writer), the paths [os.makedirs]
    was called with and has made directories of (the directories above
    them, which it makes on its way, are not followed), the lines printed,
    and the paths at which the file system refuses a directory or a file
    to be made, each with the exception it raises there (no permission, a
    read-only volume, a name too long, a file in the way of a directory
    above, ...).  A file or directory is known by its path as it is
    written.  The failures followed are those of [os.makedirs] and of
    [open()]: once a file is open, writing its records succeeds, and so
    does [print]. *)
Record world := {
  self : AdAggregator;
  files : gmap string (list (list pyval));
  dirs : gset string;
  stdout : list string;
  refused : gmap string exn;
}.

End Data.
Arguments accumulator F : clear implicits.
Arguments metrics F : clear implicits.
Arguments AdAggregator F : clear implicits.
Arguments number F : clear implicits.
Arguments report_row F : clear implicits.
Arguments pyval F : clear implicits.
Arguments world F : clear implicits.

(** ** The engine *)
Section Engine.
Context {num : PyNum}.

Definition __init__ : AdAggregator float :=
  {| _results := []; _metrics := [] |}.

(** The methods that act on the instance only. *)
Definition method (A : Type) : Type := M (AdAggregator float) A.

Definition set_results (r : dict cell (accumulator float)) : method unit :=
  do self <- get;
  put {| _results := r; _metrics := _metrics self |}.

Definition set_metrics (m : dict cell (metrics float)) : method unit :=
  do self <- get;
  put {| _results := _results self; _metrics := m |}.

(** [row[name]] *)
Definition row_getitem (r : row) (name : string) : method cell :=
  match r !! name with
  | Some v => ret v
  | None => raise KeyError
  end.

(** [int(v)] and [float(v)] on a row value. *)
Definition py_int (v : cell) : method Z :=
  match v with
  | None => raise TypeError
  | Some s =>
      match int_of_str s with
      | Some z => ret z
      | None => raise ValueError
      end
  end.

Definition py_float (v : cell) : method float :=
  match v with
  | None => raise TypeError
  | Some s =>
      match float_of_str s with
      | Some x => ret x
      | None => raise ValueError
      end
  end.

(** [x + n] for a float [x]. *)
Definition float_add (x : float) (n : number float) : method float :=
  match n with
  | NFloat y => ret (fadd x y)
  | NInt z =>
      match float_of_int z with
      | Some y => ret (fadd x y)
      | None => raise OverflowError
      end
  end.

(** The keys of the inner dict of [self._results], which are also the
    names of the columns they sum. *)
Inductive field := Impressions | Clicks | Spend | Conversions.

Definition field_name (f : field) : string :=
  match f with
  | Impressions => "impressions"
  | Clicks => "clicks"
  | Spend => "spend"
  | Conversions => "conversions"
  end.

Definition get_field (f : field) (a : accumulator float) : float :=
  match f with
  | Impressions => impressions a
  | Clicks => clicks a
  | Spend => spend a
  | Conversions => conversions a
  end.

Definition set_field (f : field) (x : float) (a : accumulator float) :
    accumulator float :=
  match f with
  | Impressions =>
      {| impressions := x; clicks := clicks a; spend := spend a;
         conversions := conversions a |}
  | Clicks =>
      {| impressions := impressions a; clicks := x; spend := spend a;
         conversions := conversions a |}
  | Spend =>
      {| impressions := impressions a; clicks := clicks a; spend := x;
         conversions := conversions a |}
  | Conversions =>
      {| impressions := impressions a; clicks := clicks a; spend := spend a;
         conversions := x |}
  end.

(** [self._results[campaign_id]] *)
Definition results_getitem (campaign_id : cell) : method (accumulator float) :=
  do self <- get;
  match dict_get campaign_id (_results self) with
  | Some a => ret a
  | None => raise KeyError
  end.

(** [int(row[name])] and [float(row[name])] as right operands. *)
Definition int_operand (r : row) (name : string) : method (number float) :=
  do v <- row_getitem r name; do z <- py_int v; ret (NInt z).

Definition float_operand (r : row) (name : string) : method (number float) :=
  do v <- row_getitem r name; do x <- py_float v; ret (NFloat x).

(** [self._results[campaign_id][f] += rhs]: the target and its old value
    are read, then the right-hand side is evaluated, then the sum is
    stored. *)
Definition iadd (campaign_id : cell) (f : field) (rhs : method (number float)) :
    method unit :=
  do a <- results_getitem campaign_id;
  do n <- rhs;
  do x <- float_add (get_field f a) n;
  do self <- get;
  set_results (dict_set campaign_id (set_field f x a) (_results self)).

Definition zero_accumulator : accumulator float :=
  {| impressions := fzero; clicks := fzero; spend := fzero;
     conversions := fzero |}.

(** The body of the loop of [aggregate]. *)
Definition aggregate_row (r : row) : method unit :=
  do campaign_id <- row_getitem r "campaign_id";
  do self <- get;
  (match dict_get campaign_id (_results self) with
   | None => set_results (dict_set campaign_id zero_accumulator (_results self))
   | Some _ => ret tt
   end);;
  iadd campaign_id Impressions (int_operand r "impressions");;
  iadd campaign_id Clicks (int_operand r "clicks");;
  iadd campaign_id Spend (float_operand r "spend");;
  iadd campaign_id Conversions (int_operand r "conversions").

(** [aggregate(filepath)], on the records [f] that [csv.reader] yields for
    the file at [filepath].  Opening the file is not modelled: the CLI
    checks that it exists before it calls the engine. *)
Definition aggregate (f : list (list string)) :
    method (dict cell (accumulator float)) :=
  set_results [];;
  set_metrics [];;
  for_each aggregate_row (DictReader f);;
  do self <- get;
  ret (_results self).

Definition get_results : method (dict cell (accumulator float)) :=
  do self <- get; ret (_results self).

Definition get_campaign_total (campaign_id : cell) :
    method (option (accumulator float)) :=
  do self <- get; ret (dict_get campaign_id (_results self)).

(** The body of the loop of [compute_metrics]. *)
Definition compute_metrics_item (item : cell * accumulator float) :
    method unit :=
  let '(campaign_id, data) := item in
  let impressions := impressions data in
  let clicks := clicks data in
  let spend := spend data in
  let conversions := conversions data in
  let ctr :=
    if flt fzero impressions then truediv clicks impressions else fzero in
  let cpa :=
    if flt fzero conversions then Some (truediv spend conversions) else None in
  do self <- get;
  set_metrics
    (dict_set campaign_id
       {| ctr := round4 ctr;
          cpa := match cpa with Some x => Some (round4 x) | None => None end |}
       (_metrics self)).

Definition compute_metrics : method (dict cell (metrics float)) :=
  set_metrics [];;
  do self <- get;
  for_each compute_metrics_item (_results self);;
  do self <- get;
  ret (_metrics self).

Definition get_metrics : method (dict cell (metrics float)) :=
  do self <- get; ret (_metrics self).

(** [int(x)] on a float. *)
Definition py_int_of_float (x : float) : method Z :=
  match int_of_float x with
  | Return z => ret z
  | Raise e => raise e
  end.

(** The body of the loop that fills [report_data]. *)
Definition report_item (item : cell * metrics float) :
    method (report_row float) :=
  let '(campaign_id, metrics) := item in
  do raw <- results_getitem campaign_id;
  do i <- py_int_of_float (impressions raw);
  do c <- py_int_of_float (clicks raw);
  do v <- py_int_of_float (conversions raw);
  ret {| row_campaign_id := campaign_id;
         row_impressions := i;
         row_clicks := c;
         row_spend := round4 (spend raw);
         row_conversions := v;
         row_ctr := ctr metrics;
         row_cpa := cpa metrics |}.

(** [<] on the keys of the CPA sort.  The rows sorted all have a CPA, so
    [None] is never compared. *)
Definition cpa_lt (a b : option float) : bool :=
  match a, b with
  | Some x, Some y => flt x y
  | _, _ => false
  end.

Definition has_cpa (r : report_row float) : bool :=
  match row_cpa r with Some _ => true | None => false end.

Definition top10_ctr (report_data : list (report_row float)) :
    list (report_row float) :=
  take 10 (sorted row_ctr flt true report_data).

Definition top10_cpa (report_data : list (report_row float)) :
    list (report_row float) :=
  let valid_cpa := filter (λ r, has_cpa r = true) report_data in
  take 10 (sorted row_cpa cpa_lt false valid_cpa).

(** *** Writing the reports *)

(** A method of the instance, run in the world. *)
Definition call {A} (c : method A) : M (world float) A :=
  λ w, let '(r, s) := c (self w) in
       (r, {| self := s; files := files w; dirs := dirs w;
              stdout := stdout w; refused := refused w |}).

Definition fieldnames : list string :=
  ["campaign_id"; "total_impressions"; "total_clicks"; "total_spend";
   "total_conversions"; "CTR"; "CPA"].

(** The record [DictWriter.writerow(w_row)] gives to the csv writer: the
    values of [w_row] in the order of [fieldnames]. *)
Definition w_row (r : report_row float) : list (pyval float) :=
  [match row_campaign_id r with Some s => VStr s | None => VNone end;
   VInt (row_impressions r);
   VInt (row_clicks r);
   VFloat (row_spend r);
   VInt (row_conversions r);
   VFloat (row_ctr r);
   match row_cpa r with Some x => VFloat x | None => VNone end].

(** What [open(filepath, 'w')] raises: [IsADirectoryError] when the path
    is a directory, and whatever the file system refuses the path with. *)
Definition open_error (w : world float) (filepath : string) : option exn :=
  if decide (filepath ∈ dirs w) then Some IsADirectoryError
  else refused w !! filepath.

(** [open(filepath, 'w')] and the records written: the file is replaced. *)
Definition write_file (filepath : string) (records : list (list (pyval float))) :
    M (world float) unit :=
  do w <- get;
  match open_error w filepath with
  | Some e => raise e
  | None =>
      put {| self := self w; files := <[filepath := records]> (files w);
             dirs := dirs w; stdout := stdout w; refused := refused w |}
  end.

Definition _write_csv (filepath : string) (data : list (report_row float)) :
    M (world float) unit :=
  match data with
  | [] => ret tt
  | _ :: _ => write_file filepath ((VStr <$> fieldnames) :: (w_row <$> data))
  end.

(** What [os.makedirs(path, exist_ok=True)] raises: [FileNotFoundError]
    for the empty path, [ValueError] for a path with a null character,
    [FileExistsError] when a file is in the way, and whatever the file
    system refuses the path with.  A directory that is there already is
    accepted. *)
Definition makedirs_error (w : world float) (path : string) : option exn :=
  if decide (path = "") then Some FileNotFoundError
  else if decide ("000"%char ∈ String.list_ascii_of_string path)
  then Some ValueError
  else if decide (is_Some (files w !! path)) then Some FileExistsError
  else refused w !! path.

(** [os.makedirs(output_dir, exist_ok=True)] *)
Definition makedirs (output_dir : string) : M (world float) unit :=
  do w <- get;
  match makedirs_error w output_dir with
  | Some e => raise e
  | None =>
      put {| self := self w; files := files w;
             dirs := {[output_dir]} ∪ dirs w;
             stdout := stdout w; refused := refused w |}
  end.

Definition print (line : string) : M (world float) unit :=
  do w <- get;
  put {| self := self w; files := files w; dirs := dirs w;
         stdout := stdout w ++ [line]; refused := refused w |}.

Definition write_reports (output_dir : string) : M (world float) unit :=
  makedirs output_dir;;
  do w <- get;
  (match _metrics (self w) with
   | [] => call compute_metrics;; ret tt
   | _ :: _ => ret tt
   end);;
  do w <- get;
  do report_data <- call (for_collect report_item (_metrics (self w)));
  let ctr_path := path_join output_dir "top10_ctr.csv" in
  _write_csv ctr_path (top10_ctr report_data);;
  print ("Written: " +:+ ctr_path);;
  let cpa_path := path_join output_dir "top10_cpa.csv" in
  _write_csv cpa_path (top10_cpa report_data);;
  print ("Written: " +:+ cpa_path).

(** The world of a fresh engine: nothing written yet. *)
Definition initial_world : world float :=
  {| self := __init__; files := ∅; dirs := ∅; stdout := []; refused := ∅ |}.

(** The states an engine goes through: a fresh instance, and the state
    any public method leaves, whether it returned or raised.  The
    accessors leave the state as it is. *)
Inductive reachable : AdAggregator float → Prop :=
| reachable_init : reachable __init__
| reachable_aggregate s f :
    reachable s → reachable (aggregate f s).2
| reachable_compute_metrics s :
    reachable s → reachable (compute_metrics s).2
| reachable_write_reports w output_dir :
    reachable (self w) → reachable (self (write_reports output_dir w).2).

End Engine.

(** ** Python numbers as IEEE 754 binary64

    CPython's [float] is the platform's binary64 and its [int] is
    unbounded.  The operations of [PyNum] are given on the kernel's
    primitive floats; conversions go through their exact description
    ([spec_float]: sign, integer mantissa, binary exponent). *)
Module Binary64.
Import Floats.
Local Open Scope Z_scope.

(** The float nearest to the integer [z] (ties to even). *)
Definition of_Z (z : Z) : PrimFloat.float :=
  SF2Prim (binary_normalize prec emax z 0 false).

(** [x + z] converts the int [z] first, and raises [OverflowError] when it
    is beyond the floats. *)
Definition float_of_int (z : Z) : option PrimFloat.float :=
  let x := of_Z z in
  if is_infinity x then None else Some x.

(** [int(x)] truncates towards zero; it raises on infinities and NaN. *)
Definition int_of_float (x : PrimFloat.float) : outcome Z :=
  match Prim2SF x with
  | S754_zero _ => Return 0
  | S754_infinity _ => Raise OverflowError
  | S754_nan => Raise ValueError
  | S754_finite s m e =>
      let a := Z.shiftl (Z.pos m) e in
      Return (if s then - a else a)
  end.

(** The integer nearest to [n / d] for [0 <= n] and [0 < d], ties to even. *)
Definition div_half_even (n d : Z) : Z :=
  let q := n / d in
  match 2 * (n mod d) ?= d with
  | Lt => q
  | Gt => q + 1
  | Eq => if Z.even q then q else q + 1
  end.

(** [round(x, 4)]: the exact value of [x] is rounded to 4 decimals, ties
    to even, and the float nearest to that decimal is returned.  From
    [2^39] on the floats are more than [10^-4] apart and [x] rounds to
    itself; below, the decimal is [n / 10^4] with [n < 2^53], and the float
    division of [n] by [10^4] is correctly rounded. *)
Definition round4 (x : PrimFloat.float) : PrimFloat.float :=
  match Prim2SF x with
  | S754_finite s m e =>
      if (0 <=? e) || (2 ^ 39 <=? Z.shiftl (Z.pos m) e) then x
      else
        let n := div_half_even (Z.pos m * 10000) (2 ^ (- e)) in
        let r := PrimFloat.div (of_Z n) (of_Z 10000) in
        if s then PrimFloat.opp r else r
  | _ => x
  end.

(** *** Reading numbers from text *)

Definition is_space (c : ascii) : bool :=
  let n := Z.of_N (N_of_ascii c) in
  (n =? 32) || ((9 <=? n) && (n <=? 13)).

Fixpoint lstrip (l : list ascii) : list ascii :=
  match l with
  | c :: l' => if is_space c then lstrip l' else l
  | [] => []
  end.

Definition strip (l : list ascii) : list ascii :=
  rev (lstrip (rev (lstrip l))).

Definition digit (c : ascii) : option Z :=
  let n := Z.of_N (N_of_ascii c) in
  if (48 <=? n) && (n <=? 57) then Some (n - 48) else None.

(** The rest of a run of digits, in which single underscores may stand
    between two digits: the value read, the number of digits, and what
    follows the run. *)
Fixpoint more_digits (acc : Z) (n : Z) (l : list ascii) : Z * Z * list ascii :=
  match l with
  | c :: l' =>
      match digit c with
      | Some d => more_digits (10 * acc + d) (n + 1) l'
      | None =>
          if decide (c = "_"%char) then
            match l' with
            | c' :: l'' =>
                match digit c' with
                | Some d => more_digits (10 * acc + d) (n + 1) l''
                | None => (acc, n, l)
                end
            | [] => (acc, n, l)
            end
          else (acc, n, l)
      end
  | [] => (acc, n, l)
  end.

(** A run of at least one digit. *)
Definition digits (l : list ascii) : option (Z * Z * list ascii) :=
  match l with
  | c :: l' =>
      match digit c with
      | Some d => Some (more_digits d 1 l')
      | None => None
      end
  | [] => None
  end.

(** An optional sign: [true] for [-]. *)
Definition sign (l : list ascii) : bool * list ascii :=
  match l with
  | c :: l' =>
      if decide (c = "-"%char) then (true, l')
      else if decide (c = "+"%char) then (false, l')
      else (false, l)
  | [] => (false, l)
  end.

(** [int(s)]: blanks around, a sign, decimal digits (ASCII). *)
Definition int_of_str (s : string) : option Z :=
  let '(neg, l) := sign (strip (String.list_ascii_of_string s)) in
  match digits l with
  | Some (v, _, []) => Some (if neg then - v else v)
  | _ => None
  end.

Definition lower (c : ascii) : ascii :=
  let n := N_of_ascii c in
  if ((65 <=? n) && (n <=? 90))%N then ascii_of_N (n + 32) else c.

(** The float nearest to [m * 10^e] for [0 <= m]. *)
Definition of_decimal (neg : bool) (m e : Z) : PrimFloat.float :=
  let x :=
    match m with
    | Z.pos p =>
        if 0 <=? e then binary_normalize prec emax (m * 10 ^ e) 0 false
        else
          match 10 ^ (- e) with
          | Z.pos q =>
              SFdiv prec emax (S754_finite false p 0) (S754_finite false q 0)
          | _ => S754_nan
          end
    | _ => S754_zero false
    end in
  let y := SF2Prim x in
  if neg then PrimFloat.opp y else y.

(** The exponent part of a float literal, when there is one. *)
Definition exponent (l : list ascii) : option (Z * list ascii) :=
  match l with
  | c :: l' =>
      if decide (lower c = "e"%char) then
        let '(neg, l'') := sign l' in
        match digits l'' with
        | Some (v, _, rest) => Some (if neg then - v else v, rest)
        | None => None
        end
      else Some (0, l)
  | [] => Some (0, l)
  end.

(** The digits of a float literal: integer part, optional fraction. *)
Definition mantissa (l : list ascii) : option (Z * Z * list ascii) :=
  match l with
  | c :: l' =>
      if decide (c = "."%char) then
        match digits l' with
        | Some (f, k, rest) => Some (f, k, rest)
        | None => None
        end
      else
        match digits l with
        | Some (i, _, c' :: rest) =>
            if decide (c' = "."%char) then
              match digits rest with
              | Some (f, k, rest') =>
                  let '(v, _, _) := more_digits i 0 rest in Some (v, k, rest')
              | None => Some (i, 0, rest)
              end
            else Some (i, 0, c' :: rest)
        | Some (i, _, []) => Some (i, 0, [])
        | None => None
        end
  | [] => None
  end.

(** [float(s)]: blanks around, a sign, then [inf], [infinity], [nan] in
    any case, or a decimal literal with optional fraction and exponent. *)
Definition float_of_str (s : string) : option PrimFloat.float :=
  let '(neg, l) := sign (strip (String.list_ascii_of_string s)) in
  let word := String.string_of_list_ascii (lower <$> l) in
  if decide (word = "inf" ∨ word = "infinity") then
    Some (if neg then neg_infinity else infinity)
  else if decide (word = "nan") then Some nan
  else
    match mantissa l with
    | Some (m, k, rest) =>
        match exponent rest with
        | Some (e, []) => Some (of_decimal neg m (e - k))
        | _ => None
        end
    | None => None
    end.

(** *** The order of the floats

    A key of the floats that are no NaN, whose lexicographic order is
    their order under [<]. *)
Definition key (x : spec_float) : Z * Z * Z :=
  match x with
  | S754_zero _ | S754_nan => (0, 0, 0)
  | S754_infinity s => (if s then -2 else 2, 0, 0)
  | S754_finite s m e => if s then (-1, - e, Z.neg m) else (1, e, Z.pos m)
  end.

Definition lex_compare (a b : Z * Z * Z) : comparison :=
  match a.1.1 ?= b.1.1 with
  | Eq => match a.1.2 ?= b.1.2 with
          | Eq => a.2 ?= b.2
          | c => c
          end
  | c => c
  end.

Definition lex_lt (a b : Z * Z * Z) : Prop :=
  a.1.1 < b.1.1 ∨
  (a.1.1 = b.1.1 ∧ (a.1.2 < b.1.2 ∨ (a.1.2 = b.1.2 ∧ a.2 < b.2))).

End Binary64.

Definition binary64 : PyNum := {|
  float := PrimFloat.float;
  fzero := PrimFloat.zero;
  fadd := PrimFloat.add;
  truediv := PrimFloat.div;
  flt := PrimFloat.ltb;
  round4 := Binary64.round4;
  float_of_int := Binary64.float_of_int;
  int_of_float := Binary64.int_of_float;
  int_of_str := Binary64.int_of_str;
  float_of_str := Binary64.float_of_str;
|}.

(** ** Vocabulary of the properties *)
Section Vocabulary.
Context {num : PyNum}.

(** What [int()] or [float()] makes of the text of column [f]. *)
Definition parsed (f : field) (text : string) : option (number float) :=
  match f with
  | Spend => NFloat <$> float_of_str text
  | _ => NInt <$> int_of_str text
  end.

(** What reading column [f] of a row gives. *)
Definition column (f : field) (r : row) : outcome (number float) :=
  match r !! field_name f with
  | None => Raise KeyError
  | Some None => Raise TypeError
  | Some (Some text) =>
      match parsed f text with
      | Some n => Return n
      | None => Raise ValueError
      end
  end.

(** The float an operand stands for in [float + operand]. *)
Definition as_float (n : number float) : option float :=
  match n with
  | NFloat y => Some y
  | NInt z => float_of_int z
  end.

(** The float a row adds to the total [f], when its column can be read. *)
Definition operand (f : field) (r : row) : option float :=
  match r !! field_name f with
  | Some (Some text) =>
      match parsed f text with
      | Some (NFloat x) => Some x
      | Some (NInt z) => float_of_int z
      | None => None
      end
  | _ => None
  end.

(** A row whose counter [f] is there and cannot be parsed. *)
Definition unparsable (r : row) : Prop :=
  ∃ f text, r !! field_name f = Some (Some text) ∧ parsed f text = None.

(** The rows bearing the campaign id [campaign_id]. *)
Definition rows_of (campaign_id : cell) (rows : list row) : list row :=
  filter (λ r, r !! "campaign_id" = Some campaign_id) rows.

(** The int a row holds in column [f] ([0] when it holds none), and the
    exact sum of a column over rows. *)
Definition int_value (f : field) (r : row) : Z :=
  match column f r with
  | Return (NInt z) => z
  | _ => 0
  end.

Definition exact_sum (f : field) (rows : list row) : Z :=
  foldr (λ r acc, int_value f r + acc) 0 rows.

(** A float sum in the order of the list, from [x]. *)
Definition fsum (x : float) (l : list float) : float := foldl fadd x l.

(** One row added to the totals of its campaign. *)
Definition add_row (a : accumulator float) (i c s v : float) :
    accumulator float :=
  {| impressions := fadd (impressions a) i;
     clicks := fadd (clicks a) c;
     spend := fadd (spend a) s;
     conversions := fadd (conversions a) v |}.

(** The metrics [compute_metrics] derives from one accumulator. *)
Definition derive (a : accumulator float) : metrics float :=
  {| ctr :=
       round4 (if flt fzero (impressions a)
               then truediv (clicks a) (impressions a) else fzero);
     cpa :=
       if flt fzero (conversions a)
       then Some (round4 (truediv (spend a) (conversions a))) else None |}.

(** The files after [_write_csv(filepath, data)]. *)
Definition csv_written (filepath : string) (data : list (report_row float))
    (fs : gmap string (list (list (pyval float)))) :
    gmap string (list (list (pyval float))) :=
  match data with
  | [] => fs
  | _ :: _ => <[filepath := (VStr <$> fieldnames) :: (w_row <$> data)]> fs
  end.

(** [<] is a strict weak order on the floats of [l]: no two of them are
    each below the other, and being not below is transitive.  This holds of
    any floats that are not NaN. *)
Definition weak_order_on (l : list float) : Prop :=
  ∀ x y z, x ∈ l → y ∈ l → z ∈ l →
    (flt x y = true → flt y x = false) ∧
    (flt x y = false → flt y z = false → flt x z = false).

(** The CTR values and the CPA values of a metrics mapping. *)
Definition ctr_values (m : dict cell (metrics float)) : list float :=
  ctr <$> m.*2.

Definition cpa_values (m : dict cell (metrics float)) : list float :=
  omap cpa m.*2.

(** The metrics mapping [compute_metrics] builds from the accumulators. *)
Definition derive_all (d : dict cell (accumulator float)) :
    dict cell (metrics float) :=
  foldl (λ m item, dict_set item.1 (derive item.2) m) [] d.

(** The state in which [write_reports] builds its rows: the metrics are
    computed first when there are none. *)
Definition prepared (s : AdAggregator float) : AdAggregator float :=
  match _metrics s with
  | [] => (compute_metrics s).2
  | _ :: _ => s
  end.

(** The list [report_data] of [write_reports], or the exception raised
    while it is built. *)
Definition report_data (s : AdAggregator float) :
    outcome (list (report_row float)) :=
  (for_collect report_item (_metrics s) s).1.

(** The invariant of the reachable states: campaign ids are not repeated,
    and the metrics are either cleared or those of the accumulators. *)
Definition consistent (s : AdAggregator float) : Prop :=
  NoDup (dict_keys (_results s)) ∧
  (_metrics s = [] ∨ _metrics s = prod_map id derive <$> _results s).

(** The first statement of the loop body: the campaign gets its entry. *)
Definition with_entry (k : cell) (d : dict cell (accumulator float)) :
    dict cell (accumulator float) :=
  match dict_get k d with
  | None => dict_set k zero_accumulator d
  | Some _ => d
  end.

(** A report row built from the entry [item] of the accumulators. *)
Definition row_of (item : cell * accumulator float) (r : report_row float) :
    Prop :=
  row_campaign_id r = item.1 ∧
  row_ctr r = ctr (derive item.2) ∧
  row_cpa r = cpa (derive item.2) ∧
  row_spend r = round4 (spend item.2) ∧
  int_of_float (impressions item.2) = Return (row_impressions r) ∧
  int_of_float (clicks item.2) = Return (row_clicks r) ∧
  int_of_float (conversions item.2) = Return (row_conversions r).

(** The campaign ids the rows bear, in the order of the rows. *)
Definition campaign_ids (rows : list row) : list cell :=
  omap (λ r, r !! "campaign_id") rows.

(** The distinct ids of a list, each at the place of its first
    occurrence. *)
Fixpoint first_seen (ids : list cell) : list cell :=
  match ids with
  | [] => []
  | k :: ids' => k :: filter (λ k', k' ≠ k) (first_seen ids')
  end.

(** A row the loop body of [aggregate] gets through: it has a campaign
    id, and each of its four counters can be read and added. *)
Definition readable (r : row) : Prop :=
  is_Some (r !! "campaign_id") ∧ ∀ f, is_Some (operand f r).

(** Two rows with the same entries under the five keys [aggregate]
    reads. *)
Definition same_fields (r1 r2 : row) : Prop :=
  r1 !! "campaign_id" = r2 !! "campaign_id" ∧
  ∀ f, r1 !! field_name f = r2 !! field_name f.

(** An accumulator whose three counts [int()] converts. *)
Definition countable (a : accumulator float) : Prop :=
  ∀ f, f ≠ Spend → ∃ z, int_of_float (get_field f a) = Return z.

(** The entries of the accumulators whose total of conversions is above
    zero. *)
Definition converting (d : dict cell (accumulator float)) :
    dict cell (accumulator float) :=
  filter (λ item, flt fzero (conversions item.2) = true) d.

(** The two lines [write_reports] prints. *)
Definition written_lines (output_dir : string) : list string :=
  ["Written: " +:+ path_join output_dir "top10_ctr.csv";
   "Written: " +:+ path_join output_dir "top10_cpa.csv"].

(** What [_write_csv(filepath, data)] raises: with no rows nothing is
    opened. *)
Definition write_error (w : world float) (filepath : string)
    (data : list (report_row float)) : option exn :=
  match data with
  | [] => None
  | _ :: _ => open_error w filepath
  end.

(** The world in which [write_reports] builds its rows: the directory is
    made and the metrics are there. *)
Definition prepared_world (output_dir : string) (w : world float) :
    world float :=
  {| self := prepared (self w); files := files w;
     dirs := {[output_dir]} ∪ dirs w; stdout := stdout w;
     refused := refused w |}.

(** The rows [write_reports] gives each report in state [s] (none when
    building them raises). *)
Definition ctr_report (s : AdAggregator float) : list (report_row float) :=
  match report_data (prepared s) with
  | Return data => top10_ctr data
  | Raise _ => []
  end.

Definition cpa_report (s : AdAggregator float) : list (report_row float) :=
  match report_data (prepared s) with
  | Return data => top10_cpa data
  | Raise _ => []
  end.

(** A float [int()] converts. *)
Definition convertible (x : float) : Prop := ∃ z, int_of_float x = Return z.

(** The values a CTR takes when both its totals are convertible:
    [round(0.0, 4)], or the rounded quotient of the clicks by impressions
    above zero. *)
Definition ctr_value (x : float) : Prop :=
  x = round4 fzero ∨
  ∃ c i, convertible c ∧ convertible i ∧ flt fzero i = true ∧
         x = round4 (truediv c i).

(** [<] is a strict weak order on the floats that satisfy [P]. *)
Definition weak_order (P : float → Prop) : Prop :=
  ∀ x y z, P x → P y → P z →
    (flt x y = true → flt y x = false) ∧
    (flt x y = false → flt y z = false → flt x z = false).

End Vocabulary.

(** ** The engine on binary64 floats

    The inputs the engine is run on: the data of [test_aggregator.py],
    and files at the edges of its contract. *)
Section Runs.
Local Existing Instance binary64.

(** The float written [text] ([0.0] when [text] is no float). *)
Definition fl (text : string) : float := default fzero (float_of_str text).

Definition HEADER : list string :=
  ["campaign_id"; "date"; "impressions"; "clicks"; "spend"; "conversions"].

Definition SAMPLE_DATA : list (list string) :=
  [HEADER;
   ["CMP025"; "2025-04-18"; "3653"; "60"; "64.29"; "2"];
   ["CMP020"; "2025-05-03"; "24465"; "764"; "1394.62"; "42"];
   ["CMP019"; "2025-02-05"; "7214"; "236"; "135.93"; "21"]].

(** The state after [aggregate] on the sample, and the mapping returned. *)
Definition sample_state : AdAggregator float :=
  (aggregate SAMPLE_DATA __init__).2.

Definition sample_results : dict cell (accumulator float) :=
  _results sample_state.

Definition sample_world : world float :=
  {| self := sample_state; files := ∅; dirs := ∅; stdout := [];
     refused := ∅ |}.

(** [zero_conv_data] of [test_zero_conversions_cpa_is_none]. *)
Definition ZERO_CONV_DATA : list (list string) :=
  [HEADER; ["CMP_ZERO"; "2025-01-01"; "1000"; "50"; "100.00"; "0"]].

(** Three rows of one campaign whose impressions add up beyond [2^53]. *)
Definition LARGE_DATA : list (list string) :=
  [HEADER;
   ["A"; "2025-01-01"; "9007199254740992"; "0"; "0"; "0"];
   ["A"; "2025-01-02"; "1"; "0"; "0"; "0"];
   ["A"; "2025-01-03"; "1"; "0"; "0"; "0"]].

(** A second row whose [clicks] is not a number. *)
Definition MALFORMED_DATA : list (list string) :=
  [HEADER;
   ["A"; "2025-01-01"; "100"; "5"; "2.5"; "1"];
   ["B"; "2025-01-02"; "7"; "abc"; "1.0"; "0"];
   ["A"; "2025-01-03"; "1"; "1"; "1.0"; "1"]].

(** The state in which [aggregate] leaves a fresh engine on these two. *)
Definition large_state : AdAggregator float :=
  (aggregate LARGE_DATA __init__).2.

Definition malformed_state : AdAggregator float :=
  (aggregate MALFORMED_DATA __init__).2.

(** Three campaigns, the second with a spend of [nan], which [float()]
    reads as NaN. *)
Definition NAN_DATA : list (list string) :=
  [HEADER;
   ["A"; "2025-01-01"; "10"; "1"; "2"; "1"];
   ["B"; "2025-01-01"; "10"; "1"; "nan"; "1"];
   ["C"; "2025-01-01"; "10"; "1"; "1"; "1"]].

(** The rows [write_reports] gives the CPA report after [aggregate] on
    them. *)
Definition nan_cpa_rows : list (report_row float) :=
  match report_data (prepared (aggregate NAN_DATA __init__).2) with
  | Return data => top10_cpa data
  | Raise _ => []
  end.

(** A run of the CLI's three calls on a file, from a fresh engine. *)
Definition run (t : list (list string)) (output_dir : string) :
    outcome unit * world float :=
  (call (aggregate t);; call compute_metrics;; write_reports output_dir)
    initial_world.

(** The first column of a written file. *)
Definition row_campaign (records : list (list (pyval float))) :
    list (pyval float) :=
  (λ record, default VNone (head record)) <$> records.

(** The accumulators of two campaigns of the sample. *)
Definition cmp020 : accumulator float :=
  default zero_accumulator (dict_get (Some "CMP020") sample_results).

Definition cmp025 : accumulator float :=
  default zero_accumulator (dict_get (Some "CMP025") sample_results).

(** The world after [write_reports] on the sample. *)
Definition sample_reported : world float :=
  (write_reports "out" sample_world).2.

(** Rows of three campaigns, interleaved. *)
Definition INTERLEAVED_DATA : list (list string) :=
  [HEADER;
   ["B"; "2025-01-01"; "10"; "1"; "1.5"; "0"];
   ["A"; "2025-01-01"; "20"; "2"; "2.5"; "1"];
   ["B"; "2025-01-02"; "30"; "3"; "3.5"; "1"];
   ["C"; "2025-01-02"; "40"; "4"; "4.5"; "2"];
   ["A"; "2025-01-03"; "50"; "5"; "5.5"; "0"]].

Definition interleaved_state : AdAggregator float :=
  (aggregate INTERLEAVED_DATA __init__).2.

(** The same rows, those of campaign A first. *)
Definition GROUPED_DATA : list (list string) :=
  [HEADER;
   ["A"; "2025-01-01"; "20"; "2"; "2.5"; "1"];
   ["A"; "2025-01-03"; "50"; "5"; "5.5"; "0"];
   ["C"; "2025-01-02"; "40"; "4"; "4.5"; "2"];
   ["B"; "2025-01-01"; "10"; "1"; "1.5"; "0"];
   ["B"; "2025-01-02"; "30"; "3"; "3.5"; "1"]].

Definition grouped_state : AdAggregator float :=
  (aggregate GROUPED_DATA __init__).2.

(** The sample without its [date] column, the columns in another order. *)
Definition SAMPLE_WITHOUT_DATE : list (list string) :=
  [["spend"; "campaign_id"; "conversions"; "impressions"; "clicks"];
   ["64.29"; "CMP025"; "2"; "3653"; "60"];
   ["1394.62"; "CMP020"; "42"; "24465"; "764"];
   ["135.93"; "CMP019"; "21"; "7214"; "236"]].

(** A header that names the first column [id]. *)
Definition HEADER_WITHOUT_ID : list string :=
  ["id"; "date"; "impressions"; "clicks"; "spend"; "conversions"].

(** A record that ends after its impressions. *)
Definition SHORT_RECORD : list string := ["A"; "2025-01-01"; "10"].

(** Twelve campaigns, one row each, with 1000 impressions and a spend of
    100.  K01 and K02 have the same clicks and the same conversions, so
    they tie on CTR and on CPA; K12 and K11 have the lowest two CTRs, and
    K03 and K04 the highest two CPAs. *)
Definition RANKED_DATA : list (list string) :=
  [HEADER;
   ["K01"; "2025-01-01"; "1000"; "50"; "100"; "4"];
   ["K02"; "2025-01-01"; "1000"; "50"; "100"; "4"];
   ["K03"; "2025-01-01"; "1000"; "30"; "100"; "1"];
   ["K04"; "2025-01-01"; "1000"; "40"; "100"; "2"];
   ["K05"; "2025-01-01"; "1000"; "60"; "100"; "5"];
   ["K06"; "2025-01-01"; "1000"; "70"; "100"; "10"];
   ["K07"; "2025-01-01"; "1000"; "80"; "100"; "20"];
   ["K08"; "2025-01-01"; "1000"; "90"; "100"; "25"];
   ["K09"; "2025-01-01"; "1000"; "100"; "100"; "50"];
   ["K10"; "2025-01-01"; "1000"; "110"; "100"; "100"];
   ["K11"; "2025-01-01"; "1000"; "10"; "100"; "8"];
   ["K12"; "2025-01-01"; "1000"; "20"; "100"; "40"]].

Definition ranked_state : AdAggregator float :=
  (aggregate RANKED_DATA __init__).2.

Definition ranked_world : world float :=
  {| self := ranked_state; files := ∅; dirs := ∅; stdout := [];
     refused := ∅ |}.

Definition ranked_reported : world float :=
  (write_reports "out" ranked_world).2.

(** The sample, where a file named [out] is in the way of the
    directory. *)
Definition blocked_world : world float :=
  {| self := sample_state; files := {["out" := []]}; dirs := ∅;
     stdout := []; refused := ∅ |}.

(** The sample, where the file system refuses to open the CPA report (a
    file that is there and may not be written, say). *)
Definition locked_world : world float :=
  {| self := sample_state; files := ∅; dirs := ∅; stdout := [];
     refused := {["out/top10_cpa.csv" := OSError]} |}.

Definition locked_reported : world float :=
  (write_reports "out" locked_world).2.

End Runs.

(** ** Properties *)

(** *** Dictionaries *)
Section DictFacts.
Context {K V : Type} `{EqDecision K}.
Implicit Types (k : K) (v : V) (d : dict K V).

Lemma dict_get_set_eq k v d : dict_get k (dict_set k v d) = Some v.
Proof.
  induction d as [|[k' v'] d IH]; simpl.
  - by rewrite decide_True.
  - destruct (decide (k = k')) as [->|Hne]; simpl.
    + by rewrite decide_True.
    + by rewrite decide_False.
Qed.

Lemma dict_get_set_ne k k' v d :
  k ≠ k' → dict_get k' (dict_set k v d) = dict_get k' d.
Proof.
  intros Hne. induction d as [|[k0 v0] d IH]; simpl.
  - by rewrite decide_False.
  - destruct (decide (k = k0)) as [->|Hne0]; simpl.
    + by rewrite !decide_False.
    + by rewrite IH.
Qed.

Lemma dict_set_set k v1 v2 d :
  dict_set k v2 (dict_set k v1 d) = dict_set k v2 d.
Proof.
  induction d as [|[k' v'] d IH]; simpl.
  - by rewrite decide_True.
  - destruct (decide (k = k')) as [->|Hne]; simpl.
    + by rewrite decide_True.
    + by rewrite decide_False, IH.
Qed.

Lemma dict_get_None k d : dict_get k d = None ↔ k ∉ dict_keys d.
Proof.
  unfold dict_keys. induction d as [|[k' v'] d IH]; simpl.
  - split; [intros _; apply not_elem_of_nil | done].
  - rewrite not_elem_of_cons. destruct (decide (k = k')) as [->|Hne].
    + split; [done | intros [? _]; done].
    + rewrite IH. tauto.
Qed.

Lemma dict_get_Some_elem k v d : dict_get k d = Some v → (k, v) ∈ d.
Proof.
  induction d as [|[k' v'] d IH]; simpl; [done|].
  destruct (decide (k = k')) as [->|Hne].
  - intros [= ->]. apply elem_of_cons; by left.
  - intros Hd. apply elem_of_cons; right; auto.
Qed.

Lemma dict_get_elem k v d :
  NoDup (dict_keys d) → (k, v) ∈ d → dict_get k d = Some v.
Proof.
  unfold dict_keys. induction d as [|[k' v'] d IH]; simpl.
  - intros _ Hin. by apply elem_of_nil in Hin.
  - rewrite NoDup_cons. intros [Hk Hnd] Hin.
    apply elem_of_cons in Hin as [[= -> ->]|Hin].
    + by rewrite decide_True.
    + rewrite decide_False; [auto|].
      intros ->. apply Hk. apply list_elem_of_fmap. by exists (k', v).
Qed.

Lemma dict_keys_set_in k v v' d :
  dict_get k d = Some v' → dict_keys (dict_set k v d) = dict_keys d.
Proof.
  unfold dict_keys. induction d as [|[k0 v0] d IH]; simpl; [done|].
  destruct (decide (k = k0)) as [->|Hne]; [done|].
  intros Hd. rewrite fmap_cons. f_equal. auto.
Qed.

Lemma dict_set_fresh k v d :
  dict_get k d = None → dict_set k v d = d ++ [(k, v)].
Proof.
  induction d as [|[k0 v0] d IH]; simpl; [done|].
  destruct (decide (k = k0)) as [->|Hne]; [done|].
  intros Hd. by rewrite IH.
Qed.

Lemma dict_set_NoDup k v d :
  NoDup (dict_keys d) → NoDup (dict_keys (dict_set k v d)).
Proof.
  intros Hnd. destruct (dict_get k d) as [v'|] eqn:Hd.
  - by rewrite (dict_keys_set_in _ _ _ _ Hd).
  - rewrite (dict_set_fresh _ _ _ Hd). unfold dict_keys in *.
    rewrite fmap_app. simpl. apply NoDup_app. split_and!; [done| |].
    + intros x Hx Hx'. apply list_elem_of_singleton in Hx' as ->.
      by apply dict_get_None in Hd.
    + apply NoDup_singleton.
Qed.

Lemma dict_keys_set k v d x :
  x ∈ dict_keys (dict_set k v d) ↔ x = k ∨ x ∈ dict_keys d.
Proof.
  destruct (dict_get k d) as [v'|] eqn:Hd.
  - rewrite (dict_keys_set_in _ _ _ _ Hd). split; [auto|].
    intros [->|?]; [|done].
    destruct (decide (k ∈ dict_keys d)) as [|Hn]; [done|].
    apply dict_get_None in Hn. congruence.
  - rewrite (dict_set_fresh _ _ _ Hd). unfold dict_keys.
    rewrite fmap_app, elem_of_app. simpl. rewrite list_elem_of_singleton. tauto.
Qed.

End DictFacts.

(** *** The monad *)
Section MonadFacts.
Context {St : Type}.

Lemma bind_Return {A B} (c : M St A) (k : A → M St B) s b s' :
  bind c k s = (Return b, s') →
  ∃ a s1, c s = (Return a, s1) ∧ k a s1 = (Return b, s').
Proof.
  unfold bind. destruct (c s) as [[a|e] s1]; [eauto | done].
Qed.

Lemma bind_inv {A B} (c : M St A) (k : A → M St B) s o s' :
  bind c k s = (o, s') →
  (∃ a s1, c s = (Return a, s1) ∧ k a s1 = (o, s')) ∨
  (∃ e, c s = (Raise e, s') ∧ o = Raise e).
Proof.
  unfold bind. destruct (c s) as [[a|e] s1].
  - left; eauto.
  - intros [= <- <-]. right; eauto.
Qed.

Lemma bind_eq {A B} (c : M St A) (k : A → M St B) s a s1 :
  c s = (Return a, s1) → bind c k s = k a s1.
Proof. unfold bind. by intros ->. Qed.

Lemma bind_Raise {A B} (c : M St A) (k : A → M St B) s e s1 :
  c s = (Raise e, s1) → bind c k s = (Raise e, s1).
Proof. unfold bind. by intros ->. Qed.

Lemma for_each_app {A} (body : A → M St unit) l1 l2 s s1 :
  for_each body l1 s = (Return tt, s1) →
  for_each body (l1 ++ l2) s = for_each body l2 s1.
Proof.
  revert s. induction l1 as [|x l1 IH]; simpl; intros s.
  - by intros [= ->].
  - intros Hb. apply bind_Return in Hb as (? & s0 & Hx & Hl).
    rewrite (bind_eq _ _ _ _ _ Hx). auto.
Qed.

Lemma for_each_Raise {A} (body : A → M St unit) l s e s' :
  for_each body l s = (Raise e, s') →
  ∃ pre bad post s1,
    l = pre ++ bad :: post ∧
    for_each body pre s = (Return tt, s1) ∧ body bad s1 = (Raise e, s').
Proof.
  revert s. induction l as [|x l IH]; simpl; intros s; [done|].
  intros Hrun. apply bind_inv in Hrun as [([] & s0 & Hx & Hl)|(e' & Hx & [= <-])].
  - destruct (IH _ Hl) as (pre & bad & post & s1 & -> & Hpre & Hbad).
    exists (x :: pre), bad, post, s1. split_and!; [done| |done].
    simpl. by rewrite (bind_eq _ _ _ _ _ Hx).
  - by exists [], x, l, s.
Qed.

End MonadFacts.

(** *** One row of [aggregate] *)
Section RowFacts.
Context {num : PyNum}.
Implicit Types (s : AdAggregator float) (r : row) (f : field) (k : cell).

Lemma int_operand_run r f s :
  f ≠ Spend → int_operand r (field_name f) s = (column f r, s).
Proof.
  intros Hf. unfold int_operand, column, row_getitem, py_int, parsed.
  destruct (r !! field_name f) as [[text|]|] eqn:Hr; unfold bind; simpl.
  - destruct f; try done; by destruct (int_of_str text).
  - done.
  - done.
Qed.

Lemma float_operand_run r s :
  float_operand r (field_name Spend) s = (column Spend r, s).
Proof.
  unfold float_operand, column, row_getitem, py_float, parsed.
  destruct (r !! field_name Spend) as [[text|]|] eqn:Hr; unfold bind; simpl.
  - by destruct (float_of_str text).
  - done.
  - done.
Qed.

Lemma operand_column f r :
  operand f r = match column f r with Return n => as_float n | Raise _ => None end.
Proof.
  unfold operand, column.
  destruct (r !! field_name f) as [[text|]|]; [|done..].
  by destruct (parsed f text) as [[]|].
Qed.

Lemma float_add_run x n s :
  float_add x n s =
    (match as_float n with
     | Some y => Return (fadd x y)
     | None => Raise OverflowError
     end, s).
Proof. destruct n as [z|y]; simpl; [by destruct (float_of_int z) | done]. Qed.

(** [+=] on a field, for a right-hand side that reads the row only. *)
Lemma iadd_run k f rhs o s :
  rhs s = (o, s) →
  iadd k f rhs s =
    match dict_get k (_results s), o with
    | None, _ => (Raise KeyError, s)
    | Some a, Raise e => (Raise e, s)
    | Some a, Return n =>
        match as_float n with
        | None => (Raise OverflowError, s)
        | Some y =>
            (Return tt,
             {| _results :=
                  dict_set k (set_field f (fadd (get_field f a) y) a) (_results s);
                _metrics := _metrics s |})
        end
    end.
Proof.
  intros Hrhs. unfold iadd.
  assert (results_getitem k s =
            (match dict_get k (_results s) with
             | Some a => Return a | None => Raise KeyError end, s)) as Hget.
  { unfold results_getitem, bind, get. by destruct (dict_get k (_results s)). }
  destruct (dict_get k (_results s)) as [a|].
  - rewrite (bind_eq _ _ _ _ _ Hget). destruct o as [n|e].
    + rewrite (bind_eq _ _ _ _ _ Hrhs).
      pose proof (float_add_run (get_field f a) n s) as Hadd.
      destruct (as_float n) as [y|].
      * by rewrite (bind_eq _ _ _ _ _ Hadd).
      * by rewrite (bind_Raise _ _ _ _ _ Hadd).
    + by rewrite (bind_Raise _ _ _ _ _ Hrhs).
  - by rewrite (bind_Raise _ _ _ _ _ Hget).
Qed.

Lemma iadd_Return k f rhs o s s' :
  rhs s = (o, s) → iadd k f rhs s = (Return tt, s') →
  ∃ a n y, dict_get k (_results s) = Some a ∧ o = Return n ∧
    as_float n = Some y ∧
    s' = {| _results :=
              dict_set k (set_field f (fadd (get_field f a) y) a) (_results s);
            _metrics := _metrics s |}.
Proof.
  intros Hrhs. rewrite (iadd_run _ _ _ _ _ Hrhs).
  destruct (dict_get k (_results s)) as [a|]; [|done].
  destruct o as [n|e]; [|done].
  destruct (as_float n) as [y|] eqn:Hy; [|done].
  intros [= <-]. by exists a, n, y.
Qed.

(** Whatever its outcome, [+=] leaves the metrics, the keys and the other
    campaigns as they were. *)
Lemma iadd_frame k f rhs o s o' s' :
  rhs s = (o, s) → iadd k f rhs s = (o', s') →
  _metrics s' = _metrics s ∧
  dict_keys (_results s') = dict_keys (_results s) ∧
  (∀ k', k ≠ k' → dict_get k' (_results s') = dict_get k' (_results s)).
Proof.
  intros Hrhs. rewrite (iadd_run _ _ _ _ _ Hrhs).
  destruct (dict_get k (_results s)) as [a|] eqn:Hk; [|by intros [= <- <-]].
  destruct o as [n|e]; [|by intros [= <- <-]].
  destruct (as_float n) as [y|]; [|by intros [= <- <-]].
  intros [= <- <-]. simpl. split_and!; [done| |].
  - by eapply dict_keys_set_in.
  - intros k' Hne. by apply dict_get_set_ne.
Qed.

Lemma with_entry_get k d :
  dict_get k (with_entry k d) =
    Some (default zero_accumulator (dict_get k d)).
Proof.
  unfold with_entry. destruct (dict_get k d) as [a|] eqn:Hk; simpl; [done|].
  apply dict_get_set_eq.
Qed.

Lemma with_entry_ne k k' d :
  k ≠ k' → dict_get k' (with_entry k d) = dict_get k' d.
Proof.
  intros Hne. unfold with_entry. destruct (dict_get k d); [done|].
  by apply dict_get_set_ne.
Qed.

Lemma with_entry_set k a d :
  dict_set k a (with_entry k d) = dict_set k a d.
Proof.
  unfold with_entry. destruct (dict_get k d); [done|]. apply dict_set_set.
Qed.

Lemma with_entry_keys k d x :
  x ∈ dict_keys (with_entry k d) ↔ x = k ∨ x ∈ dict_keys d.
Proof.
  unfold with_entry. destruct (dict_get k d) as [a|] eqn:Hk.
  - split; [auto|]. intros [->|?]; [|done].
    destruct (decide (k ∈ dict_keys d)) as [|Hn]; [done|].
    apply dict_get_None in Hn. congruence.
  - apply dict_keys_set.
Qed.

Lemma with_entry_NoDup k d :
  NoDup (dict_keys d) → NoDup (dict_keys (with_entry k d)).
Proof.
  unfold with_entry. destruct (dict_get k d); [done|]. apply dict_set_NoDup.
Qed.

(** The loop body unfolded: the id is read, the entry made, then the four
    [+=] run in turn. *)
Lemma aggregate_row_unfold r s :
  aggregate_row r s =
    match r !! "campaign_id" with
    | None => (Raise KeyError, s)
    | Some k =>
        (iadd k Impressions (int_operand r "impressions");;
         iadd k Clicks (int_operand r "clicks");;
         iadd k Spend (float_operand r "spend");;
         iadd k Conversions (int_operand r "conversions"))
          {| _results := with_entry k (_results s); _metrics := _metrics s |}
    end.
Proof.
  unfold aggregate_row, row_getitem.
  destruct (r !! "campaign_id") as [k|]; [|done].
  unfold bind at 1 2 3, with_entry. simpl.
  destruct (dict_get k (_results s)); simpl; [|done].
  by destruct s.
Qed.

(** A row that is processed: its id and four operands were read, and its
    campaign's entry is the old one (or zeros) with the operands added. *)
Lemma aggregate_row_Return r s s' :
  aggregate_row r s = (Return tt, s') →
  ∃ k i c sp v,
    r !! "campaign_id" = Some k ∧
    operand Impressions r = Some i ∧ operand Clicks r = Some c ∧
    operand Spend r = Some sp ∧ operand Conversions r = Some v ∧
    s' = {| _results :=
              dict_set k
                (add_row (default zero_accumulator (dict_get k (_results s)))
                   i c sp v)
                (_results s);
            _metrics := _metrics s |}.
Proof.
  rewrite aggregate_row_unfold.
  destruct (r !! "campaign_id") as [k|] eqn:Hk; [|done].
  intros Hrun. exists k.
  apply bind_Return in Hrun as ([] & s1 & H1 & Hrun).
  apply bind_Return in Hrun as ([] & s2 & H2 & Hrun).
  apply bind_Return in Hrun as ([] & s3 & H3 & H4).
  eapply iadd_Return in H1 as (a1 & n1 & i & Ha1 & Hn1 & Hi & ->);
    [|by apply (int_operand_run r Impressions)].
  eapply iadd_Return in H2 as (a2 & n2 & c & Ha2 & Hn2 & Hc & ->);
    [|by apply (int_operand_run r Clicks)].
  eapply iadd_Return in H3 as (a3 & n3 & sp & Ha3 & Hn3 & Hsp & ->);
    [|by apply (float_operand_run r)].
  eapply iadd_Return in H4 as (a4 & n4 & v & Ha4 & Hn4 & Hv & ->);
    [|by apply (int_operand_run r Conversions)].
  simpl in *.
  rewrite with_entry_get in Ha1. injection Ha1 as <-.
  rewrite dict_get_set_eq in Ha2. injection Ha2 as <-.
  rewrite dict_get_set_eq in Ha3. injection Ha3 as <-.
  rewrite dict_get_set_eq in Ha4. injection Ha4 as <-.
  exists i, c, sp, v. rewrite !operand_column, Hn1, Hn2, Hn3, Hn4.
  split_and!; try done.
  by rewrite !dict_set_set, with_entry_set.
Qed.

(** Whatever its outcome, the loop body leaves the metrics and the other
    campaigns as they were, and adds at most its own campaign id. *)
Lemma aggregate_row_frame r s o s' :
  aggregate_row r s = (o, s') →
  _metrics s' = _metrics s ∧
  (NoDup (dict_keys (_results s)) → NoDup (dict_keys (_results s'))) ∧
  (∀ k, r !! "campaign_id" ≠ Some k →
     dict_get k (_results s') = dict_get k (_results s)) ∧
  (∀ k, k ∈ dict_keys (_results s') ↔
     (r !! "campaign_id" = Some k ∨ k ∈ dict_keys (_results s))).
Proof.
  rewrite aggregate_row_unfold.
  destruct (r !! "campaign_id") as [k|] eqn:Hk.
  2:{ intros [= <- <-]. split_and!; [done..|]. intros k; split; [auto|].
      by intros [|]. }
  set (s0 := {| _results := with_entry k (_results s); _metrics := _metrics s |}).
  assert (∀ (fs : list (field * method (number float))) o' s1,
    Forall (λ p, ∀ s2, ∃ o2, p.2 s2 = (o2, s2)) fs →
    for_each (λ p, iadd k p.1 p.2) fs s0 = (o', s1) →
    _metrics s1 = _metrics s0 ∧
    dict_keys (_results s1) = dict_keys (_results s0) ∧
    (∀ k', k ≠ k' → dict_get k' (_results s1) = dict_get k' (_results s0)))
    as Hloop.
  { intros fs. generalize s0. clear s0.
    induction fs as [|[f rhs] fs IH]; intros s0 o' s1 Hpure; simpl.
    - by intros [= <- <-].
    - apply Forall_cons in Hpure as [Hrhs Hpure]. destruct (Hrhs s0) as [o2 Ho2].
      intros Hrun. apply bind_inv in Hrun as [(? & s2 & H1 & Hrun)|(e & H1 & _)].
      + destruct (iadd_frame _ _ _ _ _ _ _ Ho2 H1) as (Hm & Hkeys & Hget).
        destruct (IH _ _ _ Hpure Hrun) as (Hm' & Hkeys' & Hget').
        split_and!; [congruence..|]. intros k' Hne. rewrite Hget', Hget; done.
      + apply (iadd_frame _ _ _ _ _ _ _ Ho2 H1). }
  intros Hrun.
  destruct (Hloop
    [(Impressions, int_operand r "impressions"); (Clicks, int_operand r "clicks");
     (Spend, float_operand r "spend"); (Conversions, int_operand r "conversions")]
    o s') as (Hm & Hkeys & Hget).
  { repeat apply Forall_cons_2; [| | | |apply Forall_nil_2]; intros s2; simpl.
    - eexists. by apply (int_operand_run r Impressions).
    - eexists. by apply (int_operand_run r Clicks).
    - eexists. by apply (float_operand_run r).
    - eexists. by apply (int_operand_run r Conversions). }
  { simpl. rewrite <- Hrun. unfold bind.
    repeat (destruct (iadd _ _ _ _) as [[[]|?] ?]; try done). }
  subst s0. simpl in *. split_and!; [done| | |].
  - rewrite Hkeys. apply with_entry_NoDup.
  - intros k' Hne. rewrite Hget; [|congruence]. apply with_entry_ne. congruence.
  - intros k'. rewrite Hkeys, with_entry_keys. split.
    + intros [->|?]; auto.
    + intros [[= ->]|?]; auto.
Qed.

End RowFacts.

(** *** The loop of [aggregate] *)
Section AggregateFacts.
Context {num : PyNum}.
Implicit Types (s : AdAggregator float) (r : row) (f : field) (k : cell).

Lemma aggregate_unfold (t : list (list string)) s :
  aggregate t s =
    (for_each aggregate_row (DictReader t);;
     do self <- get; ret (_results self)) __init__.
Proof. reflexivity. Qed.

Lemma aggregate_Return (t : list (list string)) s d s' :
  aggregate t s = (Return d, s') →
  for_each aggregate_row (DictReader t) __init__ = (Return tt, s') ∧
  d = _results s'.
Proof.
  rewrite aggregate_unfold. intros Hrun.
  apply bind_Return in Hrun as ([] & s1 & Hloop & Hret).
  unfold bind, get, ret in Hret. by injection Hret as <- <-.
Qed.

(** Whatever its outcome, the loop leaves the metrics as they were, keeps
    the campaign ids distinct, and drops no campaign. *)
Lemma rows_frame rows s o s' :
  for_each aggregate_row rows s = (o, s') →
  _metrics s' = _metrics s ∧
  (NoDup (dict_keys (_results s)) → NoDup (dict_keys (_results s'))) ∧
  (∀ k, k ∈ dict_keys (_results s) → k ∈ dict_keys (_results s')).
Proof.
  revert s. induction rows as [|r rows IH]; simpl; intros s.
  - by intros [= <- <-].
  - intros Hrun. apply bind_inv in Hrun as [([] & s1 & Hr & Hl)|(e & Hr & _)].
    + destruct (aggregate_row_frame _ _ _ _ Hr) as (Hm & Hnd & _ & Hkeys).
      destruct (IH _ Hl) as (Hm' & Hnd' & Hkeys').
      split_and!; [congruence|auto|]. intros k Hk. apply Hkeys', Hkeys. auto.
    + destruct (aggregate_row_frame _ _ _ _ Hr) as (Hm & Hnd & _ & Hkeys).
      split_and!; [done..|]. intros k Hk. apply Hkeys. auto.
Qed.

Lemma rows_of_cons k r rows :
  rows_of k (r :: rows) =
    if decide (r !! "campaign_id" = Some k) then r :: rows_of k rows
    else rows_of k rows.
Proof. unfold rows_of. by rewrite filter_cons. Qed.

Lemma get_field_add_row f a i c sp v :
  get_field f (add_row a i c sp v) =
    fadd (get_field f a)
      (match f with
       | Impressions => i | Clicks => c | Spend => sp | Conversions => v
       end).
Proof. by destruct f. Qed.

(** The totals after the loop: a campaign without rows keeps its entry,
    and one with rows has, in each field, the float sum of the operands of
    its rows, in their order, from what the field held (zero for a new
    campaign). *)
Lemma rows_Return rows s s' :
  for_each aggregate_row rows s = (Return tt, s') →
  ∀ k,
    (rows_of k rows = [] →
       dict_get k (_results s') = dict_get k (_results s)) ∧
    (rows_of k rows ≠ [] →
       ∃ a, dict_get k (_results s') = Some a ∧
         ∀ f, ∃ xs, mapM (operand f) (rows_of k rows) = Some xs ∧
           get_field f a =
             fsum (get_field f
                     (default zero_accumulator (dict_get k (_results s)))) xs).
Proof.
  revert s. induction rows as [|r rows IH]; simpl; intros s.
  - intros [= <-] k. split; [done|]. by unfold rows_of.
  - intros Hrun k. apply bind_Return in Hrun as ([] & s1 & Hr & Hl).
    apply aggregate_row_Return in Hr
      as (k0 & i & c & sp & v & Hk0 & Hi & Hc & Hsp & Hv & ->).
    destruct (IH _ Hl k) as [IHnil IHcons]. simpl in *.
    rewrite rows_of_cons. destruct (decide (r !! "campaign_id" = Some k)) as [Hk|Hk].
    + assert (k0 = k) as -> by congruence.
      split; [done|]. intros _.
      set (a0 := default zero_accumulator (dict_get k (_results s))) in *.
      assert (∀ f, operand f r =
        Some (match f with
              | Impressions => i | Clicks => c | Spend => sp | Conversions => v
              end)) as Hop by (by intros []).
      rewrite dict_get_set_eq in IHcons. simpl in IHcons.
      destruct (rows_of k rows) as [|r' rs] eqn:Hrs.
      * exists (add_row a0 i c sp v). split.
        { rewrite IHnil; [|done]. apply dict_get_set_eq. }
        intros f. eexists. simpl. rewrite Hop. simpl. split; [done|].
        by rewrite get_field_add_row.
      * destruct IHcons as (a & Ha & Hsum); [done|].
        exists a. split; [done|]. intros f.
        destruct (Hsum f) as (xs & Hxs & Hf).
        exists (match f with
                | Impressions => i | Clicks => c | Spend => sp | Conversions => v
                end :: xs).
        split.
        { change (mapM (operand f) (r :: r' :: rs)) with
            (x ← operand f r; l ← mapM (operand f) (r' :: rs); mret (x :: l)).
          by rewrite Hop, Hxs. }
        by rewrite Hf, get_field_add_row.
    + assert (k0 ≠ k) as Hne by congruence.
      rewrite dict_get_set_ne in IHnil, IHcons by done. done.
Qed.

(** A row that is processed has its four operands. *)
Lemma rows_Return_operands rows s s' :
  for_each aggregate_row rows s = (Return tt, s') →
  Forall (λ r, ∀ f, is_Some (operand f r)) rows.
Proof.
  revert s. induction rows as [|r rows IH]; simpl; intros s; [done|].
  intros Hrun. apply bind_Return in Hrun as ([] & s1 & Hr & Hl).
  apply Forall_cons. split; [|eauto].
  apply aggregate_row_Return in Hr
    as (k0 & i & c & sp & v & Hk0 & Hi & Hc & Hsp & Hv & ->).
  intros []; eauto.
Qed.

Lemma unparsable_operand r :
  unparsable r → ∃ f, operand f r = None.
Proof.
  intros (f & text & Hr & Hp). exists f. unfold operand. by rewrite Hr, Hp.
Qed.

(** The campaign ids of the mapping after the loop are those it held and
    those of the rows. *)
Lemma rows_Return_keys rows s s' :
  for_each aggregate_row rows s = (Return tt, s') →
  ∀ k, k ∈ dict_keys (_results s') ↔
    (k ∈ dict_keys (_results s) ∨ rows_of k rows ≠ []).
Proof.
  revert s. induction rows as [|r rows IH]; simpl; intros s.
  - intros [= <-] k. unfold rows_of. simpl. tauto.
  - intros Hrun k. apply bind_Return in Hrun as ([] & s1 & Hr & Hl).
    destruct (aggregate_row_frame _ _ _ _ Hr) as (_ & _ & _ & Hkeys).
    rewrite (IH _ Hl), Hkeys, rows_of_cons.
    destruct (decide (r !! "campaign_id" = Some k)) as [Hk|Hk].
    + split; [intros _; by right | intros _; by left; left].
    + tauto.
Qed.

End AggregateFacts.

(** *** [sorted] *)
Section SortedFacts.
Context {A K : Type} (key : A → K) (lt : K → K → bool).
Implicit Types (x y : A) (l : list A).
Local Abbreviation ordered_on := (ordered_on key lt).
Local Abbreviation not_after := (not_after key lt).

Lemma ordered_on_subseteq l l' : l' ⊆ l → ordered_on l → ordered_on l'.
Proof. intros Hsub Hord x y z Hx Hy Hz. apply Hord; auto. Qed.

Lemma insert_sorted_Permutation x l : insert_sorted key lt x l ≡ₚ x :: l.
Proof.
  induction l as [|y l IH]; simpl; [done|].
  destruct (lt (key y) (key x)); [|done].
  by rewrite IH, Permutation_swap.
Qed.

Lemma stable_sort_Permutation l : stable_sort key lt l ≡ₚ l.
Proof.
  induction l as [|x l IH]; simpl; [done|].
  by rewrite insert_sorted_Permutation, IH.
Qed.

Lemma sorted_Permutation (descending : bool) l : sorted key lt descending l ≡ₚ l.
Proof.
  unfold sorted. destruct descending.
  - by rewrite reverse_Permutation, stable_sort_Permutation, reverse_Permutation.
  - apply stable_sort_Permutation.
Qed.

Lemma insert_sorted_StronglySorted x l :
  ordered_on (x :: l) →
  StronglySorted not_after l → StronglySorted not_after (insert_sorted key lt x l).
Proof.
  intros Hord. induction l as [|y l IH]; simpl; intros Hl.
  - repeat constructor.
  - apply StronglySorted_cons in Hl as [Hy Hl].
    destruct (lt (key y) (key x)) eqn:Hyx.
    + apply StronglySorted_cons. split.
      * apply Forall_forall. intros z Hz.
        rewrite insert_sorted_Permutation in Hz.
        apply elem_of_cons in Hz as [->|Hz].
        -- unfold not_after. apply (Hord y x x); rewrite ?elem_of_cons; auto.
        -- by eapply Forall_forall in Hy.
      * apply IH; [|done]. eapply ordered_on_subseteq; [|done].
        intros z. rewrite !elem_of_cons. tauto.
    + apply StronglySorted_cons. split; [|by apply StronglySorted_cons].
      apply Forall_cons. split; [done|].
      apply Forall_forall. intros z Hz. eapply Forall_forall in Hy; [|done].
      unfold not_after in *. apply (Hord z y x); rewrite ?elem_of_cons; auto.
Qed.

Lemma stable_sort_StronglySorted l :
  ordered_on l → StronglySorted not_after (stable_sort key lt l).
Proof.
  induction l as [|x l IH]; simpl; intros Hord; [constructor|].
  apply insert_sorted_StronglySorted.
  - eapply ordered_on_subseteq; [|done].
    intros z. rewrite !elem_of_cons, stable_sort_Permutation. tauto.
  - apply IH. eapply ordered_on_subseteq; [|done].
    intros z. rewrite elem_of_cons. tauto.
Qed.

Lemma StronglySorted_reverse (R : relation A) l :
  StronglySorted R l → StronglySorted (flip R) (reverse l).
Proof.
  induction 1 as [|x l Hl IH Hx]; [constructor|].
  rewrite reverse_cons. apply StronglySorted_app_2; [|done|repeat constructor].
  intros y z Hy Hz. apply list_elem_of_singleton in Hz as ->.
  rewrite elem_of_reverse in Hy. unfold flip.
  rewrite Forall_forall in Hx. by apply Hx.
Qed.

Lemma StronglySorted_take (R : relation A) n l :
  StronglySorted R l → StronglySorted R (take n l).
Proof.
  intros Hl. rewrite <- (take_drop n l) in Hl.
  by apply StronglySorted_app_1_l in Hl.
Qed.

(** Ascending: no row is below a row before it. Descending: no row is
    above a row before it. *)
Lemma sorted_StronglySorted (descending : bool) l :
  ordered_on l →
  StronglySorted (if descending then flip not_after else not_after)
    (sorted key lt descending l).
Proof.
  intros Hord. unfold sorted. destruct descending.
  - apply StronglySorted_reverse, stable_sort_StronglySorted.
    eapply ordered_on_subseteq; [|done]. intros z. by rewrite elem_of_reverse.
  - by apply stable_sort_StronglySorted.
Qed.

End SortedFacts.

(** *** [compute_metrics] and [write_reports] *)
Section ReportFacts.
Context {num : PyNum}.
Implicit Types (s : AdAggregator float) (k : cell) (a : accumulator float).
Implicit Types (w : world float).

Lemma compute_metrics_item_run k a s :
  compute_metrics_item (k, a) s =
    (Return tt,
     {| _results := _results s;
        _metrics := dict_set k (derive a) (_metrics s) |}).
Proof.
  unfold compute_metrics_item, derive, set_metrics, bind, get, put. simpl.
  by destruct (flt fzero (conversions a)).
Qed.

Lemma metrics_loop d s :
  for_each compute_metrics_item d s =
    (Return tt,
     {| _results := _results s;
        _metrics := foldl (λ m item, dict_set item.1 (derive item.2) m)
                      (_metrics s) d |}).
Proof.
  revert s. induction d as [|[k a] d IH]; intros s; simpl.
  - by destruct s.
  - rewrite (bind_eq _ _ _ _ _ (compute_metrics_item_run k a s)).
    by rewrite IH.
Qed.

Lemma compute_metrics_run s :
  compute_metrics s =
    (Return (derive_all (_results s)),
     {| _results := _results s; _metrics := derive_all (_results s) |}).
Proof.
  unfold compute_metrics, set_metrics, bind at 1 2 3, get, put. simpl.
  unfold bind at 1. rewrite metrics_loop. done.
Qed.

Lemma derive_all_NoDup (d : dict cell (accumulator float)) :
  NoDup (dict_keys d) → derive_all d = prod_map id derive <$> d.
Proof.
  unfold derive_all. intros Hnd.
  enough (∀ m : dict cell (metrics float),
    NoDup (dict_keys m ++ dict_keys d) →
    foldl (λ m item, dict_set item.1 (derive item.2) m) m d =
      m ++ (prod_map id derive <$> d)) as Hgen by (by apply (Hgen [])).
  clear Hnd. induction d as [|[k a] d IH]; intros m Hnd; simpl.
  - by rewrite app_nil_r.
  - unfold dict_keys in *. rewrite fmap_cons in Hnd. simpl in Hnd.
    rewrite dict_set_fresh.
    2:{ apply dict_get_None. apply NoDup_app in Hnd as (_ & Hdis & _).
        intros Hk. apply (Hdis k Hk). apply elem_of_cons. by left. }
    rewrite IH.
    + by rewrite <- app_assoc.
    + unfold dict_keys. rewrite fmap_app. simpl. rewrite <- app_assoc. done.
Qed.

Lemma dict_get_derive k (d : dict cell (accumulator float)) :
  dict_get k (prod_map id derive <$> d) = derive <$> dict_get k d.
Proof.
  induction d as [|[k' a] d IH]; simpl; [done|].
  by destruct (decide (k = k')).
Qed.

Lemma compute_metrics_consistent s :
  NoDup (dict_keys (_results s)) → consistent (compute_metrics s).2.
Proof.
  intros Hnd. rewrite compute_metrics_run. split; simpl; [done|].
  right. by apply derive_all_NoDup.
Qed.

Lemma prepared_results s : _results (prepared s) = _results s.
Proof.
  unfold prepared. destruct (_metrics s); [|done].
  by rewrite compute_metrics_run.
Qed.

Lemma prepared_consistent s : consistent s → consistent (prepared s).
Proof.
  intros Hs. pose proof Hs as [Hnd _]. unfold prepared.
  destruct (_metrics s); [|done].
  by apply compute_metrics_consistent.
Qed.

(** In a consistent state the rows are built from the metrics of the
    accumulators. *)
Lemma prepared_metrics s :
  consistent s → _metrics (prepared s) = prod_map id derive <$> _results s.
Proof.
  intros [Hnd Hm]. unfold prepared.
  destruct (_metrics s) as [|item m] eqn:Hms.
  - rewrite compute_metrics_run. simpl. by apply derive_all_NoDup.
  - rewrite Hms. by destruct Hm.
Qed.

Lemma py_int_of_float_run x s :
  py_int_of_float x s = (int_of_float x, s).
Proof. unfold py_int_of_float. by destruct (int_of_float x). Qed.

Lemma report_item_state item s : (report_item item s).2 = s.
Proof.
  destruct item as [k m]. unfold report_item, results_getitem.
  unfold bind at 1 2, get. simpl.
  destruct (dict_get k (_results s)) as [a|]; simpl; [|done].
  unfold bind. rewrite !py_int_of_float_run.
  by repeat (destruct (int_of_float _)).
Qed.

Lemma for_collect_report_item_state m s :
  (for_collect report_item m s).2 = s.
Proof.
  induction m as [|item m IH]; simpl; [done|].
  unfold bind at 1. pose proof (report_item_state item s) as Hitem.
  destruct (report_item item s) as [[row|e] s1]; simpl in Hitem; subst s1; [|done].
  unfold bind. destruct (for_collect report_item m s) as [[rows|e] s1];
    simpl in IH; by subst s1.
Qed.

Lemma append_eq_self (p a : string) : p +:+ a = p → a = "".
Proof. induction p as [|c p IH]; simpl; [done|]. intros [= ?]. auto. Qed.

Lemma path_join_ne (output_dir b : string) :
  b ≠ "" → path_join output_dir b ≠ output_dir.
Proof.
  unfold path_join. destruct (ends_with_sep output_dir); intros Hb Heq.
  - by apply append_eq_self in Heq.
  - by apply append_eq_self in Heq.
Qed.

(** Making the directory does not stand in the way of a report. *)
Lemma open_error_prepared output_dir w b :
  b ≠ "" →
  open_error (prepared_world output_dir w) (path_join output_dir b) =
    open_error w (path_join output_dir b).
Proof.
  intros Hb. unfold open_error, prepared_world. simpl.
  apply path_join_ne with (output_dir := output_dir) in Hb.
  destruct (decide (path_join output_dir b ∈ {[output_dir]} ∪ dirs w))
    as [Hin|Hout], (decide (path_join output_dir b ∈ dirs w)) as [Hin'|Hout'];
    try done.
  - apply elem_of_union in Hin as [Hin%elem_of_singleton|Hin]; done.
  - destruct Hout. apply elem_of_union. by right.
Qed.

Lemma write_error_frame w w' filepath (data : list (report_row float)) :
  dirs w' = dirs w → refused w' = refused w →
  write_error w' filepath data = write_error w filepath data.
Proof.
  intros Hd Hr. unfold write_error, open_error. by rewrite Hd, Hr.
Qed.

Lemma makedirs_run output_dir w :
  makedirs output_dir w =
    match makedirs_error w output_dir with
    | Some e => (Raise e, w)
    | None =>
        (Return tt,
         {| self := self w; files := files w;
            dirs := {[output_dir]} ∪ dirs w; stdout := stdout w;
            refused := refused w |})
    end.
Proof.
  unfold makedirs, bind, get. by destruct (makedirs_error w output_dir).
Qed.

Lemma _write_csv_run filepath data w :
  _write_csv filepath data w =
    match write_error w filepath data with
    | Some e => (Raise e, w)
    | None =>
        (Return tt,
         {| self := self w; files := csv_written filepath data (files w);
            dirs := dirs w; stdout := stdout w; refused := refused w |})
    end.
Proof.
  unfold _write_csv, write_error, csv_written, write_file, bind, get.
  destruct data; [by destruct w|]. by destruct (open_error w filepath).
Qed.

(** [write_reports], step by step: the directory, the metrics, the rows,
    then each report and its line. *)
Lemma write_reports_run output_dir w :
  write_reports output_dir w =
    let w1 := prepared_world output_dir w in
    let ctr_path := path_join output_dir "top10_ctr.csv" in
    let cpa_path := path_join output_dir "top10_cpa.csv" in
    match makedirs_error w output_dir with
    | Some e => (Raise e, w)
    | None =>
        match report_data (prepared (self w)) with
        | Raise e => (Raise e, w1)
        | Return data =>
            match write_error w ctr_path (top10_ctr data) with
            | Some e => (Raise e, w1)
            | None =>
                let written :=
                  csv_written ctr_path (top10_ctr data) (files w) in
                match write_error w cpa_path (top10_cpa data) with
                | Some e =>
                    (Raise e,
                     {| self := prepared (self w); files := written;
                        dirs := {[output_dir]} ∪ dirs w;
                        stdout := stdout w ++ ["Written: " +:+ ctr_path];
                        refused := refused w |})
                | None =>
                    (Return tt,
                     {| self := prepared (self w);
                        files := csv_written cpa_path (top10_cpa data) written;
                        dirs := {[output_dir]} ∪ dirs w;
                        stdout := (stdout w ++ ["Written: " +:+ ctr_path])
                                    ++ ["Written: " +:+ cpa_path];
                        refused := refused w |})
                end
            end
        end
    end.
Proof.
  unfold write_reports. cbv zeta.
  destruct (makedirs_error w output_dir) as [e|] eqn:Hmk.
  { apply bind_Raise. by rewrite makedirs_run, Hmk. }
  set (w0 := {| self := self w; files := files w;
                dirs := {[output_dir]} ∪ dirs w; stdout := stdout w;
                refused := refused w |}).
  set (w1 := prepared_world output_dir w).
  assert (makedirs output_dir w = (Return tt, w0)) as H1
    by by rewrite makedirs_run, Hmk.
  rewrite (bind_eq _ _ _ _ _ H1).
  assert (get w0 = (Return w0, w0)) as H2 by done.
  rewrite (bind_eq _ _ _ _ _ H2).
  assert ((match _metrics (self w0) with
           | [] => call compute_metrics;; ret tt
           | _ :: _ => ret tt
           end) w0 = (Return tt, w1)) as H3.
  { subst w0 w1. unfold prepared_world, prepared. simpl.
    destruct (_metrics (self w)); [|done].
    unfold bind, call. simpl. by rewrite compute_metrics_run. }
  rewrite (bind_eq _ _ _ _ _ H3).
  assert (get w1 = (Return w1, w1)) as H4 by done.
  rewrite (bind_eq _ _ _ _ _ H4).
  assert (call (for_collect report_item (_metrics (self w1))) w1 =
            (report_data (prepared (self w)), w1)) as H5.
  { unfold call, report_data. simpl.
    pose proof (for_collect_report_item_state
                  (_metrics (prepared (self w))) (prepared (self w))) as Hst.
    destruct (for_collect report_item _ _) as [o s2]. simpl in *. by subst s2. }
  destruct (report_data (prepared (self w))) as [data|e];
    [|by rewrite (bind_Raise _ _ _ _ _ H5)].
  rewrite (bind_eq _ _ _ _ _ H5).
  assert (∀ b data', b ≠ "" →
            write_error w1 (path_join output_dir b) data' =
              write_error w (path_join output_dir b) data') as Hopen.
  { intros b [|r rs] Hb; [done|]. by apply open_error_prepared. }
  rewrite <- (Hopen "top10_ctr.csv" (top10_ctr data)) by done.
  rewrite <- (Hopen "top10_cpa.csv" (top10_cpa data)) by done.
  destruct (write_error w1 _ (top10_ctr data)) as [e|] eqn:Hctr.
  { apply bind_Raise. by rewrite _write_csv_run, Hctr. }
  erewrite bind_eq; [|by rewrite _write_csv_run, Hctr].
  erewrite bind_eq; [|reflexivity].
  unfold bind at 1. rewrite _write_csv_run.
  erewrite (write_error_frame w1); [|reflexivity..].
  by destruct (write_error w1 _ (top10_cpa data)).
Qed.

(** The engine after [write_reports]: untouched when the directory cannot
    be made, prepared otherwise. *)
Lemma write_reports_self output_dir w :
  self (write_reports output_dir w).2 =
    match makedirs_error w output_dir with
    | Some _ => self w
    | None => prepared (self w)
    end.
Proof.
  rewrite write_reports_run. cbv zeta.
  destruct (makedirs_error w output_dir); [done|].
  destruct (report_data _); [|done].
  destruct (write_error w _ (top10_ctr _)); [done|].
  by destruct (write_error w _ (top10_cpa _)).
Qed.

Lemma aggregate_consistent (t : list (list string)) s :
  consistent (aggregate t s).2.
Proof.
  rewrite aggregate_unfold. unfold bind at 1.
  destruct (for_each aggregate_row (DictReader t) __init__) as [[[]|e] s1] eqn:Hrun.
  - unfold bind, get, ret. simpl.
    destruct (rows_frame _ _ _ _ Hrun) as (Hm & Hnd & _).
    split; [apply Hnd; constructor | by left].
  - simpl. destruct (rows_frame _ _ _ _ Hrun) as (Hm & Hnd & _).
    split; [apply Hnd; constructor | by left].
Qed.

(** Every reachable state is consistent. *)
Lemma reachable_consistent s : reachable s → consistent s.
Proof.
  induction 1 as [|s t _ _|s _ IH|w output_dir _ IH].
  - split; [constructor | by left].
  - apply aggregate_consistent.
  - apply compute_metrics_consistent, IH.
  - rewrite write_reports_self.
    destruct (makedirs_error w output_dir); [done|].
    by apply prepared_consistent.
Qed.

End ReportFacts.

(** *** The rows of the reports *)
Section RankingFacts.
Context {num : PyNum}.
Implicit Types (s : AdAggregator float) (k : cell) (a : accumulator float).
Implicit Types (w : world float).

Lemma report_item_Return k a s r s' :
  dict_get k (_results s) = Some a →
  report_item (k, derive a) s = (Return r, s') → row_of (k, a) r.
Proof.
  intros Hk. unfold report_item, results_getitem.
  unfold bind at 1 2, get. simpl. rewrite Hk. simpl.
  unfold bind. rewrite !py_int_of_float_run.
  destruct (int_of_float (impressions a)) as [i|] eqn:Hi; [|done].
  destruct (int_of_float (clicks a)) as [c|] eqn:Hc; [|done].
  destruct (int_of_float (conversions a)) as [v|] eqn:Hv; [|done].
  intros [= <- <-]. by repeat split.
Qed.

Lemma for_collect_report_item d s data s' :
  (∀ item, item ∈ d → dict_get item.1 (_results s) = Some item.2) →
  for_collect report_item (prod_map id derive <$> d) s = (Return data, s') →
  Forall2 row_of d data.
Proof.
  revert data. induction d as [|[k a] d IH]; intros data Hd.
  - intros [= <- <-]. constructor.
  - rewrite fmap_cons.
    change (prod_map id derive (k, a)) with (k, derive a).
    change (for_collect report_item ((k, derive a) :: ?l)) with
      (do y <- report_item (k, derive a);
       do ys <- for_collect report_item l; ret (y :: ys)).
    intros Hrun. apply bind_Return in Hrun as (r & s1 & Hr & Hrun).
    apply bind_Return in Hrun as (rs & s2 & Hrs & Hret).
    injection Hret as <- <-.
    assert (s1 = s) as ->.
    { pose proof (report_item_state (k, derive a) s) as Hst.
      rewrite Hr in Hst. done. }
    constructor.
    + eapply report_item_Return; [|done].
      apply (Hd (k, a)). apply elem_of_cons. by left.
    + apply IH; [|done]. intros item Hitem. apply Hd, elem_of_cons. by right.
Qed.

(** In a consistent state, [report_data] has one row per campaign, in the
    order of the accumulators. *)
Lemma report_data_Return s data :
  consistent s → report_data (prepared s) = Return data →
  Forall2 row_of (_results s) data.
Proof.
  intros Hs. unfold report_data. rewrite (prepared_metrics _ Hs).
  destruct (for_collect _ _ _) as [o s'] eqn:Hrun. simpl. intros ->.
  eapply for_collect_report_item; [|done].
  intros [k a] Hitem. rewrite prepared_results. simpl.
  apply dict_get_elem; [apply Hs | done].
Qed.

Lemma row_of_elem d data r :
  Forall2 row_of d data → r ∈ data → ∃ item, item ∈ d ∧ row_of item r.
Proof.
  intros Hall Hr. apply list_elem_of_lookup in Hr as [i Hi].
  destruct (Forall2_lookup_r _ _ _ _ _ Hall Hi) as (item & Hitem & Hrow).
  exists item. split; [|done]. by eapply list_elem_of_lookup_2.
Qed.

Lemma top10_ctr_length data : (length (top10_ctr data) ≤ 10)%nat.
Proof. unfold top10_ctr. rewrite length_take. lia. Qed.

Lemma top10_cpa_length data : (length (top10_cpa data) ≤ 10)%nat.
Proof. unfold top10_cpa. rewrite length_take. lia. Qed.

Lemma top10_ctr_elem data r : r ∈ top10_ctr data → r ∈ data.
Proof.
  unfold top10_ctr. intros Hr. apply subseteq_take in Hr.
  by rewrite sorted_Permutation in Hr.
Qed.

Lemma top10_cpa_elem data r :
  r ∈ top10_cpa data → r ∈ data ∧ has_cpa r = true.
Proof.
  unfold top10_cpa. intros Hr. apply subseteq_take in Hr.
  rewrite sorted_Permutation in Hr. by apply list_elem_of_filter in Hr as [? ?].
Qed.

(** The values the two sorts compare are metric values. *)
Lemma row_of_metric_values d data r :
  Forall2 row_of d data → r ∈ data →
  row_ctr r ∈ ctr_values (prod_map id derive <$> d) ∧
  (∀ x, row_cpa r = Some x → x ∈ cpa_values (prod_map id derive <$> d)).
Proof.
  intros Hall Hr. destruct (row_of_elem _ _ _ Hall Hr) as ([k a] & Hitem & Hrow).
  destruct Hrow as (_ & Hctr & Hcpa & _). cbn [fst snd] in *.
  assert (derive a ∈ (prod_map id derive <$> d).*2) as Hm.
  { apply list_elem_of_fmap. exists (k, derive a). split; [done|].
    apply list_elem_of_fmap. by exists (k, a). }
  split.
  - unfold ctr_values. rewrite Hctr. by apply list_elem_of_fmap_2.
  - intros x Hx. apply list_elem_of_omap.
    exists (derive a). split; [done|]. congruence.
Qed.

Lemma top10_ctr_sorted data :
  weak_order_on (row_ctr <$> data) →
  StronglySorted (λ r1 r2, flt (row_ctr r1) (row_ctr r2) = false)
    (top10_ctr data).
Proof.
  intros Hord. unfold top10_ctr. apply StronglySorted_take.
  apply (sorted_StronglySorted row_ctr flt true).
  intros x y z Hx Hy Hz. apply Hord; by apply list_elem_of_fmap_2.
Qed.

Lemma top10_cpa_sorted data :
  weak_order_on (omap row_cpa data) →
  StronglySorted (λ r1 r2, cpa_lt (row_cpa r2) (row_cpa r1) = false)
    (top10_cpa data).
Proof.
  intros Hord. unfold top10_cpa. apply StronglySorted_take.
  apply (sorted_StronglySorted row_cpa cpa_lt false).
  assert (∀ r, r ∈ filter (λ r, has_cpa r = true) data →
            ∃ x, row_cpa r = Some x ∧ x ∈ omap row_cpa data) as Hval.
  { intros r Hr. apply list_elem_of_filter in Hr as [Hcpa Hr].
    unfold has_cpa in Hcpa. destruct (row_cpa r) as [x|] eqn:Hx; [|done].
    exists x. split; [done|]. apply list_elem_of_omap. by exists r. }
  intros x y z Hx Hy Hz.
  destruct (Hval _ Hx) as (vx & -> & Hvx).
  destruct (Hval _ Hy) as (vy & -> & Hvy).
  destruct (Hval _ Hz) as (vz & -> & Hvz).
  simpl. by apply Hord.
Qed.

End RankingFacts.

(** ** The engine's contract *)
Section Contract.
Context {num : PyNum}.
Implicit Types (s : AdAggregator float) (k : cell) (a : accumulator float).
Implicit Types (w : world float).
Implicit Types (t : list (list string)).

(** C8. Every call to [aggregate] rebuilds the accumulators and the
    metrics from scratch: whatever state the engine was in, the call's
    outcome and the state it leaves are those of a fresh engine given the
    same input, and the metrics it leaves are empty. *)
Theorem aggregate_from_scratch t s :
  aggregate t s = aggregate t __init__ ∧ _metrics (aggregate t s).2 = [].
Proof.
  split; [done|].
  rewrite aggregate_unfold. unfold bind at 1.
  destruct (for_each aggregate_row (DictReader t) __init__)
    as [[[]|e] s1] eqn:Hrun;
    destruct (rows_frame _ _ _ _ Hrun) as (Hm & _); simpl; by rewrite Hm.
Qed.

(** C10. After an aggregation that returned, [get_campaign_total] returns
    the accumulator of a campaign id that occurred in the input (the entry
    of the returned mapping), and [None], without raising, for an id that
    never occurred. *)
Theorem get_campaign_total_after_aggregate t s d s' k :
  aggregate t s = (Return d, s') →
  (rows_of k (DictReader t) ≠ [] →
     ∃ a, get_campaign_total k s' = (Return (Some a), s') ∧
          dict_get k d = Some a) ∧
  (rows_of k (DictReader t) = [] →
     get_campaign_total k s' = (Return None, s')).
Proof.
  intros Hrun. apply aggregate_Return in Hrun as [Hloop ->].
  destruct (rows_Return _ _ _ Hloop k) as [Hnil Hcons].
  unfold get_campaign_total, bind, get, ret. split.
  - intros Hk. destruct (Hcons Hk) as (a & Ha & _). exists a. by rewrite Ha.
  - intros Hk. by rewrite (Hnil Hk).
Qed.

(** The mapping [aggregate] returns has one entry per campaign id of the
    input, however many rows bear it: the keys are not repeated, and an id
    is a key exactly when a row bears it. *)
Theorem aggregate_one_entry_per_campaign t s d s' :
  aggregate t s = (Return d, s') →
  NoDup (dict_keys d) ∧
  ∀ k, k ∈ dict_keys d ↔ rows_of k (DictReader t) ≠ [].
Proof.
  intros Hrun. apply aggregate_Return in Hrun as [Hloop ->]. split.
  - destruct (rows_frame _ _ _ _ Hloop) as (_ & Hnd & _).
    apply Hnd. constructor.
  - intros k. rewrite (rows_Return_keys _ _ _ Hloop). simpl. split.
    + intros [Hk|Hk]; [|done]. by apply elem_of_nil in Hk.
    + intros Hk. by right.
Qed.

(** C4, amended. After an aggregation that returned, each of the four
    totals of a campaign id present in the input is the float sum, from
    [0.0] and in input order, of that field over the rows bearing the id,
    the int fields converted to float as [+=] does.  (The sum of the int
    fields is the engine's float sum, not the exact integer sum.) *)
Theorem aggregate_totals t s d s' k :
  aggregate t s = (Return d, s') →
  rows_of k (DictReader t) ≠ [] →
  ∃ a, dict_get k d = Some a ∧
    ∀ f, ∃ xs,
      mapM (operand f) (rows_of k (DictReader t)) = Some xs ∧
      get_field f a = fsum fzero xs.
Proof.
  intros Hrun Hk. apply aggregate_Return in Hrun as [Hloop ->].
  destruct (rows_Return _ _ _ Hloop k) as [_ Hcons].
  destruct (Hcons Hk) as (a & Ha & Hsum). exists a. split; [done|].
  intros f. destruct (Hsum f) as (xs & Hxs & Hf). exists xs. split; [done|].
  rewrite Hf. simpl. by destruct f.
Qed.

(** C2, amended. When a row holds a counter that cannot be parsed,
    [aggregate] raises and returns no mapping, and the metrics are left
    empty; but the accumulators are not rolled back.  The engine is left
    in the state in which the first failing row [bad] raised: the totals
    accumulated from the rows [pre] before it are still there, unchanged
    for every campaign but that of [bad], and [get_results] returns
    them. *)
Theorem aggregate_parse_failure t s :
  Exists unparsable (DictReader t) →
  ∃ e s' pre bad post s1,
    aggregate t s = (Raise e, s') ∧
    _metrics s' = [] ∧
    get_results s' = (Return (_results s'), s') ∧
    DictReader t = pre ++ bad :: post ∧
    for_each aggregate_row pre __init__ = (Return tt, s1) ∧
    aggregate_row bad s1 = (Raise e, s') ∧
    (∀ k, k ∈ dict_keys (_results s1) → k ∈ dict_keys (_results s')) ∧
    (∀ k, bad !! "campaign_id" ≠ Some k →
       dict_get k (_results s') = dict_get k (_results s1)).
Proof.
  intros Hbad. rewrite aggregate_unfold.
  destruct (for_each aggregate_row (DictReader t) __init__)
    as [[[]|e] s'] eqn:Hrun.
  - apply rows_Return_operands in Hrun.
    apply Exists_exists in Hbad as (r & Hr & Hun).
    rewrite Forall_forall in Hrun.
    destruct (unparsable_operand _ Hun) as (f & Hf).
    destruct (Hrun r Hr f) as [x Hx]. congruence.
  - destruct (for_each_Raise _ _ _ _ _ Hrun)
      as (pre & bad & post & s1 & Hsplit & Hpre & Hrow).
    exists e, s', pre, bad, post, s1.
    destruct (rows_frame _ _ _ _ Hpre) as (Hm1 & _).
    destruct (aggregate_row_frame _ _ _ _ Hrow) as (Hm & _ & Hget & Hkeys).
    split_and!; try done.
    + by rewrite (bind_Raise _ _ _ _ _ Hrun).
    + by rewrite Hm, Hm1.
    + intros k Hk. apply Hkeys. by right.
Qed.


(** The entry [compute_metrics] makes for a campaign. *)
Lemma compute_metrics_entry s k a :
  reachable s → dict_get k (_results s) = Some a →
  ∃ m s',
    compute_metrics s = (Return m, s') ∧ dict_get k m = Some (derive a).
Proof.
  intros Hs Hk. apply reachable_consistent in Hs as [Hnd _].
  eexists _, _. split; [apply compute_metrics_run|].
  by rewrite (derive_all_NoDup _ Hnd), dict_get_derive, Hk.
Qed.

(** C3. For a campaign whose total of conversions is above zero,
    [compute_metrics] yields [cpa = round(spend / conversions, 4)]; for one
    whose total is zero the CPA is [None], not a number.  ([0.0 < 0.0] is
    false.) *)
Theorem compute_metrics_cpa s k a :
  reachable s →
  flt fzero fzero = false →
  dict_get k (_results s) = Some a →
  ∃ m s' mt,
    compute_metrics s = (Return m, s') ∧
    dict_get k m = Some mt ∧
    (flt fzero (conversions a) = true →
       cpa mt = Some (round4 (truediv (spend a) (conversions a)))) ∧
    (conversions a = fzero → cpa mt = None).
Proof.
  intros Hs Hzero Hk.
  destruct (compute_metrics_entry _ _ _ Hs Hk) as (m & s' & Hrun & Hm).
  exists m, s', (derive a). split_and!; [done..| |]; unfold derive; simpl.
  - by intros ->.
  - intros ->. by rewrite Hzero.
Qed.

(** C5. [compute_metrics] yields [ctr = round(clicks / impressions, 4)]
    when the total of impressions is above zero, and exactly [0.0] when it
    is zero.  ([0.0 < 0.0] is false and [round(0.0, 4)] is [0.0].) *)
Theorem compute_metrics_ctr s k a :
  reachable s →
  flt fzero fzero = false →
  round4 fzero = fzero →
  dict_get k (_results s) = Some a →
  ∃ m s' mt,
    compute_metrics s = (Return m, s') ∧
    dict_get k m = Some mt ∧
    (flt fzero (impressions a) = true →
       ctr mt = round4 (truediv (clicks a) (impressions a))) ∧
    (impressions a = fzero → ctr mt = fzero).
Proof.
  intros Hs Hzero Hround Hk.
  destruct (compute_metrics_entry _ _ _ Hs Hk) as (m & s' & Hrun & Hm).
  exists m, s', (derive a). split_and!; [done..| |]; unfold derive; simpl.
  - by intros ->.
  - intros ->. by rewrite Hzero.
Qed.

Lemma weak_order_on_subseteq (l l' : list float) :
  l' ⊆ l → weak_order_on l → weak_order_on l'.
Proof. intros Hsub Hord x y z Hx Hy Hz. apply Hord; auto. Qed.

Lemma append_inj_l (p a b : string) : p +:+ a = p +:+ b → a = b.
Proof. induction p as [|c p IH]; simpl; [done|]. intros [= ?]. auto. Qed.

Lemma path_join_inj (output_dir a b : string) :
  path_join output_dir a = path_join output_dir b → a = b.
Proof.
  unfold path_join. destruct (ends_with_sep output_dir); intros Heq.
  - by apply append_inj_l in Heq.
  - by do 2 apply append_inj_l in Heq.
Qed.

(** [weak_order_on] can be checked by running [<] on the list. *)
Lemma weak_order_on_check (l : list float) :
  forallb (λ x, forallb (λ y, forallb (λ z,
    implb (flt x y) (negb (flt y x)) &&
    (flt x y || flt y z || negb (flt x z))) l) l) l = true →
  weak_order_on l.
Proof.
  intros Hall x y z Hx%list_elem_of_In Hy%list_elem_of_In Hz%list_elem_of_In.
  rewrite forallb_forall in Hall. specialize (Hall x Hx).
  rewrite forallb_forall in Hall. specialize (Hall y Hy).
  rewrite forallb_forall in Hall. specialize (Hall z Hz).
  apply andb_prop in Hall as [Hasym Htrans].
  destruct (flt x y), (flt y x), (flt y z), (flt x z); done.
Qed.

(** What a call of [write_reports] that returned has done. *)
Lemma write_reports_Return output_dir w w' :
  reachable (self w) →
  write_reports output_dir w = (Return tt, w') →
  ∃ data,
    Forall2 row_of (_results (self w)) data ∧
    _metrics (self w') = prod_map id derive <$> _results (self w) ∧
    files w' =
      csv_written (path_join output_dir "top10_cpa.csv") (top10_cpa data)
        (csv_written (path_join output_dir "top10_ctr.csv") (top10_ctr data)
           (files w)).
Proof.
  intros Hs%reachable_consistent. rewrite write_reports_run. cbv zeta.
  destruct (makedirs_error w output_dir); [done|].
  destruct (report_data (prepared (self w))) as [data|e] eqn:Hdata; [|done].
  destruct (write_error w _ (top10_ctr data)); [done|].
  destruct (write_error w _ (top10_cpa data)); [done|].
  intros [= <-]. exists data. simpl. split_and!; [|by apply prepared_metrics|done].
  by apply report_data_Return.
Qed.

(** The CTR of a row is a rounded quotient of convertible totals, or
    [round(0.0, 4)]. *)
Lemma row_of_ctr_value item r : row_of item r → ctr_value (row_ctr r).
Proof.
  intros (_ & Hctr & _ & _ & Hi & Hc & _). rewrite Hctr. unfold derive. simpl.
  destruct (flt fzero (impressions item.2)) eqn:Hpos; [|by left].
  right. exists (clicks item.2), (impressions item.2).
  split_and!; [by eexists..|done|done].
Qed.

Lemma ctr_values_ordered d data :
  weak_order ctr_value → Forall2 row_of d data →
  weak_order_on (row_ctr <$> data).
Proof.
  intros Hord Hdata x y z Hx Hy Hz.
  assert (∀ v, v ∈ row_ctr <$> data → ctr_value v) as Hval.
  { intros v (r & -> & Hr)%list_elem_of_fmap.
    destruct (row_of_elem _ _ _ Hdata Hr) as (item & _ & Hrow).
    by eapply row_of_ctr_value. }
  apply Hord; auto.
Qed.

(** The ranking of the reports, for numbers on which [0.0 < 0.0] is false
    and [<] is a strict weak order on the values a CTR takes. *)
Lemma write_reports_ranking_of_order output_dir w w' :
  reachable (self w) →
  flt fzero fzero = false →
  weak_order ctr_value →
  write_reports output_dir w = (Return tt, w') →
  ∃ ctr_rows cpa_rows,
    files w' =
      csv_written (path_join output_dir "top10_cpa.csv") cpa_rows
        (csv_written (path_join output_dir "top10_ctr.csv") ctr_rows
           (files w)) ∧
    (length ctr_rows ≤ 10)%nat ∧
    (length cpa_rows ≤ 10)%nat ∧
    Forall (λ r, ∃ a x,
              dict_get (row_campaign_id r) (_results (self w)) = Some a ∧
              row_cpa r = Some x ∧
              flt fzero (conversions a) = true ∧
              conversions a ≠ fzero) cpa_rows ∧
    StronglySorted (λ r1 r2, flt (row_ctr r1) (row_ctr r2) = false)
      ctr_rows ∧
    (weak_order_on (cpa_values (_metrics (self w'))) →
       StronglySorted (λ r1 r2, cpa_lt (row_cpa r2) (row_cpa r1) = false)
         cpa_rows).
Proof.
  intros Hs Hzero Hlaw Hrun.
  destruct (write_reports_Return _ _ _ Hs Hrun) as (data & Hdata & Hm & Hfiles).
  apply reachable_consistent in Hs as [Hnd _]. rewrite Hm.
  exists (top10_ctr data), (top10_cpa data).
  split_and!; [done|apply top10_ctr_length|apply top10_cpa_length| | |].
  - apply Forall_forall. intros r Hr.
    apply top10_cpa_elem in Hr as [Hr Hcpa].
    destruct (row_of_elem _ _ _ Hdata Hr) as ([k a] & Hitem & Hrow).
    destruct Hrow as (Hid & _ & Hrcpa & _). cbn [fst snd] in *.
    exists a. unfold has_cpa in Hcpa. rewrite Hrcpa in Hcpa |- *.
    unfold derive in *. simpl in *.
    destruct (flt fzero (conversions a)) eqn:Hconv; [|done].
    eexists. split_and!; [|done..|].
    + rewrite Hid. by apply dict_get_elem.
    + intros Heq. rewrite Heq in Hconv. congruence.
  - apply top10_ctr_sorted. by eapply ctr_values_ordered.
  - intros Hord. apply top10_cpa_sorted.
    eapply weak_order_on_subseteq; [|done].
    intros x Hx. apply list_elem_of_omap in Hx as (r & Hr & Hx).
    by apply (proj2 (row_of_metric_values _ _ _ Hdata Hr)).
Qed.

End Contract.

(** ** More of the engine

    What the loop of [aggregate] needs of a row, the order of the keys,
    the stability of [sorted], and the rows [write_reports] builds. *)

(** *** The rows of [DictReader] *)
Section ReaderFacts.
Implicit Types (fieldnames record : list string) (name : string).
Implicit Types (l : list (nat * string)) (d : gmap string cell).

Lemma make_row_fold_notin record name l d :
  name ∉ l.*2 →
  foldl (λ d '(i, n), <[n := record !! i]> d) d l !! name = d !! name.
Proof.
  revert d. induction l as [|[j n] l IH]; intros d Hn; [done|].
  rewrite fmap_cons, not_elem_of_cons in Hn. destruct Hn as [Hne Hn].
  simpl. rewrite IH by done. by rewrite lookup_insert_ne.
Qed.

Lemma make_row_fold_in record name i l d :
  NoDup l.*2 → (i, name) ∈ l →
  foldl (λ d '(i, n), <[n := record !! i]> d) d l !! name = Some (record !! i).
Proof.
  revert d. induction l as [|[j n] l IH]; intros d Hnd Hin.
  { by apply elem_of_nil in Hin. }
  rewrite fmap_cons in Hnd. apply NoDup_cons in Hnd as [Hn Hnd].
  apply elem_of_cons in Hin as [[= -> ->]|Hin]; simpl.
  - rewrite make_row_fold_notin by done. by rewrite lookup_insert_eq.
  - by apply IH.
Qed.

Lemma indexed_snd (g : nat → nat) fieldnames :
  (imap (λ i n, (g i, n)) fieldnames).*2 = fieldnames.
Proof.
  revert g. induction fieldnames as [|n l IH]; intros g; [done|].
  rewrite imap_cons, fmap_cons. simpl. f_equal. apply (IH (g ∘ S)).
Qed.

Lemma make_row_None fieldnames record name :
  name ∉ fieldnames → make_row fieldnames record !! name = None.
Proof.
  intros Hn. unfold make_row. rewrite make_row_fold_notin; [done|].
  by rewrite (indexed_snd id).
Qed.

Lemma make_row_lookup fieldnames record i name :
  NoDup fieldnames → fieldnames !! i = Some name →
  make_row fieldnames record !! name = Some (record !! i).
Proof.
  intros Hnd Hi. unfold make_row. apply make_row_fold_in.
  - by rewrite (indexed_snd id).
  - by apply (elem_of_lookup_imap_2 (λ i n, (i, n))).
Qed.

End ReaderFacts.

(** *** The order of the keys, and the rows that are read *)
Section OrderFacts.
Context {num : PyNum}.
Implicit Types (s : AdAggregator float) (r : row) (f : field) (k : cell).

Lemma dict_keys_set_order {V} k (v : V) (d : dict cell V) :
  dict_keys (dict_set k v d) =
    if decide (k ∈ dict_keys d) then dict_keys d else dict_keys d ++ [k].
Proof.
  destruct (dict_get k d) as [v'|] eqn:Hget.
  - rewrite (dict_keys_set_in _ _ _ _ Hget). case_decide as Hk; [done|].
    apply dict_get_None in Hk. congruence.
  - rewrite (dict_set_fresh _ _ _ Hget). unfold dict_keys.
    rewrite fmap_app. apply dict_get_None in Hget. by rewrite decide_False.
Qed.

Lemma filter_all {A} (P : A → Prop) `{!∀ x, Decision (P x)} (l : list A) :
  (∀ x, P x) → filter P l = l.
Proof.
  intros HP. induction l as [|x l IH]; [done|].
  rewrite filter_cons_True by done. by rewrite IH.
Qed.

Lemma rows_Return_order rows s s' :
  for_each aggregate_row rows s = (Return tt, s') →
  dict_keys (_results s') =
    dict_keys (_results s) ++
      filter (λ k, k ∉ dict_keys (_results s)) (first_seen (campaign_ids rows)).
Proof.
  revert s. induction rows as [|r rows IH]; intros s; simpl.
  - intros [= <-]. by rewrite app_nil_r.
  - intros Hrun. apply bind_Return in Hrun as ([] & s1 & Hrow & Hrun).
    apply IH in Hrun. rewrite Hrun. clear Hrun IH.
    apply aggregate_row_Return in Hrow
      as (k & i & c & sp & v & Hk & _ & _ & _ & _ & ->).
    unfold campaign_ids. simpl. rewrite Hk. simpl.
    fold (campaign_ids rows). rewrite dict_keys_set_order.
    set (ids := first_seen (campaign_ids rows)).
    set (seen := dict_keys (_results s)).
    case_decide as Hseen.
    + rewrite filter_cons_False by (intros Hn; by apply Hn).
      f_equal. symmetry. apply list_filter_filter_l.
      intros x Hx ->. by apply Hx.
    + rewrite filter_cons_True by done. rewrite <- app_assoc. simpl.
      do 2 f_equal. rewrite list_filter_filter. apply list_filter_iff.
      intros x. rewrite not_elem_of_app, not_elem_of_cons. split.
      * intros (? & ? & _). done.
      * intros (? & ?). split_and!; [done..|]. apply not_elem_of_nil.
Qed.

(** A readable row is processed. *)
Lemma operand_Some f r y :
  operand f r = Some y → ∃ n, column f r = Return n ∧ as_float n = Some y.
Proof.
  rewrite operand_column. destruct (column f r) as [n|e]; [|done]. eauto.
Qed.

Lemma aggregate_row_readable r s :
  readable r → ∃ s', aggregate_row r s = (Return tt, s').
Proof.
  intros [[k Hk] Hops]. rewrite aggregate_row_unfold, Hk.
  destruct (Hops Impressions) as [i Hi], (Hops Clicks) as [c Hc],
    (Hops Spend) as [sp Hsp], (Hops Conversions) as [v Hv].
  apply operand_Some in Hi as (n1 & Hn1 & Hi).
  apply operand_Some in Hc as (n2 & Hn2 & Hc).
  apply operand_Some in Hsp as (n3 & Hn3 & Hsp).
  apply operand_Some in Hv as (n4 & Hn4 & Hv).
  erewrite bind_eq; cycle 1.
  { erewrite iadd_run; [|by apply (int_operand_run r Impressions)].
    simpl. rewrite with_entry_get, Hn1, Hi. reflexivity. }
  erewrite bind_eq; cycle 1.
  { erewrite iadd_run; [|by apply (int_operand_run r Clicks)].
    simpl. rewrite dict_get_set_eq, Hn2, Hc. reflexivity. }
  erewrite bind_eq; cycle 1.
  { erewrite iadd_run; [|by apply (float_operand_run r)].
    simpl. rewrite dict_get_set_eq, Hn3, Hsp. reflexivity. }
  erewrite iadd_run; [|by apply (int_operand_run r Conversions)].
  simpl. rewrite dict_get_set_eq, Hn4, Hv. eauto.
Qed.

Lemma rows_readable rows s :
  Forall readable rows → ∃ s', for_each aggregate_row rows s = (Return tt, s').
Proof.
  intros Hall. revert s. induction Hall as [|r rows Hr _ IH]; intros s; simpl.
  - by eexists.
  - destruct (aggregate_row_readable r s Hr) as [s1 H1].
    rewrite (bind_eq _ _ _ _ _ H1). apply IH.
Qed.

Lemma rows_Return_readable rows s s' :
  for_each aggregate_row rows s = (Return tt, s') → Forall readable rows.
Proof.
  revert s. induction rows as [|r rows IH]; intros s; simpl; [done|].
  intros Hrun. apply bind_Return in Hrun as ([] & s1 & Hrow & Hrun).
  constructor; [|by eapply IH].
  apply aggregate_row_Return in Hrow
    as (k & i & c & sp & v & Hk & Hi & Hc & Hsp & Hv & _).
  split; [by eexists|]. intros []; by eexists.
Qed.

(** The loop body reads the row through five keys only. *)
Lemma aggregate_row_same_fields r1 r2 :
  same_fields r1 r2 → aggregate_row r1 = aggregate_row r2.
Proof.
  intros [Hid Hf].
  pose proof (Hf Impressions) as Hi. pose proof (Hf Clicks) as Hc.
  pose proof (Hf Spend) as Hsp. pose proof (Hf Conversions) as Hv.
  simpl in *.
  unfold aggregate_row, int_operand, float_operand, row_getitem.
  by rewrite Hid, Hi, Hc, Hsp, Hv.
Qed.

Lemma rows_same_fields rows1 rows2 :
  Forall2 same_fields rows1 rows2 →
  for_each aggregate_row rows1 = for_each aggregate_row rows2.
Proof.
  induction 1 as [|r1 r2 rows1 rows2 Hr _ IH]; simpl; [done|].
  by rewrite (aggregate_row_same_fields _ _ Hr), IH.
Qed.

Lemma aggregate_Raise_unless_readable (t : list (list string)) s :
  ¬ Forall readable (DictReader t) → ∃ e s', aggregate t s = (Raise e, s').
Proof.
  intros Hbad. rewrite aggregate_unfold.
  destruct (for_each aggregate_row (DictReader t) __init__)
    as [[[]|e] s'] eqn:Hrun.
  - destruct Hbad. by eapply rows_Return_readable.
  - exists e, s'. by rewrite (bind_Raise _ _ _ _ _ Hrun).
Qed.

Lemma DictReader_elem fieldnames records record :
  record ∈ records → record ≠ [] →
  make_row fieldnames record ∈ DictReader (fieldnames :: records).
Proof.
  intros Hin Hne. simpl. apply list_elem_of_fmap_2.
  by apply list_elem_of_filter.
Qed.

End OrderFacts.


(** *** Stability of [sorted] *)
Section StableFacts.
Context {A K : Type} (key : A → K) (lt : K → K → bool).
Implicit Types (x y : A) (l : list A).

Lemma insert_sorted_sublist x l : l `sublist_of` insert_sorted key lt x l.
Proof.
  induction l as [|z l IH]; simpl; [apply sublist_nil_l|].
  destruct (lt (key z) (key x)).
  - by apply sublist_skip.
  - by apply sublist_cons.
Qed.

Lemma insert_sorted_before x y l :
  y ∈ l → lt (key y) (key x) = false →
  [x; y] `sublist_of` insert_sorted key lt x l.
Proof.
  intros Hy Hlt. induction l as [|z l IH]; simpl.
  { by apply elem_of_nil in Hy. }
  destruct (lt (key z) (key x)) eqn:Hz.
  - apply sublist_cons. apply IH.
    apply elem_of_cons in Hy as [->|Hy]; [congruence|done].
  - apply sublist_skip. by apply singleton_sublist_l.
Qed.

Lemma stable_sort_stable x y l :
  [x; y] `sublist_of` l → lt (key y) (key x) = false →
  [x; y] `sublist_of` stable_sort key lt l.
Proof.
  intros Hsub Hlt. induction l as [|z l IH]; simpl.
  { by apply sublist_nil_r in Hsub. }
  apply sublist_cons_r in Hsub as [Hsub|(l' & [= -> <-] & Hsub)].
  - etrans; [by apply IH|]. apply insert_sorted_sublist.
  - apply insert_sorted_before; [|done].
    apply singleton_sublist_l in Hsub.
    by rewrite stable_sort_Permutation.
Qed.

Lemma sublist_reverse l1 l2 :
  l1 `sublist_of` l2 → reverse l1 `sublist_of` reverse l2.
Proof.
  induction 1 as [|x l1 l2 _ IH|x l1 l2 _ IH]; [done| |].
  - rewrite !reverse_cons. by apply sublist_app.
  - rewrite reverse_cons. by apply sublist_inserts_r.
Qed.

(** [sorted] keeps [x] before [y] unless the order asked for puts [y]
    strictly first. *)
Lemma sorted_stable (descending : bool) x y l :
  [x; y] `sublist_of` l →
  (if descending then lt (key x) (key y) else lt (key y) (key x)) = false →
  [x; y] `sublist_of` sorted key lt descending l.
Proof.
  intros Hsub Hlt. unfold sorted. destruct descending.
  - apply (sublist_reverse [y; x]). apply stable_sort_stable; [|done].
    by apply (sublist_reverse [x; y]).
  - by apply stable_sort_stable.
Qed.

Lemma sublist_filter_mono (P : A → Prop) `{!∀ x, Decision (P x)} l1 l2 :
  l1 `sublist_of` l2 → filter P l1 `sublist_of` filter P l2.
Proof.
  induction 1 as [|x l1 l2 _ IH|x l1 l2 _ IH]; [done| |].
  - rewrite !filter_cons. destruct (decide (P x)); [by apply sublist_skip|done].
  - rewrite filter_cons. destruct (decide (P x)); [by apply sublist_cons|done].
Qed.

(** A pair in order in a list without repeats is in order in any prefix
    that holds its second element. *)
Lemma sublist_pair_take x y n l :
  NoDup l → [x; y] `sublist_of` l → y ∈ take n l →
  [x; y] `sublist_of` take n l.
Proof.
  intros Hnd Hsub Hy. rewrite <- (take_drop n l) in Hnd, Hsub.
  apply NoDup_app in Hnd as (_ & Hdisj & _).
  apply sublist_app_r in Hsub as (k1 & k2 & Heq & H1 & H2).
  destruct k1 as [|x' [|y' k1]]; simpl in Heq.
  - subst k2. exfalso. apply (Hdisj y Hy).
    eapply elem_of_sublist; [|done]. apply elem_of_cons. right.
    apply elem_of_cons. by left.
  - injection Heq as <- <-. exfalso. apply (Hdisj y Hy).
    by apply singleton_sublist_l.
  - injection Heq as <- <- Hnil. symmetry in Hnil.
    apply app_eq_nil in Hnil as [-> _]. done.
Qed.

(** Past a prefix of a sorted list, nothing is strictly before an element
    of the prefix. *)
Lemma StronglySorted_take_drop (R : relation A) n l x y :
  StronglySorted R l → x ∈ take n l → y ∈ drop n l → R x y.
Proof.
  intros Hs Hx Hy. rewrite <- (take_drop n l) in Hs.
  by apply (StronglySorted_app_1_elem_of R _ _ x y Hs).
Qed.

End StableFacts.

Section SublistFacts.
Context {B C : Type} (f : B → C).

Lemma sublist_fmap_inv (cs : list C) (bs : list B) :
  cs `sublist_of` f <$> bs → ∃ bs', cs = f <$> bs' ∧ bs' `sublist_of` bs.
Proof.
  revert cs. induction bs as [|x bs IH]; intros cs.
  - rewrite fmap_nil. intros ->%sublist_nil_r. by exists [].
  - rewrite fmap_cons. intros [Hl|(l' & -> & Hl)]%sublist_cons_r.
    + destruct (IH _ Hl) as (bs' & -> & Hsub). exists bs'.
      split; [done|]. by apply sublist_cons.
    + destruct (IH _ Hl) as (bs' & -> & Hsub). exists (x :: bs').
      split; [done|]. by apply sublist_skip.
Qed.

Lemma sublist_pair_fmap_inv x y (bs : list B) :
  [x; y] `sublist_of` f <$> bs →
  ∃ a b, x = f a ∧ y = f b ∧ [a; b] `sublist_of` bs.
Proof.
  intros (bs' & Heq & Hsub)%sublist_fmap_inv.
  destruct bs' as [|a [|b [|??]]]; try done.
  injection Heq as -> ->. by exists a, b.
Qed.

End SublistFacts.

(** *** The rows of the reports *)
Section RowsFacts.
Context {num : PyNum}.
Implicit Types (s : AdAggregator float) (k : cell) (a : accumulator float).
Implicit Types (w : world float).
Implicit Types (d : dict cell (accumulator float)).
Implicit Types (data : list (report_row float)).

Lemma derive_keys d : dict_keys (prod_map id derive <$> d) = dict_keys d.
Proof.
  unfold dict_keys. rewrite <- list_fmap_compose.
  apply list_fmap_ext. by intros [].
Qed.

Lemma row_of_ids d data :
  Forall2 row_of d data → row_campaign_id <$> data = dict_keys d.
Proof.
  induction 1 as [|item r d data Hrow _ IH]; [done|].
  rewrite fmap_cons. unfold dict_keys. rewrite fmap_cons.
  destruct Hrow as (-> & _). f_equal. apply IH.
Qed.

Lemma row_of_countable d data :
  Forall2 row_of d data → Forall (λ item, countable item.2) d.
Proof.
  induction 1 as [|item r d data Hrow _ IH]; constructor; [|done].
  destruct Hrow as (_ & _ & _ & _ & Hi & Hc & Hv).
  intros [] Hf; simpl; eauto. done.
Qed.

Lemma row_of_has_cpa item r :
  row_of item r →
  has_cpa r = true ↔ flt fzero (conversions item.2) = true.
Proof.
  intros (_ & _ & Hcpa & _). unfold has_cpa. rewrite Hcpa.
  unfold derive. simpl. by destruct (flt fzero (conversions item.2)).
Qed.

Lemma row_of_converting d data :
  Forall2 row_of d data →
  Forall2 row_of (converting d) (filter (λ r, has_cpa r = true) data).
Proof.
  unfold converting.
  induction 1 as [|item r d data Hrow _ IH]; [constructor|].
  pose proof (row_of_has_cpa _ _ Hrow) as Hiff.
  destruct (decide (has_cpa r = true)) as [Hr|Hr].
  - rewrite (filter_cons_True _ r) by done.
    rewrite (filter_cons_True _ item) by by apply Hiff.
    by constructor.
  - rewrite (filter_cons_False _ r) by done.
    rewrite (filter_cons_False _ item); [done|].
    intros Hi. by apply Hr, Hiff.
Qed.

(** The outcome of building one row. *)
Lemma report_item_run k a s :
  dict_get k (_results s) = Some a →
  report_item (k, derive a) s =
    (match int_of_float (impressions a) with
     | Raise e => Raise e
     | Return i =>
         match int_of_float (clicks a) with
         | Raise e => Raise e
         | Return c =>
             match int_of_float (conversions a) with
             | Raise e => Raise e
             | Return v =>
                 Return {| row_campaign_id := k;
                           row_impressions := i;
                           row_clicks := c;
                           row_spend := round4 (spend a);
                           row_conversions := v;
                           row_ctr := ctr (derive a);
                           row_cpa := cpa (derive a) |}
             end
         end
     end, s).
Proof.
  intros Hk. unfold report_item, results_getitem.
  unfold bind at 1 2, get. simpl. rewrite Hk. simpl.
  unfold bind. rewrite !py_int_of_float_run.
  by repeat (destruct (int_of_float _)).
Qed.

Lemma for_collect_cons {St B C} (f : B → M St C) x l :
  for_collect f (x :: l) =
    (do y <- f x; do ys <- for_collect f l; ret (y :: ys)).
Proof. done. Qed.

Lemma for_collect_countable d s :
  (∀ item, item ∈ d → dict_get item.1 (_results s) = Some item.2) →
  Forall (λ item, countable item.2) d →
  ∃ data, for_collect report_item (prod_map id derive <$> d) s = (Return data, s).
Proof.
  intros Hd Hall. induction Hall as [|[k a] d Ha _ IH].
  - by eexists.
  - rewrite fmap_cons.
    change (prod_map id derive (k, a)) with (k, derive a).
    rewrite for_collect_cons.
    destruct (Ha Impressions) as [i Hi]; [done|].
    destruct (Ha Clicks) as [c Hc]; [done|].
    destruct (Ha Conversions) as [v Hv]; [done|]. simpl in Hi, Hc, Hv.
    erewrite bind_eq; cycle 1.
    { rewrite report_item_run by (apply (Hd (k, a)), elem_of_cons; by left).
      rewrite Hi, Hc, Hv. reflexivity. }
    destruct IH as [data Hdata].
    { intros item Hitem. apply Hd, elem_of_cons. by right. }
    rewrite (bind_eq _ _ _ _ _ Hdata). by eexists.
Qed.

Lemma for_collect_Raise d s e s' :
  (∀ item, item ∈ d → dict_get item.1 (_results s) = Some item.2) →
  for_collect report_item (prod_map id derive <$> d) s = (Raise e, s') →
  ∃ item f, item ∈ d ∧ f ≠ Spend ∧
    int_of_float (get_field f item.2) = Raise e.
Proof.
  induction d as [|[k a] d IH]; intros Hd; [done|].
  rewrite fmap_cons.
  change (prod_map id derive (k, a)) with (k, derive a).
  rewrite for_collect_cons. intros Hrun.
  apply bind_inv in Hrun as [(r & s1 & Hr & Hrun)|(e' & Hr & [= <-])].
  - assert (s1 = s) as ->.
    { pose proof (report_item_state (k, derive a) s) as Hst.
      by rewrite Hr in Hst. }
    apply bind_inv in Hrun as [(rs & s2 & Hrs & Hret)|(e' & Hrs & [= <-])];
      [done|].
    destruct IH as (item & f & Hitem & Hf & He); [|done|].
    { intros item Hitem. apply Hd, elem_of_cons. by right. }
    exists item, f. split_and!; [|done..]. apply elem_of_cons. by right.
  - rewrite report_item_run in Hr
      by (apply (Hd (k, a)), elem_of_cons; by left).
    exists (k, a). simpl.
    destruct (int_of_float (impressions a)) as [i|e1] eqn:Hi.
    2:{ injection Hr as <- _. exists Impressions.
        split_and!; [apply elem_of_cons; by left|done..]. }
    destruct (int_of_float (clicks a)) as [c|e1] eqn:Hc.
    2:{ injection Hr as <- _. exists Clicks.
        split_and!; [apply elem_of_cons; by left|done..]. }
    destruct (int_of_float (conversions a)) as [v|e1] eqn:Hv; [done|].
    injection Hr as <- _. exists Conversions.
    split_and!; [apply elem_of_cons; by left|done..].
Qed.

Lemma prepared_eq s :
  consistent s →
  prepared s =
    {| _results := _results s;
       _metrics := prod_map id derive <$> _results s |}.
Proof.
  intros Hs. pose proof (prepared_metrics _ Hs) as Hm.
  pose proof (prepared_results s) as Hr.
  destruct (prepared s) as [r m]. simpl in *. by subst.
Qed.

Lemma report_data_run s :
  consistent s →
  report_data (prepared s) =
    (for_collect report_item (prod_map id derive <$> _results s)
       (prepared s)).1 ∧
  ∀ item, item ∈ _results s →
    dict_get item.1 (_results (prepared s)) = Some item.2.
Proof.
  intros Hs. unfold report_data. rewrite (prepared_metrics _ Hs).
  split; [done|]. intros [k a] Hitem. rewrite prepared_results.
  apply dict_get_elem; [apply Hs|done].
Qed.

(** The ranked rows. *)
Lemma ids_NoDup_sorted {K'} (key : report_row float → K') lt (b : bool) data n :
  NoDup (row_campaign_id <$> data) →
  NoDup (row_campaign_id <$> take n (sorted key lt b data)).
Proof.
  intros Hnd. eapply sublist_NoDup; [|apply fmap_sublist, sublist_take].
  by rewrite sorted_Permutation.
Qed.

Lemma ids_NoDup_filter (P : report_row float → Prop) `{!∀ r, Decision (P r)}
    data :
  NoDup (row_campaign_id <$> data) →
  NoDup (row_campaign_id <$> filter P data).
Proof.
  intros Hnd. eapply sublist_NoDup; [done|]. apply fmap_sublist, sublist_filter.
Qed.

Lemma top10_length {K'} (key : report_row float → K') lt (b : bool) data :
  length (take 10 (sorted key lt b data)) = (10 `min` length data)%nat.
Proof. by rewrite length_take, sorted_Permutation. Qed.

Lemma top10_all {K'} (key : report_row float → K') lt (b : bool) data :
  (length data ≤ 10)%nat → take 10 (sorted key lt b data) ≡ₚ data.
Proof.
  intros Hlen. rewrite take_ge; [apply sorted_Permutation|].
  by rewrite sorted_Permutation.
Qed.

Lemma row_ids_inj data r1 r2 :
  NoDup (row_campaign_id <$> data) → r1 ∈ data → r2 ∈ data →
  row_campaign_id r1 = row_campaign_id r2 → r1 = r2.
Proof.
  intros Hnd [i Hi]%list_elem_of_lookup [j Hj]%list_elem_of_lookup Hid.
  assert (i = j) as ->; [|congruence].
  eapply NoDup_lookup; [exact Hnd| |].
  - rewrite list_lookup_fmap, Hi. reflexivity.
  - rewrite list_lookup_fmap, Hj. simpl. by rewrite Hid.
Qed.

Lemma sorted_ctr_StronglySorted data :
  weak_order_on (row_ctr <$> data) →
  StronglySorted (λ r1 r2, flt (row_ctr r1) (row_ctr r2) = false)
    (sorted row_ctr flt true data).
Proof.
  intros Hord. apply (sorted_StronglySorted row_ctr flt true).
  intros x y z Hx Hy Hz. apply Hord; by apply list_elem_of_fmap_2.
Qed.

Lemma sorted_cpa_StronglySorted data :
  weak_order_on (omap row_cpa data) →
  StronglySorted (λ r1 r2, cpa_lt (row_cpa r2) (row_cpa r1) = false)
    (sorted row_cpa cpa_lt false (filter (λ r, has_cpa r = true) data)).
Proof.
  intros Hord. apply (sorted_StronglySorted row_cpa cpa_lt false).
  assert (∀ r, r ∈ filter (λ r, has_cpa r = true) data →
            ∃ x, row_cpa r = Some x ∧ x ∈ omap row_cpa data) as Hval.
  { intros r Hr. apply list_elem_of_filter in Hr as [Hcpa Hr].
    unfold has_cpa in Hcpa. destruct (row_cpa r) as [x|] eqn:Hx; [|done].
    exists x. split; [done|]. apply list_elem_of_omap. by exists r. }
  intros x y z Hx Hy Hz.
  destruct (Hval _ Hx) as (vx & -> & Hvx).
  destruct (Hval _ Hy) as (vy & -> & Hvy).
  destruct (Hval _ Hz) as (vz & -> & Hvz).
  simpl. by apply Hord.
Qed.

(** The row of a campaign of the accumulators. *)
Lemma row_of_elem_l d data item :
  Forall2 row_of d data → item ∈ d → ∃ r, r ∈ data ∧ row_of item r.
Proof.
  intros Hall Hitem. apply list_elem_of_lookup in Hitem as [i Hi].
  destruct (Forall2_lookup_l _ _ _ _ _ Hall Hi) as (r & Hr & Hrow).
  exists r. split; [|done]. by eapply list_elem_of_lookup_2.
Qed.

(** The metrics of the campaign of a row. *)
Lemma row_of_metrics d data r m :
  NoDup (dict_keys d) → Forall2 row_of d data → r ∈ data →
  dict_get (row_campaign_id r) (prod_map id derive <$> d) = Some m →
  row_ctr r = ctr m ∧ row_cpa r = cpa m.
Proof.
  intros Hnd Hall Hr. rewrite dict_get_derive.
  destruct (row_of_elem _ _ _ Hall Hr) as ([k a] & Hitem & Hrow).
  destruct Hrow as (Hid & Hctr & Hcpa & _). cbn [fst snd] in *.
  rewrite Hid, (dict_get_elem _ _ _ Hnd Hitem). simpl. by intros [= <-].
Qed.

Lemma aggregate_clears_metrics (t : list (list string)) s :
  _metrics (aggregate t s).2 = [].
Proof.
  rewrite aggregate_unfold. unfold bind at 1.
  destruct (for_each aggregate_row (DictReader t) __init__)
    as [[[]|e] s1] eqn:Hrun;
    destruct (rows_frame _ _ _ _ Hrun) as (Hm & _); simpl; by rewrite Hm.
Qed.

Lemma prepared_prepared s : consistent s → prepared (prepared s) = prepared s.
Proof.
  intros Hs. rewrite (prepared_eq _ Hs). unfold prepared at 1. simpl.
  destruct (prod_map id derive <$> _results s) eqn:Hm; [|done].
  rewrite compute_metrics_run. simpl. destruct Hs as [Hnd _].
  by rewrite (derive_all_NoDup _ Hnd), Hm.
Qed.

Lemma csv_written_lookup_ne p q data
    (fs : gmap string (list (list (pyval float)))) :
  p ≠ q → csv_written q data fs !! p = fs !! p.
Proof.
  intros Hne. unfold csv_written. destruct data; [done|].
  by apply lookup_insert_ne.
Qed.

Lemma csv_written_twice p q x y
    (fs : gmap string (list (list (pyval float)))) :
  p ≠ q →
  csv_written q y (csv_written p x (csv_written q y (csv_written p x fs))) =
    csv_written q y (csv_written p x fs).
Proof.
  intros Hne. unfold csv_written. destruct x, y; simpl; try done.
  - by rewrite insert_insert_eq.
  - by rewrite insert_insert_eq.
  - rewrite (insert_insert_ne _ p q) by done. by rewrite !insert_insert_eq.
Qed.

Lemma report_paths_ne output_dir :
  path_join output_dir "top10_ctr.csv" ≠ path_join output_dir "top10_cpa.csv".
Proof. by intros Heq%path_join_inj. Qed.

End RowsFacts.

(** ** Further behaviour of the engine

    Edges, errors, effects and the way the methods compose. *)
Section Behaviour.
Context {num : PyNum}.
Implicit Types (s : AdAggregator float) (k : cell) (a : accumulator float).
Implicit Types (w : world float).
Implicit Types (t : list (list string)).

(** The mapping [aggregate] returns lists the campaign ids in the order in
    which the input first mentions them. *)
Theorem aggregate_first_seen_order t s d s' :
  aggregate t s = (Return d, s') →
  dict_keys d = first_seen (campaign_ids (DictReader t)).
Proof.
  intros Hrun. apply aggregate_Return in Hrun as [Hloop ->].
  rewrite (rows_Return_order _ _ _ Hloop). simpl.
  apply filter_all. intros x. apply not_elem_of_nil.
Qed.

(** [aggregate] returns exactly when every row of the input is readable:
    it has a [campaign_id], and its impressions, clicks and conversions
    are ints and its spend a float that [+=] can add.  It raises on any
    other input. *)
Theorem aggregate_returns_iff_readable t s :
  (∃ d s', aggregate t s = (Return d, s')) ↔ Forall readable (DictReader t).
Proof.
  split.
  - intros (d & s' & Hrun). apply aggregate_Return in Hrun as [Hloop _].
    by eapply rows_Return_readable.
  - intros Hall. destruct (rows_readable _ __init__ Hall) as [s' Hs'].
    rewrite aggregate_unfold, (bind_eq _ _ _ _ _ Hs'). by eexists _, _.
Qed.

(** A file without data records (empty, a header only, or blank lines
    after the header) aggregates to the empty mapping without an error,
    whatever its header; and the empty mapping is returned for such files
    only. *)
Theorem aggregate_empty_mapping t s :
  (Forall (λ record, record = []) (tail t) →
     aggregate t s = (Return [], __init__)) ∧
  (∀ s', aggregate t s = (Return [], s') →
     Forall (λ record, record = []) (tail t)).
Proof.
  split.
  - intros Hblank. rewrite aggregate_unfold.
    assert (DictReader t = []) as ->; [|done].
    destruct t as [|fieldnames records]; [done|]. simpl in *.
    induction Hblank as [|record records -> _ IH]; [done|].
    by rewrite filter_cons_False by (intros Hne; by apply Hne).
  - intros s' Hrun. apply aggregate_Return in Hrun as [Hloop Hempty].
    pose proof (rows_Return_readable _ _ _ Hloop) as Hread.
    apply rows_Return_order in Hloop. rewrite <- Hempty in Hloop.
    destruct t as [|fieldnames records]; [constructor|]. simpl in *.
    apply Forall_forall. intros record Hin.
    destruct (decide (record = [])) as [|Hne]; [done|]. exfalso.
    assert (record ∈ filter (λ r, r ≠ []) records) as Hrec
      by by apply list_elem_of_filter.
    destruct (filter (λ r, r ≠ []) records) as [|r0 rest].
    { by apply elem_of_nil in Hrec. }
    rewrite fmap_cons in Hread, Hloop.
    apply Forall_cons in Hread as [[[k Hk] _] _].
    unfold campaign_ids in Hloop. simpl in Hloop. rewrite Hk in Hloop.
    simpl in Hloop. discriminate.
Qed.

(** A header that lacks one of the five columns the loop reads makes
    [aggregate] raise as soon as there is a data record.  When it is
    [campaign_id] that is missing, the exception is [KeyError] and nothing
    has been accumulated. *)
Theorem aggregate_missing_column fieldnames records name s :
  name = "campaign_id" ∨ (∃ f, name = field_name f) →
  name ∉ fieldnames →
  Exists (λ record, record ≠ []) records →
  ∃ e s',
    aggregate (fieldnames :: records) s = (Raise e, s') ∧
    (name = "campaign_id" → e = KeyError ∧ s' = __init__).
Proof.
  intros Hname Hmiss Hrec.
  apply Exists_exists in Hrec as (record & Hin & Hne).
  pose proof (DictReader_elem fieldnames _ _ Hin Hne) as Hrow.
  destruct Hname as [->|[f ->]].
  - rewrite aggregate_unfold. simpl in *.
    assert (record ∈ filter (λ r, r ≠ []) records) as Hrec
      by by apply list_elem_of_filter.
    destruct (filter (λ r, r ≠ []) records) as [|r0 rest].
    { by apply elem_of_nil in Hrec. }
    exists KeyError, __init__. split; [|done].
    rewrite fmap_cons. simpl. unfold bind at 1 2.
    by rewrite aggregate_row_unfold, make_row_None.
  - destruct (aggregate_Raise_unless_readable (fieldnames :: records) s)
      as (e & s' & Hrun).
    + intros Hall. rewrite Forall_forall in Hall.
      destruct (Hall _ Hrow) as [_ Hops]. destruct (Hops f) as [x Hx].
      unfold operand in Hx. by rewrite make_row_None in Hx.
    + exists e, s'. split; [done|]. by destruct f.
Qed.

(** A data record too short to reach a counter column makes [aggregate]
    raise: the row holds [None] there, which [int()] and [float()]
    reject. *)
Theorem aggregate_short_record fieldnames records record f i s :
  NoDup fieldnames →
  fieldnames !! i = Some (field_name f) →
  record ∈ records → record ≠ [] → (length record ≤ i)%nat →
  ∃ e s', aggregate (fieldnames :: records) s = (Raise e, s').
Proof.
  intros Hnd Hi Hin Hne Hshort.
  pose proof (DictReader_elem fieldnames _ _ Hin Hne) as Hrow.
  apply aggregate_Raise_unless_readable.
  intros Hall. rewrite Forall_forall in Hall.
  destruct (Hall _ Hrow) as [_ Hops]. destruct (Hops f) as [x Hx].
  unfold operand in Hx. rewrite (make_row_lookup _ _ _ _ Hnd Hi) in Hx.
  by rewrite lookup_ge_None_2 in Hx.
Qed.

(** [aggregate] reads a row through its [campaign_id], [impressions],
    [clicks], [spend] and [conversions] entries only: two inputs whose rows
    agree on these have the same outcome and leave the same state, whatever
    their other columns (such as [date]) hold. *)
Theorem aggregate_ignores_other_columns t1 t2 s :
  Forall2 same_fields (DictReader t1) (DictReader t2) →
  aggregate t1 s = aggregate t2 s.
Proof.
  intros Hsame. rewrite !aggregate_unfold.
  by rewrite (rows_same_fields _ _ Hsame).
Qed.

(** The totals of a campaign depend on the rows of that campaign only,
    in their order: two inputs that [aggregate] gets through and that hold
    the same rows for a campaign give it the same entry (or none), however
    the rows of the other campaigns differ or are interleaved. *)
Theorem aggregate_interleaving t1 t2 s1 s2 d1 d2 s1' s2' k :
  aggregate t1 s1 = (Return d1, s1') →
  aggregate t2 s2 = (Return d2, s2') →
  rows_of k (DictReader t1) = rows_of k (DictReader t2) →
  dict_get k d1 = dict_get k d2.
Proof.
  intros [Hloop1 ->]%aggregate_Return [Hloop2 ->]%aggregate_Return Hrows.
  destruct (rows_Return _ _ _ Hloop1 k) as [Hnil1 Hcons1].
  destruct (rows_Return _ _ _ Hloop2 k) as [Hnil2 Hcons2].
  rewrite <- Hrows in Hnil2, Hcons2.
  destruct (decide (rows_of k (DictReader t1) = [])) as [Hnil|Hcons].
  { by rewrite (Hnil1 Hnil), (Hnil2 Hnil). }
  destruct (Hcons1 Hcons) as (a1 & -> & Hsum1).
  destruct (Hcons2 Hcons) as (a2 & -> & Hsum2).
  assert (∀ f, get_field f a1 = get_field f a2) as Hf.
  { intros f. destruct (Hsum1 f) as (xs1 & Hxs1 & ->).
    destruct (Hsum2 f) as (xs2 & Hxs2 & ->). congruence. }
  pose proof (Hf Impressions). pose proof (Hf Clicks).
  pose proof (Hf Spend). pose proof (Hf Conversions).
  destruct a1, a2. simpl in *. congruence.
Qed.

(** In a reachable state [compute_metrics] returns, without raising, a
    mapping with one entry per campaign of the accumulators, in the same
    order; the accumulators are left as they were, and [get_metrics] then
    returns that mapping. *)
Theorem compute_metrics_one_entry_per_campaign s :
  reachable s →
  ∃ m s',
    compute_metrics s = (Return m, s') ∧
    dict_keys m = dict_keys (_results s) ∧
    _results s' = _results s ∧
    get_metrics s' = (Return m, s').
Proof.
  intros [Hnd _]%reachable_consistent.
  eexists _, _. split; [apply compute_metrics_run|].
  by rewrite (derive_all_NoDup _ Hnd), derive_keys.
Qed.

(** What a call of [write_reports] that returned has built and written. *)
Lemma write_reports_Return_reports output_dir w w' :
  reachable (self w) →
  write_reports output_dir w = (Return tt, w') →
  ∃ data,
    Forall2 row_of (_results (self w)) data ∧
    ctr_report (self w) = top10_ctr data ∧
    cpa_report (self w) = top10_cpa data ∧
    _metrics (self w') = prod_map id derive <$> _results (self w) ∧
    files w' =
      csv_written (path_join output_dir "top10_cpa.csv") (cpa_report (self w))
        (csv_written (path_join output_dir "top10_ctr.csv")
           (ctr_report (self w)) (files w)).
Proof.
  intros Hs%reachable_consistent. rewrite write_reports_run. cbv zeta.
  unfold ctr_report, cpa_report.
  destruct (makedirs_error w output_dir); [done|].
  destruct (report_data (prepared (self w))) as [data|e] eqn:Hdata; [|done].
  destruct (write_error w _ (top10_ctr data)); [done|].
  destruct (write_error w _ (top10_cpa data)); [done|].
  intros [= <-]. exists data. simpl.
  split_and!; [by apply report_data_Return|done..|by apply prepared_metrics|done].
Qed.

Lemma write_error_open w filepath (data : list (report_row float)) e :
  write_error w filepath data = Some e → open_error w filepath = Some e.
Proof. by destruct data. Qed.

(** [write_reports] makes the directory before anything else.  When that
    raises, the call raises the same and the engine, the files and the
    output are untouched.  Otherwise, whether the call then returns or
    raises, it leaves the engine as [compute_metrics] would have: the
    accumulators are untouched, and the metrics are those
    [compute_metrics] returns. *)
Theorem write_reports_computes_metrics output_dir w :
  reachable (self w) →
  (∀ e, makedirs_error w output_dir = Some e →
     write_reports output_dir w = (Raise e, w)) ∧
  (makedirs_error w output_dir = None →
     compute_metrics (self w) =
       (Return (_metrics (self (write_reports output_dir w).2)),
        self (write_reports output_dir w).2) ∧
     _results (self (write_reports output_dir w).2) = _results (self w)).
Proof.
  intros Hs%reachable_consistent. split.
  - intros e Hmk. by rewrite write_reports_run, Hmk.
  - intros Hmk. rewrite write_reports_self, Hmk, (prepared_eq _ Hs). simpl.
    rewrite compute_metrics_run. destruct Hs as [Hnd _].
    by rewrite (derive_all_NoDup _ Hnd).
Qed.

(** [write_reports] returns exactly when the directory can be made,
    [int()] converts the totals of impressions, clicks and conversions of
    every campaign, and each report that has rows can be opened.  When it
    raises, the exception is that of [os.makedirs], of [int()] on one of
    these totals, or of [open()] on a report: its lookups of the
    accumulators do not fail. *)
Theorem write_reports_returns_iff output_dir w :
  reachable (self w) →
  ((∃ w', write_reports output_dir w = (Return tt, w')) ↔
     makedirs_error w output_dir = None ∧
     Forall (λ item, countable item.2) (_results (self w)) ∧
     write_error w (path_join output_dir "top10_ctr.csv")
       (ctr_report (self w)) = None ∧
     write_error w (path_join output_dir "top10_cpa.csv")
       (cpa_report (self w)) = None) ∧
  (∀ e w', write_reports output_dir w = (Raise e, w') →
     makedirs_error w output_dir = Some e ∨
     (∃ item f, item ∈ _results (self w) ∧ f ≠ Spend ∧
        int_of_float (get_field f item.2) = Raise e) ∨
     open_error w (path_join output_dir "top10_ctr.csv") = Some e ∨
     open_error w (path_join output_dir "top10_cpa.csv") = Some e).
Proof.
  intros Hs%reachable_consistent. rewrite write_reports_run. cbv zeta.
  unfold ctr_report, cpa_report.
  destruct (report_data_run _ Hs) as [Hrd Hget].
  split; [split|].
  - intros (w' & Hrun).
    destruct (makedirs_error w output_dir); [done|].
    destruct (report_data (prepared (self w))) as [data|e] eqn:Hdata; [|done].
    destruct (write_error w _ (top10_ctr data)); [done|].
    destruct (write_error w _ (top10_cpa data)); [done|].
    split_and!; [done| |done..].
    eapply row_of_countable. by apply report_data_Return.
  - intros (Hmk & Hall & Hctr & Hcpa). rewrite Hmk.
    destruct (for_collect_countable _ _ Hget Hall) as [data Hdata].
    rewrite Hrd, Hdata in Hctr, Hcpa |- *. simpl in *.
    rewrite Hctr, Hcpa. by eexists.
  - intros e w'.
    destruct (makedirs_error w output_dir) as [e0|].
    { intros [= <- _]. by left. }
    rewrite Hrd.
    destruct (for_collect _ _ _) as [[data|e0] s1] eqn:Hrun; simpl.
    2:{ intros [= <- _]. right. left. by eapply for_collect_Raise. }
    destruct (write_error w _ (top10_ctr data)) as [e0|] eqn:Hctr.
    { intros [= <- _]. right. right. left. by eapply write_error_open. }
    destruct (write_error w _ (top10_cpa data)) as [e0|] eqn:Hcpa; [|done].
    intros [= <- _]. right. right. right. by eapply write_error_open.
Qed.

(** The effects of [write_reports] outside the engine.  It never touches
    a file other than the two reports.  When it returns, the directory
    has been made and exactly two lines printed, one per report path.
    When it raises, the CPA report has not been written; and either no
    file has been written and nothing printed, or the CTR report has been
    dealt with and its line printed, and it is [open()] on the CPA report
    that raised. *)
Theorem write_reports_effects output_dir w o w' :
  write_reports output_dir w = (o, w') →
  (∀ p, p ≠ path_join output_dir "top10_ctr.csv" →
        p ≠ path_join output_dir "top10_cpa.csv" →
        files w' !! p = files w !! p) ∧
  match o with
  | Return _ =>
      dirs w' = {[output_dir]} ∪ dirs w ∧
      stdout w' = stdout w ++ written_lines output_dir
  | Raise e =>
      files w' !! path_join output_dir "top10_cpa.csv" =
        files w !! path_join output_dir "top10_cpa.csv" ∧
      (files w' = files w ∧ stdout w' = stdout w ∨
       open_error w (path_join output_dir "top10_cpa.csv") = Some e ∧
       files w' =
         csv_written (path_join output_dir "top10_ctr.csv")
           (ctr_report (self w)) (files w) ∧
       stdout w' =
         stdout w ++ ["Written: " +:+ path_join output_dir "top10_ctr.csv"])
  end.
Proof.
  rewrite write_reports_run. cbv zeta. unfold ctr_report.
  destruct (makedirs_error w output_dir) as [e0|].
  { intros [= <- <-]. split_and!; auto. }
  destruct (report_data (prepared (self w))) as [data|e0].
  2:{ intros [= <- <-]. simpl. split_and!; auto. }
  destruct (write_error w _ (top10_ctr data)) as [e0|].
  { intros [= <- <-]. simpl. split_and!; auto. }
  destruct (write_error w _ (top10_cpa data)) as [e0|] eqn:Hcpa;
    intros [= <- <-]; simpl.
  - split_and!.
    + intros p Hctr _. by rewrite csv_written_lookup_ne.
    + apply csv_written_lookup_ne. apply not_eq_sym, report_paths_ne.
    + right. split_and!; [by eapply write_error_open|done..].
  - split_and!; [|done|by rewrite <- app_assoc].
    intros p Hctr Hcpa'. by rewrite !csv_written_lookup_ne.
Qed.

(** Each data row of a report written by [write_reports] stands for a
    campaign of the accumulators: it bears its id, its three counts as
    [int()] gives them, its spend rounded to four places, and its CTR and
    CPA as [compute_metrics] derives them.  No campaign has two rows in a
    report. *)
Theorem write_reports_rows output_dir w w' :
  reachable (self w) →
  write_reports output_dir w = (Return tt, w') →
  ∃ ctr_rows cpa_rows,
    files w' =
      csv_written (path_join output_dir "top10_cpa.csv") cpa_rows
        (csv_written (path_join output_dir "top10_ctr.csv") ctr_rows
           (files w)) ∧
    NoDup (row_campaign_id <$> ctr_rows) ∧
    NoDup (row_campaign_id <$> cpa_rows) ∧
    Forall (λ r, ∃ a,
              dict_get (row_campaign_id r) (_results (self w)) = Some a ∧
              row_of (row_campaign_id r, a) r) (ctr_rows ++ cpa_rows).
Proof.
  intros Hs Hrun.
  destruct (write_reports_Return _ _ _ Hs Hrun) as (data & Hdata & _ & Hfiles).
  apply reachable_consistent in Hs as [Hnd _].
  assert (NoDup (row_campaign_id <$> data)) as Hids
    by by rewrite (row_of_ids _ _ Hdata).
  exists (top10_ctr data), (top10_cpa data). split_and!; [done| | |].
  - by apply ids_NoDup_sorted.
  - by apply ids_NoDup_sorted, ids_NoDup_filter.
  - apply Forall_forall. intros r Hr.
    assert (r ∈ data) as Hin.
    { apply elem_of_app in Hr as [Hr|Hr];
        [by apply top10_ctr_elem|by apply top10_cpa_elem in Hr as [? _]]. }
    destruct (row_of_elem _ _ _ Hdata Hin) as ([k a] & Hitem & Hrow).
    pose proof Hrow as (Hid & _). cbn [fst] in Hid. rewrite Hid.
    exists a. split; [by apply dict_get_elem|done].
Qed.

(** The CTR report holds the 10 campaigns, or all of them when there are
    fewer, and the CPA report the 10 campaigns with conversions above
    zero, or all of those: when at most 10 qualify, each of them has its
    row. *)
Theorem write_reports_row_counts output_dir w w' :
  reachable (self w) →
  write_reports output_dir w = (Return tt, w') →
  ∃ ctr_rows cpa_rows,
    files w' =
      csv_written (path_join output_dir "top10_cpa.csv") cpa_rows
        (csv_written (path_join output_dir "top10_ctr.csv") ctr_rows
           (files w)) ∧
    length ctr_rows = (10 `min` length (_results (self w)))%nat ∧
    length cpa_rows =
      (10 `min` length (converting (_results (self w))))%nat ∧
    ((length (_results (self w)) ≤ 10)%nat →
       row_campaign_id <$> ctr_rows ≡ₚ dict_keys (_results (self w))) ∧
    ((length (converting (_results (self w))) ≤ 10)%nat →
       row_campaign_id <$> cpa_rows ≡ₚ
         dict_keys (converting (_results (self w)))).
Proof.
  intros Hs Hrun.
  destruct (write_reports_Return _ _ _ Hs Hrun) as (data & Hdata & _ & Hfiles).
  pose proof (row_of_converting _ _ Hdata) as Hvalid.
  exists (top10_ctr data), (top10_cpa data).
  unfold top10_ctr, top10_cpa. cbv zeta.
  rewrite !top10_length, <- (Forall2_length _ _ _ Hdata),
    <- (Forall2_length _ _ _ Hvalid).
  split_and!; [done..| |].
  - intros Hlen. rewrite top10_all by by rewrite <- (Forall2_length _ _ _ Hdata).
    by rewrite (row_of_ids _ _ Hdata).
  - intros Hlen.
    rewrite top10_all by by rewrite <- (Forall2_length _ _ _ Hvalid).
    by rewrite (row_of_ids _ _ Hvalid).
Qed.


(** The campaigns left out of a report do not outrank those in it, for
    numbers on which [<] is a strict weak order on the values a CTR
    takes. *)
Lemma write_reports_top_ranked_of_order output_dir w w' :
  reachable (self w) →
  weak_order ctr_value →
  write_reports output_dir w = (Return tt, w') →
  files w' =
    csv_written (path_join output_dir "top10_cpa.csv") (cpa_report (self w))
      (csv_written (path_join output_dir "top10_ctr.csv")
         (ctr_report (self w)) (files w)) ∧
  (∀ r k m, r ∈ ctr_report (self w) →
     dict_get k (_metrics (self w')) = Some m →
     k ∉ row_campaign_id <$> ctr_report (self w) →
     flt (row_ctr r) (ctr m) = false) ∧
  (weak_order_on (cpa_values (_metrics (self w'))) →
   ∀ r k m, r ∈ cpa_report (self w) →
     dict_get k (_metrics (self w')) = Some m →
     is_Some (cpa m) →
     k ∉ row_campaign_id <$> cpa_report (self w) →
     cpa_lt (cpa m) (row_cpa r) = false).
Proof.
  intros Hs Hlaw Hrun.
  destruct (write_reports_Return_reports _ _ _ Hs Hrun)
    as (data & Hdata & -> & -> & Hm & Hfiles).
  apply reachable_consistent in Hs as [Hnd _]. rewrite Hm.
  split; [done|].
  assert (∀ k m, dict_get k (prod_map id derive <$> _results (self w)) = Some m →
            ∃ r', r' ∈ data ∧ row_campaign_id r' = k ∧
                  row_ctr r' = ctr m ∧ row_cpa r' = cpa m) as Hrow.
  { intros k m Hk. rewrite dict_get_derive in Hk.
    destruct (dict_get k (_results (self w))) as [a|] eqn:Ha; [|done].
    injection Hk as <-. apply dict_get_Some_elem in Ha.
    destruct (row_of_elem_l _ _ _ Hdata Ha) as (r' & Hr' & Hrow).
    exists r'. destruct Hrow as (? & ? & ? & _). done. }
  split.
  - intros r k m Hr Hk Hout.
    destruct (Hrow _ _ Hk) as (r' & Hr' & Hid & Hctr & _). rewrite <- Hctr.
    pose proof (ctr_values_ordered _ _ Hlaw Hdata) as Hord'.
    apply sorted_ctr_StronglySorted in Hord'.
    apply (StronglySorted_take_drop _ 10 _ r r' Hord'); [done|].
    rewrite <- (sorted_Permutation row_ctr flt true) in Hr'.
    rewrite <- (take_drop 10 (sorted row_ctr flt true data)) in Hr'.
    apply elem_of_app in Hr' as [Hr'|Hr']; [|done].
    destruct Hout. rewrite <- Hid. by apply list_elem_of_fmap_2.
  - intros Hord r k m Hr Hk [x Hx] Hout.
    destruct (Hrow _ _ Hk) as (r' & Hr' & Hid & _ & Hcpa). rewrite <- Hcpa.
    assert (weak_order_on (omap row_cpa data)) as Hord'.
    { eapply weak_order_on_subseteq; [|done].
      intros y Hy. apply list_elem_of_omap in Hy as (r0 & Hr0 & Hy).
      by apply (proj2 (row_of_metric_values _ _ _ Hdata Hr0)). }
    apply sorted_cpa_StronglySorted in Hord'.
    apply (StronglySorted_take_drop _ 10 _ r r' Hord'); [done|].
    assert (r' ∈ filter (λ r, has_cpa r = true) data) as Hvalid.
    { apply list_elem_of_filter. split; [|done].
      unfold has_cpa. by rewrite Hcpa, Hx. }
    rewrite <- (sorted_Permutation row_cpa cpa_lt false) in Hvalid.
    rewrite <- (take_drop 10 (sorted row_cpa cpa_lt false _)) in Hvalid.
    apply elem_of_app in Hvalid as [Hr'2|Hr'2]; [|done].
    destruct Hout. rewrite <- Hid. by apply list_elem_of_fmap_2.
Qed.

(** Ties keep the order of the accumulators, for numbers on which [<] is
    a strict weak order on the values a CTR takes. *)
Lemma write_reports_ties_of_order output_dir w w' :
  reachable (self w) →
  weak_order ctr_value →
  write_reports output_dir w = (Return tt, w') →
  files w' =
    csv_written (path_join output_dir "top10_cpa.csv") (cpa_report (self w))
      (csv_written (path_join output_dir "top10_ctr.csv")
         (ctr_report (self w)) (files w)) ∧
  (∀ k1 k2 m1 m2,
     [k1; k2] `sublist_of` dict_keys (_results (self w)) →
     dict_get k1 (_metrics (self w')) = Some m1 →
     dict_get k2 (_metrics (self w')) = Some m2 →
     flt (ctr m1) (ctr m2) = false →
     k2 ∈ row_campaign_id <$> ctr_report (self w) →
     [k1; k2] `sublist_of` row_campaign_id <$> ctr_report (self w)) ∧
  (weak_order_on (cpa_values (_metrics (self w'))) →
   ∀ k1 k2 m1 m2,
     [k1; k2] `sublist_of` dict_keys (_results (self w)) →
     dict_get k1 (_metrics (self w')) = Some m1 →
     dict_get k2 (_metrics (self w')) = Some m2 →
     is_Some (cpa m1) →
     cpa_lt (cpa m2) (cpa m1) = false →
     k2 ∈ row_campaign_id <$> cpa_report (self w) →
     [k1; k2] `sublist_of` row_campaign_id <$> cpa_report (self w)).
Proof.
  intros Hs _ Hrun.
  destruct (write_reports_Return_reports _ _ _ Hs Hrun)
    as (data & Hdata & -> & -> & Hm & Hfiles).
  apply reachable_consistent in Hs as [Hnd _]. rewrite Hm.
  split; [done|].
  pose proof (row_of_ids _ _ Hdata) as Hids.
  assert (NoDup (row_campaign_id <$> data)) as Hndi by by rewrite Hids.
  assert (∀ k1 k2 m1 m2,
            [k1; k2] `sublist_of` dict_keys (_results (self w)) →
            dict_get k1 (prod_map id derive <$> _results (self w)) = Some m1 →
            dict_get k2 (prod_map id derive <$> _results (self w)) = Some m2 →
            ∃ r1 r2, [r1; r2] `sublist_of` data ∧ r2 ∈ data ∧
              row_campaign_id r1 = k1 ∧ row_campaign_id r2 = k2 ∧
              row_ctr r1 = ctr m1 ∧ row_cpa r1 = cpa m1 ∧
              row_ctr r2 = ctr m2 ∧ row_cpa r2 = cpa m2) as Hpair.
  { intros k1 k2 m1 m2 Hsub H1 H2. rewrite <- Hids in Hsub.
    apply sublist_pair_fmap_inv in Hsub as (r1 & r2 & -> & -> & Hsub).
    assert (r1 ∈ data ∧ r2 ∈ data) as [Hr1 Hr2].
    { split; (eapply elem_of_sublist; [|done]);
        rewrite !elem_of_cons; auto. }
    destruct (row_of_metrics _ _ _ _ Hnd Hdata Hr1 H1) as [? ?].
    destruct (row_of_metrics _ _ _ _ Hnd Hdata Hr2 H2) as [? ?].
    exists r1, r2. done. }
  split.
  - intros k1 k2 m1 m2 Hsub H1 H2 Hlt Hin.
    destruct (Hpair _ _ _ _ Hsub H1 H2)
      as (r1 & r2 & Hrows & Hr2 & <- & <- & Hc1 & _ & Hc2 & _).
    apply (fmap_sublist row_campaign_id [r1; r2]).
    unfold top10_ctr in *. apply sublist_pair_take.
    + apply (NoDup_fmap_1 row_campaign_id). by rewrite sorted_Permutation.
    + apply sorted_stable; [done|]. by rewrite Hc1, Hc2.
    + apply list_elem_of_fmap in Hin as (r & Hid & Hr).
      assert (r = r2) as ->; [|done].
      apply (row_ids_inj data); [done| |done..].
      apply subseteq_take in Hr. by rewrite sorted_Permutation in Hr.
  - intros _ k1 k2 m1 m2 Hsub H1 H2 [x1 Hx1] Hlt Hin.
    destruct (Hpair _ _ _ _ Hsub H1 H2)
      as (r1 & r2 & Hrows & Hr2 & <- & <- & _ & Hc1 & _ & Hc2).
    apply (fmap_sublist row_campaign_id [r1; r2]).
    unfold top10_cpa in *. cbv zeta in *.
    apply list_elem_of_fmap in Hin as (r & Hid & Hr).
    assert (r ∈ filter (λ r, has_cpa r = true) data) as Hrv.
    { apply subseteq_take in Hr. by rewrite sorted_Permutation in Hr. }
    apply list_elem_of_filter in Hrv as [Hhas Hrd].
    assert (r = r2) as -> by by apply (row_ids_inj data).
    apply sublist_pair_take; [|apply sorted_stable|done].
    + rewrite sorted_Permutation.
      apply NoDup_filter. by apply (NoDup_fmap_1 row_campaign_id).
    + apply (sublist_filter_mono (λ r, has_cpa r = true)) in Hrows.
      rewrite filter_cons_True in Hrows
        by (unfold has_cpa; by rewrite Hc1, Hx1).
      by rewrite filter_cons_True in Hrows.
    + by rewrite Hc1, Hc2.
Qed.

Lemma makedirs_error_frame w w' path :
  files w' = files w → refused w' = refused w →
  makedirs_error w' path = makedirs_error w path.
Proof. intros Hf Hr. unfold makedirs_error. by rewrite Hf, Hr. Qed.

(** In a reachable state, calling [compute_metrics] before
    [write_reports] changes neither the outcome nor the files, the
    directories and the output; and when the directory can be made it
    changes nothing at all, the engine being left the same.  (When
    [os.makedirs] raises, [write_reports] alone leaves the metrics as they
    were.) *)
Theorem compute_metrics_then_write_reports output_dir w :
  reachable (self w) →
  ((call compute_metrics;; write_reports output_dir) w).1 =
    (write_reports output_dir w).1 ∧
  files ((call compute_metrics;; write_reports output_dir) w).2 =
    files (write_reports output_dir w).2 ∧
  dirs ((call compute_metrics;; write_reports output_dir) w).2 =
    dirs (write_reports output_dir w).2 ∧
  stdout ((call compute_metrics;; write_reports output_dir) w).2 =
    stdout (write_reports output_dir w).2 ∧
  (makedirs_error w output_dir = None →
     (call compute_metrics;; write_reports output_dir) w =
       write_reports output_dir w).
Proof.
  intros Hs%reachable_consistent.
  set (wc := {| self := (compute_metrics (self w)).2; files := files w;
                dirs := dirs w; stdout := stdout w; refused := refused w |}).
  assert ((call compute_metrics;; write_reports output_dir) w =
            match makedirs_error w output_dir with
            | Some e => (Raise e, wc)
            | None => write_reports output_dir w
            end) as ->.
  { unfold bind at 1, call. subst wc. rewrite compute_metrics_run. simpl.
    set (wc := {| self := _; files := files w; dirs := dirs w;
                  stdout := stdout w; refused := refused w |}).
    rewrite !write_reports_run. cbv zeta.
    rewrite (makedirs_error_frame w wc) by done.
    destruct (makedirs_error w output_dir); [done|].
    assert (prepared (self wc) = prepared (self w)) as Hp.
    { subst wc. simpl. pose proof (prepared_prepared _ Hs) as Hpp.
      rewrite (prepared_eq _ Hs) in Hpp |- *.
      destruct Hs as [Hnd _]. by rewrite (derive_all_NoDup _ Hnd). }
    unfold prepared_world. rewrite Hp.
    destruct (report_data (prepared (self w))) as [data|e]; [|done].
    by rewrite !(write_error_frame w wc) by done. }
  rewrite (write_reports_run output_dir w). cbv zeta.
  destruct (makedirs_error w output_dir); [|done].
  by split_and!.
Qed.


(** The three calls of the CLI, [aggregate], [compute_metrics] and
    [write_reports], on an input with a row that is not readable: the
    exception of [aggregate] ends the run before [write_reports] is
    reached, so no directory is created, no report written and nothing
    printed, and the metrics are left empty. *)
Theorem cli_calls_abort_on_unreadable_row t output_dir w :
  ¬ Forall readable (DictReader t) →
  ∃ e s',
    aggregate t (self w) = (Raise e, s') ∧
    (call (aggregate t);; call compute_metrics;; write_reports output_dir) w =
      (Raise e,
       {| self := s'; files := files w; dirs := dirs w; stdout := stdout w;
          refused := refused w |}) ∧
    _metrics s' = [].
Proof.
  intros Hbad.
  destruct (aggregate_Raise_unless_readable t (self w) Hbad) as (e & s' & Hrun).
  exists e, s'. split; [done|]. split.
  - unfold bind at 1, call. by rewrite Hrun.
  - pose proof (aggregate_clears_metrics t (self w)) as Hm.
    by rewrite Hrun in Hm.
Qed.

End Behaviour.

(** ** Facts about binary64 *)
Module Binary64Facts.
Import Floats.
Local Open Scope Z_scope.

(** *** Rounding never makes a NaN *)

Lemma shr_1_nonneg mrs : 0 ≤ shr_m mrs → 0 ≤ shr_m (shr_1 mrs).
Proof. destruct mrs as [[|[p|p|]|p] r s]; simpl; lia. Qed.

Lemma iter_shr_1_nonneg p mrs :
  0 ≤ shr_m mrs → 0 ≤ shr_m (iter_pos shr_1 p mrs).
Proof.
  revert mrs. induction p as [p IH|p IH|]; intros mrs Hm; simpl.
  - apply IH, IH. by apply shr_1_nonneg.
  - by apply IH, IH.
  - by apply shr_1_nonneg.
Qed.

Lemma shr_fexp_nonneg m e l :
  0 ≤ m → 0 ≤ shr_m (shr_fexp prec emax m e l).1.
Proof.
  intros Hm. unfold shr_fexp, shr.
  assert (shr_m (shr_record_of_loc m l) = m) as Hrec
    by by destruct l as [|[]].
  destruct (fexp prec emax (Zdigits2 m + e) - e) as [|p|p]; simpl;
    rewrite ?Hrec; try done.
  apply iter_shr_1_nonneg. by rewrite Hrec.
Qed.

Lemma round_nearest_even_nonneg m l : 0 ≤ m → 0 ≤ round_nearest_even m l.
Proof.
  intros Hm. destruct l as [|[]]; simpl; try lia. destruct (Z.even m); lia.
Qed.

Lemma binary_round_aux_not_nan s m e l :
  0 ≤ m → binary_round_aux prec emax s m e l ≠ S754_nan.
Proof.
  intros Hm. unfold binary_round_aux.
  pose proof (shr_fexp_nonneg m e l Hm) as H1.
  destruct (shr_fexp prec emax m e l) as [mrs' e']. simpl in H1.
  pose proof (shr_fexp_nonneg _ e' loc_Exact
                (round_nearest_even_nonneg _ (loc_of_shr_record mrs') H1)) as H2.
  destruct (shr_fexp prec emax _ e' loc_Exact) as [mrs'' e'']. simpl in H2.
  destruct (shr_m mrs'') as [|p|p]; [done| |lia].
  by destruct (e'' <=? emax - prec).
Qed.

Lemma binary_round_not_nan s m e : binary_round prec emax s m e ≠ S754_nan.
Proof.
  unfold binary_round. destruct (shl_align _ _ _) as [mz ez].
  by apply binary_round_aux_not_nan.
Qed.

Lemma binary_normalize_not_nan z e b :
  binary_normalize prec emax z e b ≠ S754_nan.
Proof. destruct z; simpl; [done|apply binary_round_not_nan..]. Qed.

Lemma SFldexp_not_nan f e : f ≠ S754_nan → SFldexp prec emax f e ≠ S754_nan.
Proof. destruct f; simpl; try done. intros _. apply binary_round_not_nan. Qed.

Lemma SFopp_not_nan f : f ≠ S754_nan → SFopp f ≠ S754_nan.
Proof. by destruct f. Qed.

Lemma SF2Prim_not_nan x : x ≠ S754_nan → Prim2SF (SF2Prim x) ≠ S754_nan.
Proof.
  destruct x as [[]|[]| |s m e]; try done; intros _.
  assert (Prim2SF (Z.ldexp (of_uint63 (Uint63.of_Z (Z.pos m))) e) ≠ S754_nan)
    as Hld.
  { unfold Z.ldexp. rewrite ldshiftexp_spec. apply SFldexp_not_nan.
    rewrite of_uint63_spec. apply binary_normalize_not_nan. }
  simpl. destruct s; [|done]. rewrite opp_spec. by apply SFopp_not_nan.
Qed.

Lemma SFdiv_not_nan x s m e :
  x ≠ S754_nan → SFdiv prec emax x (S754_finite s m e) ≠ S754_nan.
Proof.
  destruct x as [sx|sx| |sx mx ex]; simpl; try done. intros _.
  destruct (SFdiv_core_binary _ _ _ _ _ _) as [[mz ez] lz] eqn:Hcore.
  apply binary_round_aux_not_nan.
  unfold SFdiv_core_binary in Hcore.
  destruct (Z.div_eucl _ (Z.pos m)) as [q r] eqn:Hdiv.
  injection Hcore as <- _ _.
  match type of Hdiv with Z.div_eucl ?a _ = _ =>
    assert (0 ≤ a) as Ha; [|pose proof (Z.div_pos a (Z.pos m) Ha) as Hq] end.
  { destruct (_ - _ - _) as [|p|p]; [lia| |lia]. apply Z.shiftl_nonneg. lia. }
  unfold Z.div in Hq. rewrite Hdiv in Hq. simpl in Hq. lia.
Qed.


(** *** The order of the floats that are no NaN *)

Lemma SFcompare_key x y :
  x ≠ S754_nan → y ≠ S754_nan →
  SFcompare x y = Some (Binary64.lex_compare (Binary64.key x) (Binary64.key y)).
Proof.
  destruct x as [[]|[]| |[] mx ex], y as [[]|[]| |[] my ey]; try done;
    intros _ _; unfold Binary64.lex_compare; simpl.
  - rewrite Z.compare_opp, (Z.compare_antisym ex ey).
    by destruct (ex ?= ey).
Qed.

Lemma lex_compare_Lt a b : Binary64.lex_compare a b = Lt ↔ Binary64.lex_lt a b.
Proof.
  unfold Binary64.lex_compare, Binary64.lex_lt.
  destruct (Z.compare_spec a.1.1 b.1.1), (Z.compare_spec a.1.2 b.1.2),
    (Z.compare_spec a.2 b.2); split; (done || lia).
Qed.

Lemma SFltb_lex_lt x y :
  x ≠ S754_nan → y ≠ S754_nan →
  SFltb x y = true ↔ Binary64.lex_lt (Binary64.key x) (Binary64.key y).
Proof.
  intros Hx Hy. unfold SFltb. rewrite (SFcompare_key x y Hx Hy).
  rewrite <- lex_compare_Lt. by destruct (Binary64.lex_compare _ _).
Qed.

Lemma ltb_weak_order x y z :
  Prim2SF x ≠ S754_nan → Prim2SF y ≠ S754_nan → Prim2SF z ≠ S754_nan →
  (PrimFloat.ltb x y = true → PrimFloat.ltb y x = false) ∧
  (PrimFloat.ltb x y = false → PrimFloat.ltb y z = false →
   PrimFloat.ltb x z = false).
Proof.
  intros Hx Hy Hz. rewrite !ltb_spec, <- !not_true_iff_false.
  rewrite !SFltb_lex_lt by done. unfold Binary64.lex_lt. lia.
Qed.

(** *** The values of a CTR *)

Lemma int_of_float_Return x z :
  Binary64.int_of_float x = Return z →
  (∃ s, Prim2SF x = S754_zero s) ∨ ∃ s m e, Prim2SF x = S754_finite s m e.
Proof.
  unfold Binary64.int_of_float. destruct (Prim2SF x); try done; eauto.
Qed.

Lemma of_Z_not_nan z : Prim2SF (Binary64.of_Z z) ≠ S754_nan.
Proof. apply SF2Prim_not_nan, binary_normalize_not_nan. Qed.

Lemma round4_not_nan x :
  Prim2SF x ≠ S754_nan → Prim2SF (Binary64.round4 x) ≠ S754_nan.
Proof.
  intros Hx. unfold Binary64.round4.
  destruct (Prim2SF x) as [| | |s m e] eqn:Hsf; try by rewrite Hsf.
  destruct (_ || _); [by rewrite Hsf|].
  match goal with |- context [PrimFloat.div ?a ?b] =>
    assert (Prim2SF (PrimFloat.div a b) ≠ S754_nan) as Hr end.
  { rewrite div_spec.
    assert (∃ s' m' e', Prim2SF (Binary64.of_Z 10000) = S754_finite s' m' e')
      as (s' & m' & e' & ->) by (vm_compute; eauto).
    apply SFdiv_not_nan, of_Z_not_nan. }
  destruct s; [|done]. rewrite opp_spec. by apply SFopp_not_nan.
Qed.

Section CtrOrder.
Local Existing Instance binary64.

Lemma ctr_value_not_nan (x : float) : ctr_value x → Prim2SF x ≠ S754_nan.
Proof.
  intros [->|(c & i & [zc Hc] & [zi Hi] & Hlt & ->)].
  - by vm_compute.
  - apply round4_not_nan. simpl. rewrite div_spec.
    simpl in Hlt. rewrite ltb_spec in Hlt.
    apply int_of_float_Return in Hc, Hi.
    destruct Hi as [[s Hi]|(s & m & e & Hi)]; rewrite Hi in *.
    { by destruct s. }
    apply SFdiv_not_nan.
    by destruct Hc as [[? ->]|(? & ? & ? & ->)].
Qed.

(** On binary64, [<] is a strict weak order on floats none of which is
    NaN. *)
Lemma weak_order_on_not_nan (l : list float) :
  Forall (λ x, Prim2SF x ≠ S754_nan) l → weak_order_on l.
Proof.
  intros Hall x y z Hx Hy Hz. rewrite Forall_forall in Hall.
  apply ltb_weak_order; by apply Hall.
Qed.

(** On binary64, [<] is a strict weak order on the values of a CTR. *)
Lemma ctr_order : weak_order ctr_value.
Proof.
  intros x y z Hx%ctr_value_not_nan Hy%ctr_value_not_nan Hz%ctr_value_not_nan.
  by apply ltb_weak_order.
Qed.

End CtrOrder.

End Binary64Facts.

(** ** The reports on binary64 floats

    On the floats of Python [0.0 < 0.0] is false and [<] is a strict weak
    order on the values a CTR takes, so what the order of the reports owes
    to these two laws holds of every call. *)
Section Reports.
Local Existing Instance binary64.




End Reports.

(** ** The engine on the data of its tests *)
Section RunFacts.
Local Existing Instance binary64.

(** [TestDataAccuracy] and [TestLogicCheck] of [test_aggregator.py]. *)
Example test_sample_totals :
  (impressions <$> dict_get (Some "CMP025") sample_results) =
    Some (fl "3653") ∧
  (clicks <$> dict_get (Some "CMP025") sample_results) = Some (fl "60") ∧
  (spend <$> dict_get (Some "CMP020") sample_results) = Some (fl "1394.62") ∧
  (conversions <$> dict_get (Some "CMP019") sample_results) = Some (fl "21").
Proof. vm_compute. done. Qed.

Example test_sample_metrics :
  (compute_metrics sample_state).1 =
    Return
      [(Some "CMP025", {| ctr := fl "0.0164"; cpa := Some (fl "32.145") |});
       (Some "CMP020", {| ctr := fl "0.0312"; cpa := Some (fl "33.2052") |});
       (Some "CMP019", {| ctr := fl "0.0327"; cpa := Some (fl "6.4729") |})].
Proof. vm_compute. done. Qed.

(** [TestEdgeCases]: no conversions, no CPA; no impressions, CTR 0.0. *)
Example test_zero_conversions_cpa_is_none :
  ((call (aggregate ZERO_CONV_DATA);; call compute_metrics) initial_world).1 =
    Return [(Some "CMP_ZERO", {| ctr := fl "0.05"; cpa := None |})].
Proof. vm_compute. done. Qed.

Example test_zero_impressions_ctr_is_zero :
  ((call (aggregate
            [HEADER; ["CMP_ZERO"; "2025-01-01"; "0"; "0"; "100.00"; "5"]]);;
    call compute_metrics) initial_world).1 =
    Return [(Some "CMP_ZERO", {| ctr := fl "0.0"; cpa := Some (fl "20.0") |})].
Proof. vm_compute. done. Qed.

(** [test_write_reports_creates_files], with the rows in rank order. *)
Example test_write_reports_creates_files :
  (run SAMPLE_DATA "out").1 = Return tt ∧
  (row_campaign <$> files (run SAMPLE_DATA "out").2 !! "out/top10_ctr.csv") =
    Some [VStr "campaign_id"; VStr "CMP019"; VStr "CMP020"; VStr "CMP025"] ∧
  (row_campaign <$> files (run SAMPLE_DATA "out").2 !! "out/top10_cpa.csv") =
    Some [VStr "campaign_id"; VStr "CMP019"; VStr "CMP025"; VStr "CMP020"].
Proof. vm_compute. done. Qed.

(** Twelve campaigns: each report keeps ten of them, and K01 stands
    before K02, with which it ties, as in the input. *)
Example ranked_reports :
  (run RANKED_DATA "out").1 = Return tt ∧
  (row_campaign <$> files (run RANKED_DATA "out").2 !! "out/top10_ctr.csv") =
    Some [VStr "campaign_id"; VStr "K10"; VStr "K09"; VStr "K08"; VStr "K07";
          VStr "K06"; VStr "K05"; VStr "K01"; VStr "K02"; VStr "K04";
          VStr "K03"] ∧
  (row_campaign <$> files (run RANKED_DATA "out").2 !! "out/top10_cpa.csv") =
    Some [VStr "campaign_id"; VStr "K10"; VStr "K09"; VStr "K12"; VStr "K08";
          VStr "K07"; VStr "K06"; VStr "K11"; VStr "K05"; VStr "K01";
          VStr "K02"].
Proof. vm_compute. done. Qed.

(** With the empty path for a directory, [os.makedirs] raises and nothing
    is written or printed. *)
Example write_reports_empty_path :
  (run SAMPLE_DATA "").1 = Raise FileNotFoundError ∧
  files (run SAMPLE_DATA "").2 = ∅ ∧
  stdout (run SAMPLE_DATA "").2 = [].
Proof. vm_compute. done. Qed.

End RunFacts.

(** ** The contract on concrete runs *)
Section Witnesses.
Local Existing Instance binary64.

Lemma sample_run :
  aggregate SAMPLE_DATA __init__ = (Return sample_results, sample_state).
Proof. vm_compute. reflexivity. Qed.

Lemma sample_reachable : reachable sample_state.
Proof. exact (reachable_aggregate __init__ SAMPLE_DATA reachable_init). Qed.

(** C10 on the sample: CMP025 occurred and has its accumulator. *)
Lemma get_campaign_total_witness :
  aggregate SAMPLE_DATA __init__ = (Return sample_results, sample_state) ∧
  ((rows_of (Some "CMP025") (DictReader SAMPLE_DATA) ≠ [] →
      ∃ a, get_campaign_total (Some "CMP025") sample_state =
             (Return (Some a), sample_state) ∧
           dict_get (Some "CMP025") sample_results = Some a) ∧
   (rows_of (Some "CMP025") (DictReader SAMPLE_DATA) = [] →
      get_campaign_total (Some "CMP025") sample_state =
        (Return None, sample_state))).
Proof.
  split; [exact sample_run|].
  exact (get_campaign_total_after_aggregate
           SAMPLE_DATA __init__ sample_results sample_state (Some "CMP025")
           sample_run).
Defined.

(** One entry per campaign, on the sample. *)
Lemma aggregate_one_entry_per_campaign_witness :
  aggregate SAMPLE_DATA __init__ = (Return sample_results, sample_state) ∧
  NoDup (dict_keys sample_results) ∧
  ∀ k, k ∈ dict_keys sample_results ↔ rows_of k (DictReader SAMPLE_DATA) ≠ [].
Proof.
  split; [exact sample_run|].
  exact (aggregate_one_entry_per_campaign
           SAMPLE_DATA __init__ sample_results sample_state sample_run).
Defined.

Lemma sample_rows_of_cmp020 :
  rows_of (Some "CMP020") (DictReader SAMPLE_DATA) ≠ [].
Proof.
  intros Hnil. apply (f_equal length) in Hnil. vm_compute in Hnil. discriminate.
Qed.

(** C4 (amended) on the sample: the totals of CMP020. *)
Lemma aggregate_totals_witness :
  aggregate SAMPLE_DATA __init__ = (Return sample_results, sample_state) ∧
  rows_of (Some "CMP020") (DictReader SAMPLE_DATA) ≠ [] ∧
  ∃ a, dict_get (Some "CMP020") sample_results = Some a ∧
    ∀ f, ∃ xs,
      mapM (operand f) (rows_of (Some "CMP020") (DictReader SAMPLE_DATA)) =
        Some xs ∧
      get_field f a = fsum fzero xs.
Proof.
  split; [exact sample_run|]. split; [exact sample_rows_of_cmp020|].
  exact (aggregate_totals
           SAMPLE_DATA __init__ sample_results sample_state (Some "CMP020")
           sample_run sample_rows_of_cmp020).
Defined.

(** C4 as stated fails: three rows with impressions [2^53], [1] and [1]
    add up to [2^53 + 2] exactly, and the engine's total is [2^53]. *)
Lemma large_counts_not_exact :
  aggregate LARGE_DATA __init__ = (Return (_results large_state), large_state) ∧
  exact_sum Impressions (rows_of (Some "A") (DictReader LARGE_DATA)) =
    9007199254740994 ∧
  (impressions <$> dict_get (Some "A") (_results large_state)) =
    Some (fl "9007199254740992") ∧
  (int_of_float ∘ impressions <$> dict_get (Some "A") (_results large_state)) =
    Some (Return 9007199254740992) ∧
  (int_of_float ∘ impressions <$> dict_get (Some "A") (_results large_state)) ≠
    Some (Return
            (exact_sum Impressions (rows_of (Some "A") (DictReader LARGE_DATA)))).
Proof.
  split_and!; [vm_compute; reflexivity..|]. vm_compute. discriminate.
Qed.

Lemma malformed_unparsable : Exists unparsable (DictReader MALFORMED_DATA).
Proof.
  assert (DictReader MALFORMED_DATA =
            make_row HEADER <$>
              [["A"; "2025-01-01"; "100"; "5"; "2.5"; "1"];
               ["B"; "2025-01-02"; "7"; "abc"; "1.0"; "0"];
               ["A"; "2025-01-03"; "1"; "1"; "1.0"; "1"]]) as -> by done.
  rewrite !fmap_cons. apply Exists_cons_tl, Exists_cons_hd.
  exists Clicks, "abc". split; vm_compute; reflexivity.
Qed.

(** C2 (amended) on a file whose second row has [clicks] = ["abc"]. *)
Lemma aggregate_parse_failure_witness :
  Exists unparsable (DictReader MALFORMED_DATA) ∧
  ∃ e s' pre bad post s1,
    aggregate MALFORMED_DATA __init__ = (Raise e, s') ∧
    _metrics s' = [] ∧
    get_results s' = (Return (_results s'), s') ∧
    DictReader MALFORMED_DATA = pre ++ bad :: post ∧
    for_each aggregate_row pre __init__ = (Return tt, s1) ∧
    aggregate_row bad s1 = (Raise e, s') ∧
    (∀ k, k ∈ dict_keys (_results s1) → k ∈ dict_keys (_results s')) ∧
    (∀ k, bad !! "campaign_id" ≠ Some k →
       dict_get k (_results s') = dict_get k (_results s1)).
Proof.
  split; [exact malformed_unparsable|].
  exact (aggregate_parse_failure MALFORMED_DATA __init__ malformed_unparsable).
Defined.

(** C2 as stated fails: after the failure on the second row, the engine
    still holds, and [get_results] and [get_campaign_total] return, the
    totals of the first row, and the impressions of the second row, which
    were added before its [clicks] failed. *)
Lemma parse_failure_keeps_partial_totals :
  aggregate MALFORMED_DATA __init__ = (Raise ValueError, malformed_state) ∧
  get_results malformed_state =
    (Return
       [(Some "A",
         {| impressions := fl "100"; clicks := fl "5"; spend := fl "2.5";
            conversions := fl "1" |});
        (Some "B",
         {| impressions := fl "7"; clicks := fl "0"; spend := fl "0";
            conversions := fl "0" |})],
     malformed_state) ∧
  get_campaign_total (Some "A") malformed_state =
    (Return
       (Some {| impressions := fl "100"; clicks := fl "5"; spend := fl "2.5";
                conversions := fl "1" |}),
     malformed_state).
Proof. split_and!; vm_compute; reflexivity. Qed.

(** C3 on the sample: CMP020 has 42 conversions. *)
Lemma compute_metrics_cpa_witness :
  reachable sample_state ∧
  flt fzero fzero = false ∧
  dict_get (Some "CMP020") (_results sample_state) = Some cmp020 ∧
  ∃ m s' mt,
    compute_metrics sample_state = (Return m, s') ∧
    dict_get (Some "CMP020") m = Some mt ∧
    (flt fzero (conversions cmp020) = true →
       cpa mt = Some (round4 (truediv (spend cmp020) (conversions cmp020)))) ∧
    (conversions cmp020 = fzero → cpa mt = None).
Proof.
  assert (flt fzero fzero = false) as Hzero by (vm_compute; reflexivity).
  assert (dict_get (Some "CMP020") (_results sample_state) = Some cmp020)
    as Hk by (vm_compute; reflexivity).
  split_and!; [exact sample_reachable|exact Hzero|exact Hk|].
  exact (compute_metrics_cpa sample_state (Some "CMP020") cmp020
           sample_reachable Hzero Hk).
Defined.

(** C5 on the sample: CMP025 has 3653 impressions. *)
Lemma compute_metrics_ctr_witness :
  reachable sample_state ∧
  flt fzero fzero = false ∧
  round4 fzero = fzero ∧
  dict_get (Some "CMP025") (_results sample_state) = Some cmp025 ∧
  ∃ m s' mt,
    compute_metrics sample_state = (Return m, s') ∧
    dict_get (Some "CMP025") m = Some mt ∧
    (flt fzero (impressions cmp025) = true →
       ctr mt = round4 (truediv (clicks cmp025) (impressions cmp025))) ∧
    (impressions cmp025 = fzero → ctr mt = fzero).
Proof.
  assert (flt fzero fzero = false) as Hzero by (vm_compute; reflexivity).
  assert (round4 fzero = fzero) as Hround by (vm_compute; reflexivity).
  assert (dict_get (Some "CMP025") (_results sample_state) = Some cmp025)
    as Hk by (vm_compute; reflexivity).
  split_and!; [exact sample_reachable|exact Hzero|exact Hround|exact Hk|].
  exact (compute_metrics_ctr sample_state (Some "CMP025") cmp025
           sample_reachable Hzero Hround Hk).
Defined.

Lemma sample_write_reports :
  write_reports "out" sample_world = (Return tt, sample_reported).
Proof. vm_compute. reflexivity. Qed.

Lemma sample_weak_order :
  weak_order_on (ctr_values (_metrics (self sample_reported))) ∧
  weak_order_on (cpa_values (_metrics (self sample_reported))).
Proof. split; apply weak_order_on_check; vm_compute; reflexivity. Qed.



(** C1 fails in the code: on a file with a header and no data rows the
    three calls return and print both [Written:] lines, and neither report
    exists afterwards, not even with a header; on a file whose only
    campaign has no conversions the CTR report is written and the CPA
    report is not. *)
Lemma empty_input_writes_no_report :
  (run [HEADER] "out").1 = Return tt ∧
  files (run [HEADER] "out").2 !! "out/top10_ctr.csv" = None ∧
  files (run [HEADER] "out").2 !! "out/top10_cpa.csv" = None ∧
  stdout (run [HEADER] "out").2 =
    ["Written: out/top10_ctr.csv"; "Written: out/top10_cpa.csv"] ∧
  (run ZERO_CONV_DATA "out").1 = Return tt ∧
  (row_campaign <$> files (run ZERO_CONV_DATA "out").2 !! "out/top10_ctr.csv") =
    Some [VStr "campaign_id"; VStr "CMP_ZERO"] ∧
  files (run ZERO_CONV_DATA "out").2 !! "out/top10_cpa.csv" = None.
Proof. split_and!; vm_compute; reflexivity. Qed.

End Witnesses.

(** ** The further behaviour on concrete runs *)
Section BehaviourWitnesses.
Local Existing Instance binary64.

Lemma interleaved_run :
  aggregate INTERLEAVED_DATA __init__ =
    (Return (_results interleaved_state), interleaved_state).
Proof. vm_compute. reflexivity. Qed.

(** The keys of rows B, A, B, C, A are B, A, C. *)
Lemma aggregate_first_seen_order_witness :
  aggregate INTERLEAVED_DATA __init__ =
    (Return (_results interleaved_state), interleaved_state) ∧
  dict_keys (_results interleaved_state) =
    first_seen (campaign_ids (DictReader INTERLEAVED_DATA)).
Proof.
  split; [exact interleaved_run|].
  exact (aggregate_first_seen_order
           INTERLEAVED_DATA __init__ (_results interleaved_state)
           interleaved_state interleaved_run).
Defined.

Lemma header_without_id : "campaign_id" ∉ HEADER_WITHOUT_ID.
Proof.
  unfold HEADER_WITHOUT_ID. rewrite !not_elem_of_cons.
  split_and!; [done..|]. apply not_elem_of_nil.
Qed.

(** A file whose header names no [campaign_id]. *)
Lemma aggregate_missing_column_witness :
  ("campaign_id" = "campaign_id" ∨ ∃ f, "campaign_id" = field_name f) ∧
  ("campaign_id" ∉ HEADER_WITHOUT_ID) ∧
  (Exists (λ record, record ≠ [])
     [["A"; "2025-01-01"; "10"; "1"; "2"; "1"]]) ∧
  ∃ e s',
    aggregate [HEADER_WITHOUT_ID; ["A"; "2025-01-01"; "10"; "1"; "2"; "1"]]
      __init__ = (Raise e, s') ∧
    ("campaign_id" = "campaign_id" → e = KeyError ∧ s' = __init__).
Proof.
  assert ("campaign_id" = "campaign_id" ∨ ∃ f, "campaign_id" = field_name f)
    as Hname by by left.
  assert (Exists (λ record : list string, record ≠ [])
            [["A"; "2025-01-01"; "10"; "1"; "2"; "1"]]) as Hrec
    by by apply Exists_cons_hd.
  split_and!; [exact Hname|exact header_without_id|exact Hrec|].
  exact (aggregate_missing_column
           HEADER_WITHOUT_ID [["A"; "2025-01-01"; "10"; "1"; "2"; "1"]]
           "campaign_id" __init__ Hname header_without_id Hrec).
Defined.

Lemma header_NoDup : NoDup HEADER.
Proof. apply (bool_decide_unpack _). vm_compute. exact I. Qed.

(** A record that stops before the [clicks] column, the fourth. *)
Lemma aggregate_short_record_witness :
  NoDup HEADER ∧
  HEADER !! 3%nat = Some (field_name Clicks) ∧
  SHORT_RECORD ∈ [SHORT_RECORD] ∧
  SHORT_RECORD ≠ [] ∧
  (length SHORT_RECORD ≤ 3)%nat ∧
  ∃ e s', aggregate [HEADER; SHORT_RECORD] __init__ = (Raise e, s').
Proof.
  assert (HEADER !! 3%nat = Some (field_name Clicks)) as Hi by reflexivity.
  assert (SHORT_RECORD ∈ [SHORT_RECORD]) as Hin
    by (apply elem_of_cons; by left).
  assert (SHORT_RECORD ≠ []) as Hne by done.
  assert ((length SHORT_RECORD ≤ 3)%nat) as Hlen by (simpl; lia).
  split_and!; [exact header_NoDup|exact Hi|exact Hin|exact Hne|exact Hlen|].
  exact (aggregate_short_record HEADER [SHORT_RECORD] SHORT_RECORD Clicks 3
           __init__ header_NoDup Hi Hin Hne Hlen).
Defined.

Lemma sample_same_fields :
  Forall2 same_fields (DictReader SAMPLE_DATA) (DictReader SAMPLE_WITHOUT_DATE).
Proof.
  assert (DictReader SAMPLE_DATA =
            make_row HEADER <$>
              [["CMP025"; "2025-04-18"; "3653"; "60"; "64.29"; "2"];
               ["CMP020"; "2025-05-03"; "24465"; "764"; "1394.62"; "42"];
               ["CMP019"; "2025-02-05"; "7214"; "236"; "135.93"; "21"]])
    as -> by done.
  assert (DictReader SAMPLE_WITHOUT_DATE =
            make_row ["spend"; "campaign_id"; "conversions"; "impressions";
                      "clicks"] <$>
              [["64.29"; "CMP025"; "2"; "3653"; "60"];
               ["1394.62"; "CMP020"; "42"; "24465"; "764"];
               ["135.93"; "CMP019"; "21"; "7214"; "236"]])
    as -> by done.
  rewrite !fmap_cons.
  repeat constructor; try (vm_compute; reflexivity);
    intros []; vm_compute; reflexivity.
Qed.

(** The sample, with and without its [date] column. *)
Lemma aggregate_ignores_other_columns_witness :
  Forall2 same_fields (DictReader SAMPLE_DATA)
    (DictReader SAMPLE_WITHOUT_DATE) ∧
  aggregate SAMPLE_DATA __init__ = aggregate SAMPLE_WITHOUT_DATE __init__.
Proof.
  split; [exact sample_same_fields|].
  exact (aggregate_ignores_other_columns
           SAMPLE_DATA SAMPLE_WITHOUT_DATE __init__ sample_same_fields).
Defined.

Lemma grouped_run :
  aggregate GROUPED_DATA __init__ =
    (Return (_results grouped_state), grouped_state).
Proof. vm_compute. reflexivity. Qed.

Lemma interleaved_rows_of_A :
  rows_of (Some "A") (DictReader INTERLEAVED_DATA) =
    rows_of (Some "A") (DictReader GROUPED_DATA).
Proof.
  assert (DictReader INTERLEAVED_DATA =
            make_row HEADER <$>
              [["B"; "2025-01-01"; "10"; "1"; "1.5"; "0"];
               ["A"; "2025-01-01"; "20"; "2"; "2.5"; "1"];
               ["B"; "2025-01-02"; "30"; "3"; "3.5"; "1"];
               ["C"; "2025-01-02"; "40"; "4"; "4.5"; "2"];
               ["A"; "2025-01-03"; "50"; "5"; "5.5"; "0"]]) as -> by done.
  assert (DictReader GROUPED_DATA =
            make_row HEADER <$>
              [["A"; "2025-01-01"; "20"; "2"; "2.5"; "1"];
               ["A"; "2025-01-03"; "50"; "5"; "5.5"; "0"];
               ["C"; "2025-01-02"; "40"; "4"; "4.5"; "2"];
               ["B"; "2025-01-01"; "10"; "1"; "1.5"; "0"];
               ["B"; "2025-01-02"; "30"; "3"; "3.5"; "1"]]) as -> by done.
  rewrite !fmap_cons, !rows_of_cons.
  repeat match goal with
  | |- context [decide ?P] =>
      first [ rewrite (decide_True (P := P)) by (vm_compute; reflexivity)
            | rewrite (decide_False (P := P))
                by (let H := fresh in intros H; vm_compute in H; discriminate) ]
  end.
  reflexivity.
Qed.

(** Campaign A, its rows interleaved with those of B and C or not. *)
Lemma aggregate_interleaving_witness :
  aggregate INTERLEAVED_DATA __init__ =
    (Return (_results interleaved_state), interleaved_state) ∧
  aggregate GROUPED_DATA __init__ =
    (Return (_results grouped_state), grouped_state) ∧
  rows_of (Some "A") (DictReader INTERLEAVED_DATA) =
    rows_of (Some "A") (DictReader GROUPED_DATA) ∧
  dict_get (Some "A") (_results interleaved_state) =
    dict_get (Some "A") (_results grouped_state).
Proof.
  split_and!; [exact interleaved_run|exact grouped_run
              |exact interleaved_rows_of_A|].
  exact (aggregate_interleaving
           INTERLEAVED_DATA GROUPED_DATA __init__ __init__
           (_results interleaved_state) (_results grouped_state)
           interleaved_state grouped_state (Some "A")
           interleaved_run grouped_run interleaved_rows_of_A).
Defined.

(** The metrics of the sample: three campaigns, three entries. *)
Lemma compute_metrics_one_entry_per_campaign_witness :
  reachable sample_state ∧
  ∃ m s',
    compute_metrics sample_state = (Return m, s') ∧
    dict_keys m = dict_keys (_results sample_state) ∧
    _results s' = _results sample_state ∧
    get_metrics s' = (Return m, s').
Proof.
  split; [exact sample_reachable|].
  exact (compute_metrics_one_entry_per_campaign sample_state sample_reachable).
Defined.

Lemma sample_makedirs : makedirs_error sample_world "out" = None.
Proof. vm_compute. reflexivity. Qed.

Lemma sample_no_directory :
  makedirs_error sample_world "" = Some FileNotFoundError.
Proof. reflexivity. Qed.

(** [write_reports] on the sample, right after [aggregate]: into [out],
    and with the empty path, at which [os.makedirs] raises. *)
Lemma write_reports_computes_metrics_witness :
  reachable (self sample_world) ∧
  makedirs_error sample_world "out" = None ∧
  (compute_metrics (self sample_world) =
     (Return (_metrics (self (write_reports "out" sample_world).2)),
      self (write_reports "out" sample_world).2) ∧
   _results (self (write_reports "out" sample_world).2) =
     _results (self sample_world)) ∧
  makedirs_error sample_world "" = Some FileNotFoundError ∧
  write_reports "" sample_world = (Raise FileNotFoundError, sample_world).
Proof.
  split_and!; [exact sample_reachable|exact sample_makedirs| | |
               exact sample_no_directory|].
  - exact (proj1 (proj2 (write_reports_computes_metrics
                           "out" sample_world sample_reachable)
                    sample_makedirs)).
  - exact (proj2 (proj2 (write_reports_computes_metrics
                           "out" sample_world sample_reachable)
                    sample_makedirs)).
  - exact (proj1 (write_reports_computes_metrics
                    "" sample_world sample_reachable)
             FileNotFoundError sample_no_directory).
Defined.

Lemma sample_countable :
  Forall (λ item, countable item.2) (_results (self sample_world)).
Proof.
  change (_results (self sample_world)) with sample_results.
  remember sample_results as d eqn:Hd. vm_compute in Hd. subst d.
  repeat constructor; intros [] Hf; try done; eexists; vm_compute; reflexivity.
Qed.

Lemma blocked_makedirs :
  makedirs_error blocked_world "out" = Some FileExistsError.
Proof. vm_compute. reflexivity. Qed.

(** The sample returns into [out]; it does not with the empty path, nor
    when a file named [out] is in the way. *)
Lemma write_reports_returns_iff_witness :
  reachable (self sample_world) ∧
  (makedirs_error sample_world "out" = None ∧
   Forall (λ item, countable item.2) (_results (self sample_world)) ∧
   write_error sample_world (path_join "out" "top10_ctr.csv")
     (ctr_report (self sample_world)) = None ∧
   write_error sample_world (path_join "out" "top10_cpa.csv")
     (cpa_report (self sample_world)) = None) ∧
  (∃ w', write_reports "out" sample_world = (Return tt, w')) ∧
  makedirs_error sample_world "" = Some FileNotFoundError ∧
  ¬ (∃ w', write_reports "" sample_world = (Return tt, w')) ∧
  reachable (self blocked_world) ∧
  makedirs_error blocked_world "out" = Some FileExistsError ∧
  ¬ (∃ w', write_reports "out" blocked_world = (Return tt, w')).
Proof.
  assert (makedirs_error sample_world "out" = None ∧
          Forall (λ item, countable item.2) (_results (self sample_world)) ∧
          write_error sample_world (path_join "out" "top10_ctr.csv")
            (ctr_report (self sample_world)) = None ∧
          write_error sample_world (path_join "out" "top10_cpa.csv")
            (cpa_report (self sample_world)) = None) as Hcond.
  { split_and!; [exact sample_makedirs|exact sample_countable|..];
      vm_compute; reflexivity. }
  split; [exact sample_reachable|]. split; [exact Hcond|].
  split_and!; [|exact sample_no_directory| |exact sample_reachable
              |exact blocked_makedirs|].
  - exact (proj2 (proj1 (write_reports_returns_iff
                           "out" sample_world sample_reachable)) Hcond).
  - intros Hret.
    pose proof (proj1 (proj1 (proj1 (write_reports_returns_iff
                                       "" sample_world sample_reachable))
                         Hret)) as Hdir.
    rewrite sample_no_directory in Hdir. discriminate Hdir.
  - intros Hret.
    pose proof (proj1 (proj1 (proj1 (write_reports_returns_iff
                                       "out" blocked_world sample_reachable))
                         Hret)) as Hdir.
    rewrite blocked_makedirs in Hdir. discriminate Hdir.
Defined.

Lemma locked_write_reports :
  write_reports "out" locked_world = (Raise OSError, locked_reported).
Proof. vm_compute. reflexivity. Qed.

(** The sample into [out]; and where the CPA report cannot be opened: the
    CTR report is written by then, and its line printed. *)
Lemma write_reports_effects_witness :
  write_reports "out" sample_world = (Return tt, sample_reported) ∧
  ((∀ p, p ≠ path_join "out" "top10_ctr.csv" →
         p ≠ path_join "out" "top10_cpa.csv" →
         files sample_reported !! p = files sample_world !! p) ∧
   dirs sample_reported = {["out"]} ∪ dirs sample_world ∧
   stdout sample_reported = stdout sample_world ++ written_lines "out") ∧
  write_reports "out" locked_world = (Raise OSError, locked_reported) ∧
  ((∀ p, p ≠ path_join "out" "top10_ctr.csv" →
         p ≠ path_join "out" "top10_cpa.csv" →
         files locked_reported !! p = files locked_world !! p) ∧
   files locked_reported !! path_join "out" "top10_cpa.csv" =
     files locked_world !! path_join "out" "top10_cpa.csv" ∧
   (files locked_reported = files locked_world ∧
    stdout locked_reported = stdout locked_world ∨
    open_error locked_world (path_join "out" "top10_cpa.csv") = Some OSError ∧
    files locked_reported =
      csv_written (path_join "out" "top10_ctr.csv")
        (ctr_report (self locked_world)) (files locked_world) ∧
    stdout locked_reported =
      stdout locked_world ++ ["Written: " +:+ path_join "out" "top10_ctr.csv"])) ∧
  (row_campaign <$> files locked_reported !! "out/top10_ctr.csv") =
    Some [VStr "campaign_id"; VStr "CMP019"; VStr "CMP020"; VStr "CMP025"] ∧
  stdout locked_reported = ["Written: out/top10_ctr.csv"].
Proof.
  split; [exact sample_write_reports|]. split.
  { exact (write_reports_effects "out" sample_world (Return tt)
             sample_reported sample_write_reports). }
  split; [exact locked_write_reports|]. split.
  { exact (write_reports_effects "out" locked_world (Raise OSError)
             locked_reported locked_write_reports). }
  split; vm_compute; reflexivity.
Defined.

Lemma write_reports_rows_witness :
  reachable (self sample_world) ∧
  write_reports "out" sample_world = (Return tt, sample_reported) ∧
  ∃ ctr_rows cpa_rows,
    files sample_reported =
      csv_written (path_join "out" "top10_cpa.csv") cpa_rows
        (csv_written (path_join "out" "top10_ctr.csv") ctr_rows
           (files sample_world)) ∧
    NoDup (row_campaign_id <$> ctr_rows) ∧
    NoDup (row_campaign_id <$> cpa_rows) ∧
    Forall (λ r, ∃ a,
              dict_get (row_campaign_id r) (_results (self sample_world)) =
                Some a ∧
              row_of (row_campaign_id r, a) r) (ctr_rows ++ cpa_rows).
Proof.
  split_and!; [exact sample_reachable|exact sample_write_reports|].
  exact (write_reports_rows "out" sample_world sample_reported
           sample_reachable sample_write_reports).
Defined.

Lemma write_reports_row_counts_witness :
  reachable (self sample_world) ∧
  write_reports "out" sample_world = (Return tt, sample_reported) ∧
  ∃ ctr_rows cpa_rows,
    files sample_reported =
      csv_written (path_join "out" "top10_cpa.csv") cpa_rows
        (csv_written (path_join "out" "top10_ctr.csv") ctr_rows
           (files sample_world)) ∧
    length ctr_rows = (10 `min` length (_results (self sample_world)))%nat ∧
    length cpa_rows =
      (10 `min` length (converting (_results (self sample_world))))%nat ∧
    ((length (_results (self sample_world)) ≤ 10)%nat →
       row_campaign_id <$> ctr_rows ≡ₚ dict_keys (_results (self sample_world))) ∧
    ((length (converting (_results (self sample_world))) ≤ 10)%nat →
       row_campaign_id <$> cpa_rows ≡ₚ
         dict_keys (converting (_results (self sample_world)))).
Proof.
  split_and!; [exact sample_reachable|exact sample_write_reports|].
  exact (write_reports_row_counts "out" sample_world sample_reported
           sample_reachable sample_write_reports).
Defined.

Lemma ranked_reachable : reachable (self ranked_world).
Proof. exact (reachable_aggregate __init__ RANKED_DATA reachable_init). Qed.

Lemma ranked_write_reports :
  write_reports "out" ranked_world = (Return tt, ranked_reported).
Proof. vm_compute. reflexivity. Qed.

Lemma ranked_cpa_order :
  weak_order_on (cpa_values (_metrics (self ranked_reported))).
Proof. apply weak_order_on_check. vm_compute. reflexivity. Qed.

Lemma ranked_keys :
  dict_keys (_results (self ranked_world)) =
    [Some "K01"; Some "K02"; Some "K03"; Some "K04"; Some "K05"; Some "K06";
     Some "K07"; Some "K08"; Some "K09"; Some "K10"; Some "K11"; Some "K12"].
Proof. vm_compute. reflexivity. Qed.

Lemma ranked_ctr_ids :
  row_campaign_id <$> ctr_report (self ranked_world) =
    [Some "K10"; Some "K09"; Some "K08"; Some "K07"; Some "K06"; Some "K05";
     Some "K01"; Some "K02"; Some "K04"; Some "K03"].
Proof. vm_compute. reflexivity. Qed.

Lemma ranked_cpa_ids :
  row_campaign_id <$> cpa_report (self ranked_world) =
    [Some "K10"; Some "K09"; Some "K12"; Some "K08"; Some "K07"; Some "K06";
     Some "K11"; Some "K05"; Some "K01"; Some "K02"].
Proof. vm_compute. reflexivity. Qed.

Lemma ranked_metrics :
  dict_get (Some "K01") (_metrics (self ranked_reported)) =
    Some {| ctr := fl "0.05"; cpa := Some (fl "25") |} ∧
  dict_get (Some "K02") (_metrics (self ranked_reported)) =
    Some {| ctr := fl "0.05"; cpa := Some (fl "25") |} ∧
  dict_get (Some "K03") (_metrics (self ranked_reported)) =
    Some {| ctr := fl "0.03"; cpa := Some (fl "100") |} ∧
  dict_get (Some "K12") (_metrics (self ranked_reported)) =
    Some {| ctr := fl "0.02"; cpa := Some (fl "2.5") |}.
Proof. split_and!; vm_compute; reflexivity. Qed.

Lemma ranked_ctr_left_out :
  Some "K12" ∉ row_campaign_id <$> ctr_report (self ranked_world).
Proof.
  rewrite ranked_ctr_ids, !not_elem_of_cons.
  split_and!; [done..|]. apply not_elem_of_nil.
Qed.

Lemma ranked_cpa_left_out :
  Some "K03" ∉ row_campaign_id <$> cpa_report (self ranked_world).
Proof.
  rewrite ranked_cpa_ids, !not_elem_of_cons.
  split_and!; [done..|]. apply not_elem_of_nil.
Qed.


Lemma ranked_tie_in_keys :
  [Some "K01"; Some "K02"] `sublist_of` dict_keys (_results (self ranked_world)).
Proof.
  rewrite ranked_keys. apply sublist_skip, sublist_skip, sublist_nil_l.
Qed.


(** The fixture of the tests calls [compute_metrics] before
    [write_reports]: into [out] it makes no difference on the sample; with
    the empty path both raise the same, and [write_reports] alone leaves
    the metrics empty. *)
Lemma compute_metrics_then_write_reports_witness :
  reachable (self sample_world) ∧
  makedirs_error sample_world "out" = None ∧
  (call compute_metrics;; write_reports "out") sample_world =
    write_reports "out" sample_world ∧
  ((call compute_metrics;; write_reports "") sample_world).1 =
    (write_reports "" sample_world).1 ∧
  (write_reports "" sample_world).1 = Raise FileNotFoundError ∧
  _metrics (self (write_reports "" sample_world).2) = [] ∧
  _metrics (self ((call compute_metrics;; write_reports "") sample_world).2) ≠
    [].
Proof.
  split_and!; [exact sample_reachable|exact sample_makedirs| | |
               reflexivity|reflexivity|].
  - exact (proj2 (proj2 (proj2 (proj2 (compute_metrics_then_write_reports
                                         "out" sample_world sample_reachable))))
             sample_makedirs).
  - exact (proj1 (compute_metrics_then_write_reports
                    "" sample_world sample_reachable)).
  - intros Hnil. apply (f_equal length) in Hnil. vm_compute in Hnil.
    discriminate Hnil.
Defined.


Lemma malformed_unreadable : ¬ Forall readable (DictReader MALFORMED_DATA).
Proof.
  assert (DictReader MALFORMED_DATA =
            make_row HEADER <$>
              [["A"; "2025-01-01"; "100"; "5"; "2.5"; "1"];
               ["B"; "2025-01-02"; "7"; "abc"; "1.0"; "0"];
               ["A"; "2025-01-03"; "1"; "1"; "1.0"; "1"]]) as -> by done.
  rewrite !fmap_cons. intros Hall.
  apply Forall_cons in Hall as [_ Hall]. apply Forall_cons in Hall as [Hbad _].
  destruct Hbad as [_ Hops]. destruct (Hops Clicks) as [x Hx].
  vm_compute in Hx. discriminate.
Qed.

(** The three calls on the file whose second row has [clicks] =
    ["abc"]. *)
Lemma cli_calls_abort_on_unreadable_row_witness :
  ¬ Forall readable (DictReader MALFORMED_DATA) ∧
  ∃ e s',
    aggregate MALFORMED_DATA (self initial_world) = (Raise e, s') ∧
    (call (aggregate MALFORMED_DATA);; call compute_metrics;;
     write_reports "out") initial_world =
      (Raise e,
       {| self := s'; files := files initial_world;
          dirs := dirs initial_world; stdout := stdout initial_world;
          refused := refused initial_world |}) ∧
    _metrics s' = [].
Proof.
  split; [exact malformed_unreadable|].
  exact (cli_calls_abort_on_unreadable_row MALFORMED_DATA "out" initial_world
           malformed_unreadable).
Defined.

End BehaviourWitnesses.
